(** * Vendor booking platform: availability, booking lifecycle and payments

    A shallow embedding of the server side of the vendor booking platform
    (`server/services/bookingService.js`, `server/services/stripeService.js`,
    `server/services/firebaseService.js`, `server/controllers/*.js`) and the
    properties of it that the specification states.

    Modelling conventions.
    - A Firestore document and a JavaScript object are finite maps from
      property names to values ([gmap string jsval]); reading a property
      that is [undefined] is reading an absent key.  Object spread is map
      union, `ref.update(patch)` is a union that prefers the patch.
    - An object literal that is handed to the document store is kept as
      written ([Js.literal]): the store's client, with the settings it has
      unless told otherwise, rejects a document with a property that holds
      [undefined].
    - JavaScript numbers are exact rationals ([Q]); the rounding error of
      IEEE doubles is not modelled.
    - Timestamps are stored by the program as ISO strings and only ever read
      back through `new Date(...)`.  A string that `new Date` can parse is
      represented by the time value it denotes, [VTime t] (milliseconds since
      the epoch); every other string is a [VStr].  A `Date` is its time value,
      [None] standing for an Invalid Date, whose comparisons are all false.
    - Document identifiers (`listingId`, `req.params.id`, `req.user.uid`) are
      strings, and not empty where they address a document.  `new Date()`
      is the argument [now]; the clock readings taken within one call are
      identified.
    - A rejected promise / thrown `Error(msg)` is [Err msg]; a function that
      writes returns the new database. *)

From Stdlib Require Import ZArith QArith Qround Qabs Lia.
From stdpp Require Import gmap strings list fin_maps.

Set Warnings "-clear-no-such-hyp".

(** ** JavaScript values and operators *)

Inductive jsval :=
  | VStr (s : string)
  | VNum (q : Q)
  | VTime (t : Z).

Abbreviation doc := (gmap string jsval).

Inductive result (A : Type) :=
  | Ok (a : A)
  | Err (message : string).
Arguments Ok {A} a.
Arguments Err {A} message.

#[global] Instance result_bind : MBind result :=
  λ A B f m, match m with Ok a => f a | Err e => Err e end.

Module Js.

(** The time value of a `Date` object; [None] is NaN (Invalid Date). *)
Definition Date := option Z.

(** `!!v`: [undefined], the empty string and zero are falsy. *)
Definition truthy (v : option jsval) : bool :=
  match v with
  | None => false
  | Some (VStr s) => negb (String.eqb s "")
  | Some (VNum q) => negb (Qeq_bool q 0)
  | Some (VTime _) => true
  end.

(** `a || b` *)
Definition or (a b : option jsval) : option jsval :=
  if truthy a then a else b.

(** Equality of two defined values, as `===` and Firestore's `==` see it. *)
Definition val_eq (x y : jsval) : bool :=
  match x, y with
  | VStr a, VStr b => String.eqb a b
  | VNum a, VNum b => Qeq_bool a b
  | VTime a, VTime b => Z.eqb a b
  | _, _ => false
  end.

(** `a === b` *)
Definition strict_eq (a b : option jsval) : bool :=
  match a, b with
  | None, None => true
  | Some x, Some y => val_eq x y
  | _, _ => false
  end.

(** `new Date(v)`: a timestamp string gives its time value, a number is
    truncated and clipped to the range of ECMAScript time values, anything
    else is an Invalid Date. *)
Definition new_Date (v : option jsval) : Date :=
  match v with
  | Some (VTime t) => Some t
  | Some (VNum q) =>
      if Qle_bool (Qabs q) (inject_Z 8640000000000000)
      then Some (Z.quot (Qnum q) (Z.pos (Qden q))) else None
  | _ => None
  end.

(** Relational operators on dates compare time values; with NaN on either
    side the answer is [false]. *)
Definition date_rel (r : Z → Z → bool) (a b : Date) : bool :=
  match a, b with
  | Some x, Some y => r x y
  | _, _ => false
  end.
Definition date_lt := date_rel Z.ltb.
Definition date_le := date_rel Z.leb.
Definition date_gt := date_rel Z.gtb.
Definition date_ge := date_rel Z.geb.

(** `Math.round`: nearest integer, halves towards +infinity. *)
Definition Math_round (x : Q) : Z := Qfloor (x + (1 # 2)).

(** `{ ...o, k: v }`: sets property [k]; an [undefined] value leaves the
    property undefined. *)
Definition set_prop (k : string) (v : option jsval) (o : doc) : doc :=
  match v with
  | Some x => <[k := x]> o
  | None => delete k o
  end.

(** An object literal `{ ...o, k1: v1, ..., kn: vn }`: the object that is
    spread and the properties in the order written, each named once.  A
    value [None] is `undefined`: the property is there and holds no
    value. *)
Record literal := mkLiteral {
  spread : doc;
  properties : list (string * option jsval)
}.

(** The object a literal denotes, read through its properties. *)
Definition object_of (l : literal) : doc :=
  fold_left (λ o p, set_prop p.1 p.2 o) (properties l) (spread l).

(** Whether a property of the object holds `undefined`. *)
Definition holds_undefined (l : literal) : bool :=
  existsb (λ p, match p.2 with None => true | Some _ => false end)
          (properties l).

End Js.

(** ** The document database *)

Record Db := mkDb {
  listings : gmap string doc;
  bookings : gmap string doc;
  transactions : gmap string doc
}.

Definition set_bookings (bs : gmap string doc) (db : Db) : Db :=
  mkDb (listings db) bs (transactions db).

Definition set_transactions (ts : gmap string doc) (db : Db) : Db :=
  mkDb (listings db) (bookings db) ts.

Definition set_listings (ls : gmap string doc) (db : Db) : Db :=
  mkDb ls (bookings db) (transactions db).

Module Firestore.

(** What the client throws for a document with a property that holds
    `undefined`. *)
Definition invalid_document : string :=
  "Value for argument data is not a valid Firestore document".

(** `collection.add(data)`: stores [data] under an identifier that the
    collection does not use yet; a document with a property that holds
    `undefined` is rejected and nothing is stored. *)
Definition add (c : gmap string doc) (data : Js.literal)
  : result (string * gmap string doc) :=
  if Js.holds_undefined data then Err invalid_document
  else let id := fresh (dom c) in Ok (id, <[id := Js.object_of data]> c).

(** `collection.doc(id).set(data)`: stores [data] under [id], in place of
    what was there. *)
Definition set (c : gmap string doc) (id : string) (data : Js.literal)
  : result (gmap string doc) :=
  if Js.holds_undefined data then Err invalid_document
  else Ok (<[id := Js.object_of data]> c).

(** `collection.doc(id).update(patch)`: merges [patch] into the stored
    document; rejects ([None]) when there is no such document.  Every patch
    of the program holds at least one property and no `undefined` (a
    literal of strings, or update data to which `updatedAt` has been
    added), so the client's checks of the patch itself always pass. *)
Definition update (c : gmap string doc) (id : string) (patch : doc)
  : option (gmap string doc) :=
  match c !! id with
  | Some d => Some (<[id := patch ∪ d]> c)
  | None => None
  end.

(** The errors of the client library that the services can meet. *)
Definition not_found : string := "No document to update".
Definition invalid_query_value : string :=
  "Cannot use undefined as a Firestore value".

(** `query.where(field, op, value)` for the operators the services use. *)
Inductive condition :=
  | WhereEq (field : string) (value : jsval)
  | WhereIn (field : string) (values : list jsval)
  | WhereNe (field : string) (value : jsval).

(** A document without the field matches no condition on it. *)
Definition matches (d : doc) (c : condition) : bool :=
  match c with
  | WhereEq f v =>
      match d !! f with Some x => Js.val_eq x v | None => false end
  | WhereIn f vs =>
      match d !! f with Some x => existsb (Js.val_eq x) vs | None => false end
  | WhereNe f v =>
      match d !! f with Some x => negb (Js.val_eq x v) | None => false end
  end.

(** `collection.doc(path)` with a path that is not a string. *)
Definition invalid_document_path : string :=
  "Value for argument documentPath is not a valid resource path".

(** `collection.where(...).where(...).get()`: the snapshot's documents,
    each with its identifier. *)
Definition query (c : gmap string doc) (conditions : list condition)
  : list (string * doc) :=
  List.filter (λ p, forallb (matches p.2) conditions) (map_to_list c).

End Firestore.

Module FirebaseService.

(** `{ id: doc.id, ...doc.data() }` *)
Definition with_id (id : string) (data : doc) : doc :=
  data ∪ {[ "id" := VStr id ]}.

(** `createDocument(collection, data, id = null)`: with an [id] that is
    truthy the document is set under it, otherwise it is added under a new
    identifier. *)
Definition createDocument (c : gmap string doc) (data : Js.literal)
    (id : option string) : result (doc * gmap string doc) :=
  match id with
  | Some id =>
      if String.eqb id ""
      then '(id, c') ← Firestore.add c data;
           Ok (with_id id (Js.object_of data), c')
      else c' ← Firestore.set c id data;
           Ok (with_id id (Js.object_of data), c')
  | None =>
      '(id, c') ← Firestore.add c data;
      Ok (with_id id (Js.object_of data), c')
  end.

Definition getDocument (c : gmap string doc) (id : string) : option doc :=
  with_id id <$> c !! id.

Definition updateDocument (c : gmap string doc) (id : string) (data : doc)
  : option (gmap string doc) :=
  Firestore.update c id data.

Definition queryDocuments (c : gmap string doc)
    (conditions : list Firestore.condition) : list doc :=
  (λ p, with_id p.1 p.2) <$>
    List.filter (λ p, forallb (Firestore.matches p.2) conditions)
                (map_to_list c).

End FirebaseService.

(** ** Booking service (`server/services/bookingService.js`) *)

Module BookingService.
Import Js.

(** The overlap test of `checkAvailability` and `updateBooking`. *)
Definition overlap_test (start end_ bookingStart bookingEnd : Date) : bool :=
  (date_ge start bookingStart && date_lt start bookingEnd)
  || (date_gt end_ bookingStart && date_le end_ bookingEnd)
  || (date_le start bookingStart && date_ge end_ bookingEnd).

Definition bookingStart (booking : doc) : Date := new_Date (booking !! "startTime").
Definition bookingEnd (booking : doc) : Date := new_Date (booking !! "endTime").

(** `for (const booking of bookings) { ... return false; } return true;` *)
Fixpoint scan (start end_ : Date) (bookings : list doc) : bool :=
  match bookings with
  | [] => true
  | booking :: rest =>
      if overlap_test start end_ (bookingStart booking) (bookingEnd booking)
      then false
      else scan start end_ rest
  end.

(** The specification's overlap of the half-open intervals [[s1,e1)] and
    [[s2,e2)]: [s1 < e2] and [s2 < e1]. *)
Definition half_open_overlap (s1 e1 s2 e2 : Date) : bool :=
  date_lt s1 e2 && date_lt s2 e1.

(** A stored booking that reserves the listing: its `listingId` is the
    listing's and its `status` is 'pending' or 'confirmed'. *)
Definition active_for (listingId : string) (d : doc) : Prop :=
  d !! "listingId" = Some (VStr listingId)
  ∧ (d !! "status" = Some (VStr "pending")
     ∨ d !! "status" = Some (VStr "confirmed")).

(** The bookings `checkAvailability` fetches for a listing. *)
Definition activeBookings (db : Db) (listingId : string) : list doc :=
  FirebaseService.queryDocuments (bookings db)
    [ Firestore.WhereEq "listingId" (VStr listingId);
      Firestore.WhereIn "status" [VStr "pending"; VStr "confirmed"] ].

Definition checkAvailability (db : Db) (listingId : string)
    (startTime endTime : option jsval) : result bool :=
  let start := new_Date startTime in
  let end_ := new_Date endTime in
  if date_ge start end_ then Err "End time must be after start time"
  else Ok (scan start end_ (activeBookings db listingId)).

(** The object literal `newBooking` of `createBooking`. *)
Definition newBooking (now : Z) (listing bookingData : doc) : literal :=
  {| spread := bookingData;
     properties :=
       [ ("vendorId", listing !! "vendorId");
         ("totalAmount", or (bookingData !! "totalAmount") (listing !! "price"));
         ("status", or (bookingData !! "status") (Some (VStr "pending")));
         ("paymentStatus", Some (VStr "pending"));
         ("createdAt", Some (VTime now)) ] |}.

(** `createBooking(bookingData)`; [listingId] is `bookingData.listingId`
    and [fields] the other properties of `bookingData`. *)
Definition createBooking (db : Db) (now : Z) (listingId : string) (fields : doc)
  : result (Db * doc) :=
  let bookingData := <["listingId" := VStr listingId]> fields in
  match FirebaseService.getDocument (listings db) listingId with
  | None => Err "Listing not found"
  | Some listing =>
      if negb (strict_eq (listing !! "status") (Some (VStr "active")))
      then Err "Listing is not active"
      else
        isAvailable ← checkAvailability db listingId
                        (bookingData !! "startTime") (bookingData !! "endTime");
        if negb isAvailable
        then Err "The requested time slot is not available"
        else
          '(createdBooking, bookings') ←
            FirebaseService.createDocument (bookings db)
              (newBooking now listing bookingData) None;
          Ok (set_bookings bookings' db, createdBooking)
  end.

(** `updateBooking(bookingId, updateData)`.  The second loop of the source
    applies the same test as [scan] and throws where [scan] answers
    [false].  A booking without `listingId` cannot be queried for
    (`where` rejects `undefined`). *)
Definition updateBooking (db : Db) (now : Z) (bookingId : string)
    (updateData : doc) : result (Db * option doc) :=
  match FirebaseService.getDocument (bookings db) bookingId with
  | None => Err "Booking not found"
  | Some booking =>
      _ ← (if truthy (updateData !! "startTime") || truthy (updateData !! "endTime")
           then
             let startTime := or (updateData !! "startTime") (booking !! "startTime") in
             let endTime := or (updateData !! "endTime") (booking !! "endTime") in
             match booking !! "listingId" with
             | None => Err Firestore.invalid_query_value
             | Some listingId =>
                 let overlappingBookings :=
                   FirebaseService.queryDocuments (bookings db)
                     [ Firestore.WhereEq "listingId" listingId;
                       Firestore.WhereIn "status" [VStr "pending"; VStr "confirmed"];
                       Firestore.WhereNe "id" (VStr bookingId) ] in
                 let start := new_Date startTime in
                 let end_ := new_Date endTime in
                 if date_ge start end_ then Err "End time must be after start time"
                 else if scan start end_ overlappingBookings then Ok ()
                 else Err "The requested time slot is not available"
             end
           else Ok ());
      let updateData := <["updatedAt" := VTime now]> updateData in
      match FirebaseService.updateDocument (bookings db) bookingId updateData with
      | None => Err Firestore.not_found
      | Some bookings' =>
          Ok (set_bookings bookings' db,
              FirebaseService.getDocument bookings' bookingId)
      end
  end.

(** `cancelBooking(bookingId, userId, cancelReason = '')` *)
Definition cancelBooking (db : Db) (now : Z) (bookingId userId cancelReason : string)
  : result (Db * option doc) :=
  match FirebaseService.getDocument (bookings db) bookingId with
  | None => Err "Booking not found"
  | Some booking =>
      if negb (strict_eq (booking !! "vendorId") (Some (VStr userId)))
         && negb (strict_eq (booking !! "userId") (Some (VStr userId)))
      then Err "Unauthorized to cancel this booking"
      else if strict_eq (booking !! "status") (Some (VStr "cancelled"))
      then Err "Booking is already cancelled"
      else if date_lt (bookingStart booking) (Some now)
      then Err "Cannot cancel past bookings"
      else
        let updateData : doc :=
          {[ "status" := VStr "cancelled";
             "cancelReason" := VStr cancelReason;
             "cancelledBy" := VStr userId;
             "cancelledAt" := VTime now;
             "updatedAt" := VTime now ]} in
        match FirebaseService.updateDocument (bookings db) bookingId updateData with
        | None => Err Firestore.not_found
        | Some bookings' =>
            Ok (set_bookings bookings' db,
                FirebaseService.getDocument bookings' bookingId)
        end
  end.

(** The object `getBookingMetrics` returns.  [totalRevenue] is [None] once
    `+=` has met an amount that is not a number (JavaScript then
    concatenates strings). *)
Record Metrics := mkMetrics {
  totalBookings : nat;
  pendingBookings : nat;
  confirmedBookings : nat;
  cancelledBookings : nat;
  upcomingBookings : nat;
  pastBookings : nat;
  totalRevenue : option Q
}.

(** `totalRevenue += booking.totalAmount || 0` *)
Definition add_amount (totalRevenue : option Q) (booking : doc) : option Q :=
  match totalRevenue, or (booking !! "totalAmount") (Some (VNum 0)) with
  | Some r, Some (VNum q) => Some (r + q)%Q
  | _, _ => None
  end.

(** The body of `bookings.forEach(booking => { ... })`. *)
Definition count_booking (now : Z) (m : Metrics) (booking : doc) : Metrics :=
  let status_is s := strict_eq (booking !! "status") (Some (VStr s)) in
  let upcoming := date_gt (bookingStart booking) (new_Date (Some (VTime now))) in
  {| totalBookings := totalBookings m;
     pendingBookings :=
       if status_is "pending" then S (pendingBookings m) else pendingBookings m;
     confirmedBookings :=
       if status_is "pending" then confirmedBookings m
       else if status_is "confirmed" then S (confirmedBookings m) else confirmedBookings m;
     cancelledBookings :=
       if status_is "pending" then cancelledBookings m
       else if status_is "confirmed" then cancelledBookings m
       else if status_is "cancelled" then S (cancelledBookings m) else cancelledBookings m;
     upcomingBookings :=
       if upcoming then S (upcomingBookings m) else upcomingBookings m;
     pastBookings :=
       if upcoming then pastBookings m else S (pastBookings m);
     totalRevenue :=
       if strict_eq (booking !! "paymentStatus") (Some (VStr "paid"))
       then add_amount (totalRevenue m) booking
       else totalRevenue m |}.

Definition vendorBookings (db : Db) (vendorId : string) : list doc :=
  FirebaseService.queryDocuments (bookings db)
    [ Firestore.WhereEq "vendorId" (VStr vendorId) ].

Definition getBookingMetrics (db : Db) (now : Z) (vendorId : string) : Metrics :=
  let bookings := vendorBookings db vendorId in
  fold_left (count_booking now)
    bookings
    {| totalBookings := length bookings;
       pendingBookings := 0; confirmedBookings := 0; cancelledBookings := 0;
       upcomingBookings := 0; pastBookings := 0;
       totalRevenue := Some 0%Q |}.

(** The amount a booking contributes when it is a number. *)
Definition amount_of (booking : doc) : Q :=
  match booking !! "totalAmount" with
  | Some (VNum q) => q
  | _ => 0
  end.

(** The sum of `totalAmount` over the bookings of a list whose
    `paymentStatus` is 'paid'. *)
Definition paidBookingRevenue (bookings : list doc) : Q :=
  fold_right
    (λ booking acc,
       if strict_eq (booking !! "paymentStatus") (Some (VStr "paid"))
       then (amount_of booking + acc)%Q else acc)
    0%Q bookings.

(** The revenue as the specification words it: the sum of `amount` over
    the vendor's transactions whose `status` is 'completed'. *)
Definition completedTransactionRevenue (db : Db) (vendorId : string) : Q :=
  fold_right
    (λ t acc,
       match t !! "amount" with
       | Some (VNum q) => (q + acc)%Q
       | _ => acc
       end)
    0%Q
    (FirebaseService.queryDocuments (transactions db)
       [ Firestore.WhereEq "vendorId" (VStr vendorId);
         Firestore.WhereEq "status" (VStr "completed") ]).

(** No two distinct stored bookings that reserve the same listing overlap
    as half-open intervals. *)
Definition no_double_booking (db : Db) : Prop :=
  ∀ listingId id1 id2 d1 d2,
    id1 ≠ id2 →
    bookings db !! id1 = Some d1 → bookings db !! id2 = Some d2 →
    active_for listingId d1 → active_for listingId d2 →
    half_open_overlap (bookingStart d1) (bookingEnd d1)
      (bookingStart d2) (bookingEnd d2) = false.

End BookingService.

(** ** The payment processor *)

Module Stripe.

(** The argument of `stripe.paymentIntents.create`.  Amounts are integers
    in the smallest currency unit (cents). *)
Record IntentParams := mkIntentParams {
  amount : Z;
  currency : string;
  application_fee_amount : Z;
  metadata : doc;
  description : option string;
  customer : option string
}.

(** The payment intent object of the processor. *)
Record PaymentIntent := mkPaymentIntent {
  pi_id : string;
  pi_client_secret : string;
  pi_amount : Z;
  pi_status : string;
  pi_metadata : doc
}.

(** `stripe.paymentIntents.create`: the processor answers with an intent
    or the call throws. *)
Definition create_fn := IntentParams → result PaymentIntent.

(** What `stripe.webhooks.constructEvent` yields for a payload whose
    signature verifies. *)
Inductive Event :=
  | payment_intent_succeeded (object : PaymentIntent)
  | payment_intent_payment_failed (object : PaymentIntent)
  | other_event (type : string).

(** The argument of `stripe.refunds.create`. *)
Record RefundParams := mkRefundParams {
  payment_intent : string;
  refund_amount : option Z;
  reason : string
}.

(** The refund object of the processor. *)
Record Refund := mkRefund {
  re_id : string;
  re_status : string
}.

(** `stripe.refunds.create` *)
Definition refund_fn := RefundParams → result Refund.

End Stripe.

(** A falsy string (`undefined` or `''`) read as `undefined`:
    `customerId || undefined`. *)
Definition or_undefined (s : option string) : option string :=
  match s with
  | Some x => if String.eqb x "" then None else Some x
  | None => None
  end.

(** ** Payment service (`server/services/stripeService.js`) *)

Module StripeService.
Import Js.

(** `paymentData` of `createPaymentIntent`, typed as its JSDoc says. *)
Record PaymentData := mkPaymentData {
  bookingId : string;
  amount : Q;
  vendorId : option string;
  customerId : option string;
  description : option string
}.

(** `Math.round(amount * 0.05)`, the value passed as `application_fee_amount`. *)
Definition applicationFeeAmount (amount : Q) : Z :=
  Math_round (amount * (5 # 100)).

(** The object literal passed to `stripe.paymentIntents.create`. *)
Definition intentParams (paymentData : PaymentData) : Stripe.IntentParams :=
  {| Stripe.amount := Math_round (amount paymentData * 100);
     Stripe.currency := "usd";
     Stripe.application_fee_amount := applicationFeeAmount (amount paymentData);
     Stripe.metadata :=
       set_prop "customerId"
         (Some (VStr (default "unknown" (or_undefined (customerId paymentData)))))
         (set_prop "vendorId" (VStr <$> vendorId paymentData)
            {[ "bookingId" := VStr (bookingId paymentData) ]});
     Stripe.description :=
       Some (default ("Payment for booking #" +:+ bookingId paymentData)
               (or_undefined (description paymentData)));
     Stripe.customer := or_undefined (customerId paymentData) |}.

(** What `createPaymentIntent` resolves to. *)
Record IntentDetails := mkIntentDetails {
  id : string;
  clientSecret : string;
  charged : Q;
  status : string
}.

Definition createPaymentIntent (stripe : Stripe.create_fn) (db : Db)
    (paymentData : PaymentData) : result (Db * IntentDetails) :=
  match stripe (intentParams paymentData) with
  | Err error => Err error
  | Ok paymentIntent =>
      match Firestore.update (bookings db) (bookingId paymentData)
              {[ "stripePaymentIntentId" := VStr (Stripe.pi_id paymentIntent);
                 "paymentStatus" := VStr "pending" ]} with
      | None => Err Firestore.not_found
      | Some bookings' =>
          Ok (set_bookings bookings' db,
              {| id := Stripe.pi_id paymentIntent;
                 clientSecret := Stripe.pi_client_secret paymentIntent;
                 charged := amount paymentData;
                 status := Stripe.pi_status paymentIntent |})
      end
  end.

(** The object `transactionData` of `processSuccessfulPayment`. *)
Definition transactionData (now : Z) (bookingId : jsval) (vendorId : option jsval)
    (paymentIntent : Stripe.PaymentIntent) : literal :=
  let amount := (inject_Z (Stripe.pi_amount paymentIntent) / 100)%Q in
  let fee := (amount * (5 # 100))%Q in
  let net := (amount - fee)%Q in
  {| spread := ∅;
     properties :=
       [ ("bookingId", Some bookingId);
         ("vendorId", vendorId);
         ("amount", Some (VNum amount));
         ("fee", Some (VNum fee));
         ("net", Some (VNum net));
         ("stripePaymentId", Some (VStr (Stripe.pi_id paymentIntent)));
         ("status", Some (VStr "completed"));
         ("createdAt", Some (VTime now)) ] |}.

(** `processSuccessfulPayment(paymentIntent)`: what is thrown is logged and
    thrown again.  When the metadata has no `vendorId` the transaction is
    rejected after the booking has been updated; that update stays in the
    store, which [Err] does not carry. *)
Definition processSuccessfulPayment (db : Db) (now : Z)
    (paymentIntent : Stripe.PaymentIntent) : result (Db * doc) :=
  match Stripe.pi_metadata paymentIntent !! "bookingId" with
  | Some (VStr bookingId) =>
      match bookings db !! bookingId with
      | None => Err "Booking not found"
      | Some _ =>
          match Firestore.update (bookings db) bookingId
                  {[ "paymentStatus" := VStr "paid";
                     "stripePaymentId" := VStr (Stripe.pi_id paymentIntent) ]} with
          | None => Err Firestore.not_found
          | Some bookings' =>
              let db := set_bookings bookings' db in
              let data :=
                transactionData now (VStr bookingId)
                  (Stripe.pi_metadata paymentIntent !! "vendorId") paymentIntent in
              '(id, transactions') ← Firestore.add (transactions db) data;
              Ok (set_transactions transactions' db,
                  FirebaseService.with_id id (object_of data))
          end
      end
  | _ => Err Firestore.invalid_document_path
  end.

(** `processFailedPayment(paymentIntent)` *)
Definition processFailedPayment (db : Db)
    (paymentIntent : Stripe.PaymentIntent) : result (Db * bool) :=
  match Stripe.pi_metadata paymentIntent !! "bookingId" with
  | Some (VStr bookingId) =>
      match Firestore.update (bookings db) bookingId
              {[ "paymentStatus" := VStr "failed" ]} with
      | None => Err Firestore.not_found
      | Some bookings' => Ok (set_bookings bookings' db, true)
      end
  | _ => Err Firestore.invalid_document_path
  end.

(** `refundData` of `processRefund`, typed as its JSDoc says. *)
Record RefundData := mkRefundData {
  paymentIntentId : string;
  refundDollars : option Q;
  refundReason : option string
}.

(** What `processRefund` resolves to; [refunded] is [None] for `null`. *)
Record RefundDetails := mkRefundDetails {
  refundId : string;
  refunded : option Q;
  refundStatus : string
}.

(** `amount ? Math.round(amount * 100) : undefined` *)
Definition refundAmount (amount : option Q) : option Z :=
  match amount with
  | Some a => if Qeq_bool a 0 then None else Some (Math_round (a * 100))
  | None => None
  end.

(** The object literal passed to `stripe.refunds.create`. *)
Definition refundParams (refundData : RefundData) : Stripe.RefundParams :=
  {| Stripe.payment_intent := paymentIntentId refundData;
     Stripe.refund_amount := refundAmount (refundDollars refundData);
     Stripe.reason :=
       default "requested_by_customer" (or_undefined (refundReason refundData)) |}.

(** `processRefund(refundData)` *)
Definition processRefund (refunds : Stripe.refund_fn) (refundData : RefundData)
  : result RefundDetails :=
  match refunds (refundParams refundData) with
  | Err error => Err error
  | Ok refund =>
      Ok {| refundId := Stripe.re_id refund;
            refunded :=
              match refundAmount (refundDollars refundData) with
              | Some cents =>
                  if Z.eqb cents 0 then None else Some (inject_Z cents / 100)%Q
              | None => None
              end;
            refundStatus := Stripe.re_status refund |}
  end.

End StripeService.

(** ** HTTP handlers *)

(** `res.status(code).json(body)` *)
Record Response := mkResponse {
  code : Z;
  json : doc
}.

Definition error_response (code : Z) (message : string) : Response :=
  mkResponse code {[ "error" := VStr message ]}.

(** ** Payment controller (`server/controllers/paymentController.js`) *)

Module paymentController.
Import Js.

(** `req.body` of `createPaymentIntent`. *)
Record Body := mkBody {
  bookingId : option string;
  amount : option Q;
  customerId : option string
}.

(** The object literal passed to `stripe.paymentIntents.create`. *)
Definition intentParams (bookingId : string) (amount : Q)
    (customerId : option string) (bookingData : doc) : Stripe.IntentParams :=
  {| Stripe.amount := Math_round (amount * 100);
     Stripe.currency := "usd";
     Stripe.application_fee_amount := Math_round (amount * (5 # 100));
     Stripe.metadata :=
       set_prop "customerId" (bookingData !! "userId")
         (set_prop "vendorId" (bookingData !! "vendorId")
            {[ "bookingId" := VStr bookingId ]});
     Stripe.description := None;
     Stripe.customer := or_undefined customerId |}.

Definition createPaymentIntent (stripe : Stripe.create_fn) (db : Db)
    (uid : string) (body : Body) : Db * Response :=
  match or_undefined (bookingId body), amount body with
  | Some bookingId, Some amount =>
      if Qeq_bool amount 0
      then (db, error_response 400 "Missing required fields")
      else
        match bookings db !! bookingId with
        | None => (db, error_response 404 "Booking not found")
        | Some bookingData =>
            if negb (strict_eq (bookingData !! "vendorId") (Some (VStr uid)))
               && negb (strict_eq (bookingData !! "userId") (Some (VStr uid)))
            then (db, error_response 403 "Unauthorized")
            else
              match stripe (intentParams bookingId amount (customerId body) bookingData) with
              | Err _ => (db, error_response 500 "Failed to create payment")
              | Ok paymentIntent =>
                  match Firestore.update (bookings db) bookingId
                          {[ "stripePaymentIntentId" := VStr (Stripe.pi_id paymentIntent);
                             "paymentStatus" := VStr "pending" ]} with
                  | None => (db, error_response 500 "Failed to create payment")
                  | Some bookings' =>
                      (set_bookings bookings' db,
                       mkResponse 200
                         {[ "clientSecret" := VStr (Stripe.pi_client_secret paymentIntent) ]})
                  end
              end
        end
  | _, _ => (db, error_response 400 "Missing required fields")
  end.

(** The record `handleSuccessfulPayment` adds to `transactions`. *)
Definition transactionRecord (now : Z) (bookingId : jsval) (vendorId : option jsval)
    (paymentIntent : Stripe.PaymentIntent) : literal :=
  let amount := (inject_Z (Stripe.pi_amount paymentIntent) / 100)%Q in
  let fee := (amount * (5 # 100))%Q in
  let net := (amount - fee)%Q in
  {| spread := ∅;
     properties :=
       [ ("bookingId", Some bookingId);
         ("vendorId", vendorId);
         ("amount", Some (VNum amount));
         ("fee", Some (VNum fee));
         ("net", Some (VNum net));
         ("stripePaymentId", Some (VStr (Stripe.pi_id paymentIntent)));
         ("status", Some (VStr "completed"));
         ("createdAt", Some (VTime now)) ] |}.

(** `handleSuccessfulPayment(paymentIntent)`: whatever is thrown inside is
    caught and logged, so the handler always returns; a `bookingId` that
    is not a string makes `doc(bookingId)` throw.  When the metadata has no
    `vendorId` the transaction is rejected: the booking has been updated
    and no transaction is stored. *)
Definition handleSuccessfulPayment (db : Db) (now : Z)
    (paymentIntent : Stripe.PaymentIntent) : Db :=
  match Stripe.pi_metadata paymentIntent !! "bookingId" with
  | Some (VStr bookingId) =>
      match bookings db !! bookingId with
      | None => db
      | Some bookingData =>
          match Firestore.update (bookings db) bookingId
                  {[ "paymentStatus" := VStr "paid";
                     "stripePaymentId" := VStr (Stripe.pi_id paymentIntent) ]} with
          | None => db
          | Some bookings' =>
              let db := set_bookings bookings' db in
              let record :=
                transactionRecord now (VStr bookingId)
                  (Stripe.pi_metadata paymentIntent !! "vendorId") paymentIntent in
              match Firestore.add (transactions db) record with
              | Ok (_, transactions') => set_transactions transactions' db
              | Err _ => db
              end
          end
      end
  | _ => db
  end.

(** `handleFailedPayment(paymentIntent)` *)
Definition handleFailedPayment (db : Db)
    (paymentIntent : Stripe.PaymentIntent) : Db :=
  match Stripe.pi_metadata paymentIntent !! "bookingId" with
  | Some (VStr bookingId) =>
      match Firestore.update (bookings db) bookingId
              {[ "paymentStatus" := VStr "failed" ]} with
      | None => db
      | Some bookings' => set_bookings bookings' db
      end
  | _ => db
  end.

(** `handleWebhook(req, res)`; [event] is the outcome of
    `stripe.webhooks.constructEvent`, [None] when it throws. *)
Definition handleWebhook (db : Db) (now : Z) (event : option Stripe.Event)
  : Db * Z :=
  match event with
  | None => (db, 400%Z)
  | Some (Stripe.payment_intent_succeeded paymentIntent) =>
      (handleSuccessfulPayment db now paymentIntent, 200%Z)
  | Some (Stripe.payment_intent_payment_failed failedPayment) =>
      (handleFailedPayment db failedPayment, 200%Z)
  | Some (Stripe.other_event _) => (db, 200%Z)
  end.

End paymentController.

(** ** Booking controller (`server/controllers/bookingController.js`) *)

(** `req.user`, the decoded identity token. *)
Record User := mkUser {
  uid : string;
  name : option jsval;
  email : option jsval
}.

Module bookingController.
Import Js.

(** The object literal `newBooking` of `createBooking`, which the route
    `POST /bookings` repeats. *)
Definition newBooking (now : Z) (user : User) (listingId : string)
    (listingData body : doc) : literal :=
  {| spread := ∅;
     properties :=
       [ ("listingId", Some (VStr listingId));
         ("vendorId", listingData !! "vendorId");
         ("userId", Some (VStr (uid user)));
         ("customerName",
            or (or (body !! "customerName") (name user)) (Some (VStr "")));
         ("customerEmail",
            or (or (body !! "customerEmail") (email user)) (Some (VStr "")));
         ("customerPhone", or (body !! "customerPhone") (Some (VStr "")));
         ("startTime", body !! "startTime");
         ("endTime", body !! "endTime");
         ("status", Some (VStr "pending"));
         ("notes", or (body !! "notes") (Some (VStr "")));
         ("totalAmount", listingData !! "price");
         ("paymentStatus", Some (VStr "pending"));
         ("createdAt", Some (VTime now)) ] |}.

(** `createBooking(req, res)`; [listingId] is `req.body.listingId`.  What
    `add` throws has no `code` and a message that `handleFirestoreError`
    matches with none of its words, so the answer is 500 with the default
    message. *)
Definition createBooking (db : Db) (now : Z) (user : User)
    (listingId : string) (body : doc) : Db * Response :=
  match listings db !! listingId with
  | None => (db, error_response 404 "Listing not found")
  | Some listingData =>
      if negb (strict_eq (listingData !! "status") (Some (VStr "active")))
      then (db, error_response 400 "This listing is not currently active")
      else
        match Firestore.add (bookings db)
                (newBooking now user listingId listingData body) with
        | Ok (id, bookings') =>
            (set_bookings bookings' db,
             mkResponse 201
               (FirebaseService.with_id id
                  (object_of (newBooking now user listingId listingData body))))
        | Err _ => (db, error_response 500 "Failed to create booking")
        end
  end.

Definition allowedFields : list string :=
  [ "status"; "startTime"; "endTime"; "notes"; "customerName";
    "customerEmail"; "customerPhone"; "totalAmount" ].

(** `allowedFields.forEach(field => { if (req.body[field] !== undefined)
    updateData[field] = req.body[field]; })` *)
Definition pick (fields : list string) (body : doc) : doc :=
  fold_left
    (λ updateData field,
       match body !! field with
       | Some v => <[field := v]> updateData
       | None => updateData
       end)
    fields ∅.

(** `updateBooking(req, res)`; [id] is `req.params.id`. *)
Definition updateBooking (db : Db) (now : Z) (user : User)
    (id : string) (body : doc) : Db * Response :=
  match bookings db !! id with
  | None => (db, error_response 404 "Booking not found")
  | Some bookingData =>
      if negb (strict_eq (bookingData !! "vendorId") (Some (VStr (uid user))))
      then (db, error_response 403 "Unauthorized")
      else
        let updateData := <["updatedAt" := VTime now]> (pick allowedFields body) in
        match Firestore.update (bookings db) id updateData with
        | None => (db, error_response 500 "Failed to update booking")
        | Some bookings' =>
            (set_bookings bookings' db,
             mkResponse 200 (updateData ∪ FirebaseService.with_id id bookingData))
        end
  end.

(** `cancelBooking(req, res)` (customer action) *)
Definition cancelBooking (db : Db) (now : Z) (user : User) (id : string)
  : Db * Response :=
  match bookings db !! id with
  | None => (db, error_response 404 "Booking not found")
  | Some bookingData =>
      if negb (strict_eq (bookingData !! "userId") (Some (VStr (uid user))))
      then (db, error_response 403 "Unauthorized")
      else if strict_eq (bookingData !! "status") (Some (VStr "cancelled"))
      then (db, error_response 400 "Booking is already cancelled")
      else if date_lt (new_Date (bookingData !! "startTime")) (Some now)
      then (db, error_response 400 "Cannot cancel past bookings")
      else
        match Firestore.update (bookings db) id
                {[ "status" := VStr "cancelled"; "updatedAt" := VTime now ]} with
        | None => (db, error_response 500 "Failed to cancel booking")
        | Some bookings' =>
            (set_bookings bookings' db,
             mkResponse 200
               ({[ "status" := VStr "cancelled"; "updatedAt" := VTime now ]}
                  ∪ FirebaseService.with_id id bookingData))
        end
  end.

End bookingController.

(** ** Request validation (`server/middleware/validation.js`) *)

Module validation.
Import Js.

(** `validateBookingData(req, res, next)`: the response it sends, or [None]
    when it calls `next()`.  `new Date` does not throw, so the `catch` that
    answers 'Invalid date format' is never entered. *)
Definition validateBookingData (body : doc) : option Response :=
  if negb (truthy (body !! "listingId"))
     || negb (truthy (body !! "startTime"))
     || negb (truthy (body !! "endTime"))
  then Some (error_response 400 "Missing required fields")
  else
    let start := new_Date (body !! "startTime") in
    let end_ := new_Date (body !! "endTime") in
    if date_ge start end_
    then Some (error_response 400 "End time must be after start time")
    else None.

End validation.

(** ** Booking routes (`server/routes/bookings.js`) *)

Module bookingRoutes.
Import Js.

(** `router.post('/', verifyAuth, validateBookingData, handler)`.  A
    `listingId` that is not a string makes `doc(listingId)` throw, and a
    document with an `undefined` property makes `add` throw; the handler
    answers both with 500. *)
Definition post (db : Db) (now : Z) (user : User) (body : doc) : Db * Response :=
  match validation.validateBookingData body with
  | Some response => (db, response)
  | None =>
      match body !! "listingId" with
      | Some (VStr listingId) =>
          match listings db !! listingId with
          | None => (db, error_response 404 "Listing not found")
          | Some listingData =>
              let newBooking :=
                bookingController.newBooking now user listingId listingData body in
              match Firestore.add (bookings db) newBooking with
              | Ok (id, bookings') =>
                  (set_bookings bookings' db,
                   mkResponse 201
                     (FirebaseService.with_id id (object_of newBooking)))
              | Err _ => (db, error_response 500 "Failed to create booking")
              end
          end
      | _ => (db, error_response 500 "Failed to create booking")
      end
  end.

Definition allowedFields : list string :=
  [ "status"; "startTime"; "endTime"; "notes"; "customerName";
    "customerEmail"; "customerPhone" ].

(** `router.put('/:id', verifyAuth, handler)` *)
Definition put (db : Db) (now : Z) (user : User) (id : string) (body : doc)
  : Db * Response :=
  match bookings db !! id with
  | None => (db, error_response 404 "Booking not found")
  | Some bookingData =>
      if negb (strict_eq (bookingData !! "vendorId") (Some (VStr (uid user))))
      then (db, error_response 403 "Unauthorized")
      else
        let updateData :=
          <["updatedAt" := VTime now]> (bookingController.pick allowedFields body) in
        match Firestore.update (bookings db) id updateData with
        | None => (db, error_response 500 "Failed to update booking")
        | Some bookings' =>
            (set_bookings bookings' db,
             mkResponse 200 (updateData ∪ FirebaseService.with_id id bookingData))
        end
  end.

End bookingRoutes.

(** ** Listing controller (`server/controllers/listingController.js`) *)

Module listingController.
Import Js.

(** A booking that the deletion check finds: it names the listing and its
    `status` is there and is not 'cancelled'. *)
Definition blocks_deletion (listingId : string) (booking : doc) : Prop :=
  booking !! "listingId" = Some (VStr listingId)
  ∧ ∃ status, booking !! "status" = Some status ∧ status ≠ VStr "cancelled".

(** `deleteListing(req, res)`; [id] is `req.params.id`. *)
Definition deleteListing (db : Db) (user : User) (id : string) : Db * Response :=
  match listings db !! id with
  | None => (db, error_response 404 "Listing not found")
  | Some listingData =>
      if negb (strict_eq (listingData !! "vendorId") (Some (VStr (uid user))))
      then (db, error_response 403 "Unauthorized")
      else
        match Firestore.query (bookings db)
                [ Firestore.WhereEq "listingId" (VStr id);
                  Firestore.WhereNe "status" (VStr "cancelled") ] with
        | [] =>
            (set_listings (delete id (listings db)) db,
             mkResponse 200 {[ "message" := VStr "Listing deleted successfully" ]})
        | _ :: _ =>
            (db, error_response 400 "Cannot delete listing with active bookings")
        end
  end.

End listingController.

(** ** User controller (`server/controllers/userController.js`) *)

Module userController.
Import Js.

(** The object `getDashboardMetrics` answers with.  A revenue is [None]
    once `+=` has met an amount that is not a number. *)
Record Dashboard := mkDashboard {
  totalListings : nat;
  activeListings : nat;
  totalBookings : nat;
  pendingBookings : nat;
  completedBookings : nat;
  totalRevenue : option Q;
  currentMonthRevenue : option Q
}.

(** `revenue += data.amount || 0` *)
Definition add_amount (revenue : option Q) (data : doc) : option Q :=
  match revenue, or (data !! "amount") (Some (VNum 0)) with
  | Some r, Some (VNum q) => Some (r + q)%Q
  | _, _ => None
  end.

Definition vendorDocs (c : gmap string doc) (vendorId : string) : list doc :=
  snd <$> Firestore.query c [ Firestore.WhereEq "vendorId" (VStr vendorId) ].

(** `getDashboardMetrics(req, res)`; [startOfMonth] is the time value of
    `new Date(now.getFullYear(), now.getMonth(), 1)`. *)
Definition getDashboardMetrics (db : Db) (startOfMonth : Z) (user : User)
  : Dashboard :=
  let vendorId := uid user in
  let listingsQuery := vendorDocs (listings db) vendorId in
  let bookingsQuery := vendorDocs (bookings db) vendorId in
  let transactionsQuery := vendorDocs (transactions db) vendorId in
  let status_is (s : string) (data : doc) :=
    strict_eq (data !! "status") (Some (VStr s)) in
  {| totalListings := length listingsQuery;
     activeListings :=
       fold_left (λ n data, if status_is "active" data then S n else n)
         listingsQuery 0;
     totalBookings := length bookingsQuery;
     pendingBookings :=
       fold_left (λ n data, if status_is "pending" data then S n else n)
         bookingsQuery 0;
     completedBookings :=
       fold_left
         (λ n data,
            if status_is "pending" data then n
            else if status_is "completed" data then S n else n)
         bookingsQuery 0;
     totalRevenue := fold_left add_amount transactionsQuery (Some 0%Q);
     currentMonthRevenue :=
       fold_left
         (λ revenue data,
            if date_ge (new_Date (data !! "createdAt")) (Some startOfMonth)
            then add_amount revenue data else revenue)
         transactionsQuery (Some 0%Q) |}.

End userController.

(** ** Object helpers (`server/utils/validators.js`) *)

Module validators.

(** `sanitizeObject(obj, fieldsToRemove)` for an object [obj], whatever
    its properties hold. *)
Definition sanitizeObject {V : Type} (obj : gmap string V)
    (fieldsToRemove : list string) : gmap string V :=
  fold_left (λ sanitized field, delete field sanitized) fieldsToRemove obj.





End validators.

(** ** Frames *)

(** The database [db'] differs from [db] at most in the booking [id], and
    there at most in the properties [fields] and `updatedAt`: listings,
    transactions and all other bookings are the same, no booking is
    created or deleted. *)
Definition changes_only (fields : list string) (id : string) (db db' : Db)
  : Prop :=
  listings db' = listings db
  ∧ transactions db' = transactions db
  ∧ (∀ other, other ≠ id → bookings db' !! other = bookings db !! other)
  ∧ match bookings db !! id with
    | None => bookings db' !! id = None
    | Some d =>
        ∃ d', bookings db' !! id = Some d'
              ∧ ∀ k, k ∉ fields → k ≠ "updatedAt" → d' !! k = d !! k
    end.

(** ** Worked examples *)

Module Examples.
Import Js.

Definition hour (h : Z) : Z := (h * 3600000)%Z.

Definition listingL : doc :=
  {[ "vendorId" := VStr "vendor1"; "price" := VNum 80; "status" := VStr "active" ]}.

Definition booking (listing user status : string) (s e : Z) : doc :=
  {[ "listingId" := VStr listing; "vendorId" := VStr "vendor1";
     "userId" := VStr user; "status" := VStr status;
     "startTime" := VTime s; "endTime" := VTime e;
     "totalAmount" := VNum 80; "paymentStatus" := VStr "pending" ]}.

Definition db0 : Db :=
  mkDb {[ "L" := listingL ]} ∅ ∅.

(** One pending booking of listing L from 10:00 to 11:00. *)
Definition db1 : Db :=
  mkDb {[ "L" := listingL ]}
       {[ "b1" := booking "L" "alice" "pending" (hour 10) (hour 11) ]} ∅.

(** The store after the vendor has edited booking b1 through the HTTP
    handler `updateBooking` to start at 12:00 and end at 09:00: the handler
    writes `startTime` and `endTime` unchecked, so the stored interval is
    out of order. *)
Definition dbInverted : Db :=
  (bookingController.updateBooking db1 1 (mkUser "vendor1" None None) "b1"
     {[ "startTime" := VTime (hour 12); "endTime" := VTime (hour 9) ]}).1.

(** A request for 11:00-12:00 that also carries `status` and
    `totalAmount`. *)
Definition request_confirmed : doc :=
  {[ "startTime" := VTime (hour 11); "endTime" := VTime (hour 12);
     "status" := VStr "confirmed"; "totalAmount" := VNum 1 ]}.

(** One cancelled booking, in the future of time 0. *)
Definition dbCancelled : Db :=
  mkDb {[ "L" := listingL ]}
       {[ "bc" := booking "L" "alice" "cancelled" (hour 10) (hour 11) ]} ∅.

(** The processor's intent for booking b1: 80.00 dollars, in cents. *)
Definition intent1 : Stripe.PaymentIntent :=
  {| Stripe.pi_id := "pi_1";
     Stripe.pi_client_secret := "pi_1_secret";
     Stripe.pi_amount := 8000;
     Stripe.pi_status := "succeeded";
     Stripe.pi_metadata :=
       {[ "bookingId" := VStr "b1"; "vendorId" := VStr "vendor1";
          "customerId" := VStr "alice" ]} |}.

(** Booking b1 once its payment has succeeded. *)
Definition dbPaid : Db :=
  mkDb {[ "L" := listingL ]}
       {[ "b1" := <["paymentStatus" := VStr "paid"]>
                    (<["stripePaymentId" := VStr "pi_1"]>
                       (booking "L" "alice" "confirmed" (hour 10) (hour 11))) ]}
       ∅.

(** A processor that answers every request with the intent pi_2. *)
Definition stripe_ok : Stripe.create_fn :=
  λ params,
    Ok {| Stripe.pi_id := "pi_2";
            Stripe.pi_client_secret := "pi_2_secret";
            Stripe.pi_amount := Stripe.amount params;
            Stripe.pi_status := "requires_payment_method";
            Stripe.pi_metadata := Stripe.metadata params |}.

(** A refund processor that accepts every request. *)
Definition refunds_ok : Stripe.refund_fn :=
  λ params, Ok {| Stripe.re_id := "re_1"; Stripe.re_status := "succeeded" |}.

(** Two bookings of listing L as the handlers store them: 10:00-11:00 and
    11:00-12:00. *)
Definition db2 : Db :=
  mkDb {[ "L" := listingL ]}
       {[ "b1" := booking "L" "alice" "pending" (hour 10) (hour 11);
          "b2" := booking "L" "bob" "confirmed" (hour 11) (hour 12) ]} ∅.



(** A request to refund 12.34 dollars of the payment pi_1. *)
Definition refund_12_34 : StripeService.RefundData :=
  {| StripeService.paymentIntentId := "pi_1";
     StripeService.refundDollars := Some (1234 # 100);
     StripeService.refundReason := None |}.

(** Requests for the slots 11:00-12:00 and 10:30-10:45. *)
Definition request_11_12 : doc :=
  {[ "startTime" := VTime (hour 11); "endTime" := VTime (hour 12) ]}.

Definition request_1030_1045 : doc :=
  {[ "startTime" := VTime (hour 10 + 1800000);
     "endTime" := VTime (hour 10 + 2700000) ]}.

End Examples.

(** Reading a property of `{ ...d, ...patch }` for a literal [patch]. *)
Ltac patch_lookup :=
  rewrite ?lookup_union, ?lookup_insert, ?lookup_singleton;
  repeat case_decide; try congruence; simpl;
  try rewrite union_Some_l; try rewrite (left_id_L None union);
  try reflexivity.

(** * Properties *)

(** ** JavaScript operators *)

Section js_facts.
Import Js.

Lemma val_eq_VStr (x : jsval) (s : string) :
  val_eq x (VStr s) = true ↔ x = VStr s.
Proof.
  destruct x as [a|q|t]; simpl; try (split; [discriminate | congruence]).
  rewrite String.eqb_eq. split; congruence.
Qed.

Lemma strict_eq_VStr (v : option jsval) (s : string) :
  strict_eq v (Some (VStr s)) = true ↔ v = Some (VStr s).
Proof.
  destruct v as [x|]; simpl.
  - rewrite val_eq_VStr. split; congruence.
  - split; discriminate.
Qed.

Lemma strict_eq_VStr_false (v : option jsval) (s : string) :
  strict_eq v (Some (VStr s)) = false ↔ v ≠ Some (VStr s).
Proof.
  rewrite <- strict_eq_VStr. destruct (strict_eq _ _); split; congruence.
Qed.

End js_facts.

(** ** The document store *)

Section store_facts.

Lemma with_id_lookup (id k : string) (d : doc) :
  k ≠ "id" → FirebaseService.with_id id d !! k = d !! k.
Proof.
  intros Hk. unfold FirebaseService.with_id.
  rewrite lookup_union, lookup_singleton_ne by done.
  by destruct (d !! k).
Qed.

Lemma elem_of_queryDocuments (c : gmap string doc)
    (conds : list Firestore.condition) (b : doc) :
  b ∈ FirebaseService.queryDocuments c conds ↔
  ∃ id d, c !! id = Some d
          ∧ forallb (Firestore.matches d) conds = true
          ∧ b = FirebaseService.with_id id d.
Proof.
  unfold FirebaseService.queryDocuments.
  rewrite list_elem_of_fmap. split.
  - intros ([id d] & -> & Hin).
    apply list_elem_of_In, filter_In in Hin as [Hin Hm].
    apply list_elem_of_In, elem_of_map_to_list in Hin. eauto.
  - intros (id & d & Hc & Hm & ->). exists (id, d). split; [done|].
    apply list_elem_of_In, filter_In. split; [|done].
    by apply list_elem_of_In, elem_of_map_to_list.
Qed.

Lemma update_Some (c : gmap string doc) (id : string) (patch d : doc) :
  c !! id = Some d → Firestore.update c id patch = Some (<[id := patch ∪ d]> c).
Proof. intros H. unfold Firestore.update. by rewrite H. Qed.

Lemma update_None (c : gmap string doc) (id : string) (patch : doc) :
  c !! id = None → Firestore.update c id patch = None.
Proof. intros H. unfold Firestore.update. by rewrite H. Qed.

Lemma fresh_free (c : gmap string doc) : c !! fresh (dom c) = None.
Proof. apply not_elem_of_dom, is_fresh. Qed.

Lemma add_Ok (c : gmap string doc) (data : Js.literal) :
  Js.holds_undefined data = false →
  Firestore.add c data
  = Ok (fresh (dom c), <[fresh (dom c) := Js.object_of data]> c).
Proof. intros H. unfold Firestore.add. by rewrite H. Qed.

Lemma add_Err (c : gmap string doc) (data : Js.literal) :
  Js.holds_undefined data = true →
  Firestore.add c data = Err Firestore.invalid_document.
Proof. intros H. unfold Firestore.add. by rewrite H. Qed.

End store_facts.

(** ** Availability *)

Section availability.
Import Js BookingService.

(** On a booking whose own interval is in order, the three-case test of
    the source is the half-open overlap. *)
Lemma overlap_test_half_open (s e bs be : Date) :
  date_lt s e = true → date_ge bs be = false →
  overlap_test s e bs be = half_open_overlap s e bs be.
Proof.
  unfold overlap_test, half_open_overlap, date_lt, date_le, date_gt, date_ge.
  destruct s as [s|], e as [e|], bs as [bs|], be as [be|]; simpl;
    try discriminate; try reflexivity;
    try (intros _ _; by rewrite ?andb_false_r).
  intros Hse Hb. apply Z.ltb_lt in Hse. rewrite Z.geb_leb in Hb.
  apply Z.leb_gt in Hb.
  rewrite !Z.geb_leb, !Z.gtb_ltb.
  destruct (Z.leb_spec bs s), (Z.ltb_spec s be), (Z.ltb_spec bs e),
    (Z.leb_spec e be), (Z.leb_spec s bs), (Z.leb_spec be e);
    simpl; try reflexivity; lia.
Qed.

(** A half-open overlap is always reported by the source's test. *)
Lemma half_open_overlap_test (s e bs be : Date) :
  half_open_overlap s e bs be = true → overlap_test s e bs be = true.
Proof.
  unfold overlap_test, half_open_overlap, date_lt, date_le, date_gt, date_ge.
  destruct s as [s|], e as [e|], bs as [bs|], be as [be|]; simpl;
    try discriminate; try (rewrite ?andb_false_r; discriminate).
  rewrite !Z.geb_leb, !Z.gtb_ltb.
  destruct (Z.leb_spec bs s), (Z.ltb_spec s be), (Z.ltb_spec bs e),
    (Z.leb_spec e be), (Z.leb_spec s bs), (Z.leb_spec be e);
    simpl; try reflexivity; try discriminate; lia.
Qed.

Lemma scan_true (s e : Date) (l : list doc) :
  scan s e l = true ↔
  ∀ b, b ∈ l → overlap_test s e (bookingStart b) (bookingEnd b) = false.
Proof.
  induction l as [|b l IH]; simpl.
  - split; [|done]. intros _ b Hb. by apply elem_of_nil in Hb.
  - destruct (overlap_test s e (bookingStart b) (bookingEnd b)) eqn:Hb.
    + split; [discriminate|]. intros H.
      specialize (H b (list_elem_of_here _ _)). congruence.
    + rewrite IH. split.
      * intros H b' [->|Hb']%elem_of_cons; auto.
      * intros H b' Hb'. apply H. by apply list_elem_of_further.
Qed.

(** The loop stops at the first booking that fails the test: what comes
    after it is not looked at. *)
Lemma scan_first (s e : Date) (pre post : list doc) (b : doc) :
  scan s e pre = true →
  overlap_test s e (bookingStart b) (bookingEnd b) = true →
  scan s e (pre ++ b :: post) = false.
Proof.
  induction pre as [|p pre IH]; simpl; intros Hpre Hb.
  - by rewrite Hb.
  - destruct (overlap_test s e (bookingStart p) (bookingEnd p)); [done|].
    by apply IH.
Qed.

Lemma elem_of_activeBookings (db : Db) (listingId : string) (b : doc) :
  b ∈ activeBookings db listingId ↔
  ∃ id d, bookings db !! id = Some d ∧ active_for listingId d
          ∧ b = FirebaseService.with_id id d.
Proof.
  unfold activeBookings. rewrite elem_of_queryDocuments.
  split; intros (id & d & Hd & Hm & ->); exists id, d;
    (split; [done|]); (split; [|done]).
  - simpl in Hm. rewrite !andb_true_iff in Hm. destruct Hm as (Hl & Hs & _).
    split.
    + destruct (d !! "listingId") as [x|]; [|done].
      apply val_eq_VStr in Hl. by subst.
    + destruct (d !! "status") as [x|]; [|done]. simpl in Hs.
      rewrite !orb_true_iff, !val_eq_VStr in Hs.
      destruct Hs as [->|[->|?]]; auto; done.
  - destruct Hm as (Hl & Hs). simpl. rewrite Hl.
    rewrite (proj2 (val_eq_VStr _ _) eq_refl). simpl.
    destruct Hs as [-> | ->]; reflexivity.
Qed.

Lemma with_id_start (id : string) (d : doc) :
  bookingStart (FirebaseService.with_id id d) = bookingStart d.
Proof. unfold bookingStart. by rewrite with_id_lookup. Qed.

Lemma with_id_end (id : string) (d : doc) :
  bookingEnd (FirebaseService.with_id id d) = bookingEnd d.
Proof. unfold bookingEnd. by rewrite with_id_lookup. Qed.

(** `checkAvailability` in terms of the stored bookings. *)
Lemma checkAvailability_spec (db : Db) (listingId : string)
    (startTime endTime : option jsval) :
  date_ge (new_Date startTime) (new_Date endTime) = false →
  ∃ r, checkAvailability db listingId startTime endTime = Ok r
       ∧ (r = true ↔
          ∀ id d, bookings db !! id = Some d → active_for listingId d →
            overlap_test (new_Date startTime) (new_Date endTime)
              (bookingStart d) (bookingEnd d) = false).
Proof.
  intros Hge. unfold checkAvailability. rewrite Hge.
  eexists; split; [reflexivity|]. rewrite scan_true. split.
  - intros H id d Hd Ha.
    rewrite <- (with_id_start id d), <- (with_id_end id d).
    apply H, elem_of_activeBookings. eauto.
  - intros H b (id & d & Hd & Ha & ->)%elem_of_activeBookings.
    rewrite with_id_start, with_id_end. eauto.
Qed.

Lemma scan_false (s e : Date) (l : list doc) :
  scan s e l = false ↔
  ∃ b, b ∈ l ∧ overlap_test s e (bookingStart b) (bookingEnd b) = true.
Proof.
  induction l as [|b l IH]; simpl.
  - split; [discriminate|]. intros (b & Hb & _). by apply elem_of_nil in Hb.
  - destruct (overlap_test s e (bookingStart b) (bookingEnd b)) eqn:Hb.
    + split; [|done]. intros _. exists b. split; [apply list_elem_of_here|done].
    + rewrite IH. split.
      * intros (b' & Hin & Hb'). exists b'. split; [by apply list_elem_of_further|done].
      * intros (b' & [->|Hin]%elem_of_cons & Hb'); [congruence|eauto].
Qed.

Lemma checkAvailability_false (db : Db) (listingId : string)
    (startTime endTime : option jsval) :
  checkAvailability db listingId startTime endTime = Ok false ↔
  date_ge (new_Date startTime) (new_Date endTime) = false
  ∧ ∃ id d, bookings db !! id = Some d ∧ active_for listingId d
      ∧ overlap_test (new_Date startTime) (new_Date endTime)
          (bookingStart d) (bookingEnd d) = true.
Proof.
  unfold checkAvailability.
  destruct (date_ge (new_Date startTime) (new_Date endTime)).
  - split; [discriminate|]. by intros [? _].
  - split.
    + intros [= H]. split; [done|].
      apply scan_false in H as (b & Hin & Hb).
      apply elem_of_activeBookings in Hin as (id & d & Hd & Ha & ->).
      rewrite with_id_start, with_id_end in Hb. eauto 6.
    + intros (_ & id & d & Hd & Ha & Hb). f_equal. apply scan_false.
      exists (FirebaseService.with_id id d). split.
      * apply elem_of_activeBookings. eauto.
      * by rewrite with_id_start, with_id_end.
Qed.

(** In every store, a pending or confirmed booking that overlaps the
    candidate as a half-open interval makes `checkAvailability` answer
    false. *)
Lemma overlap_is_reported (db : Db) (listingId : string)
    (startTime endTime : option jsval) (id : string) (d : doc) :
  date_ge (new_Date startTime) (new_Date endTime) = false →
  bookings db !! id = Some d → active_for listingId d →
  half_open_overlap (new_Date startTime) (new_Date endTime)
    (bookingStart d) (bookingEnd d) = true →
  checkAvailability db listingId startTime endTime = Ok false.
Proof.
  intros Hge Hd Ha Hb. apply checkAvailability_false. split; [done|].
  exists id, d. split; [done|]. split; [done|].
  by apply half_open_overlap_test.
Qed.

Lemma date_lt_not_ge (a b : Date) : date_lt a b = true → date_ge a b = false.
Proof.
  destruct a, b; simpl; try discriminate.
  rewrite Z.geb_leb. intros H%Z.ltb_lt. apply Z.leb_gt. lia.
Qed.

(** C1 (amended).  For a candidate interval with startTime < endTime, and
    a store in which no pending or confirmed booking of the listing has its
    own startTime at or after its endTime, `checkAvailability` answers true
    exactly when no such booking overlaps the candidate as a half-open
    interval (s1 < e2 and s2 < e1), and false exactly when one does; so
    bookings that only touch the candidate at a boundary are no conflict,
    and the answer is false as soon as the fetched list holds an
    overlapping booking, whatever follows it. *)
Theorem checkAvailability_half_open (db : Db) (listingId : string)
    (startTime endTime : option jsval) :
  date_lt (new_Date startTime) (new_Date endTime) = true →
  (∀ id d, bookings db !! id = Some d → active_for listingId d →
     date_ge (bookingStart d) (bookingEnd d) = false) →
  (checkAvailability db listingId startTime endTime = Ok true ↔
     ∀ id d, bookings db !! id = Some d → active_for listingId d →
       half_open_overlap (new_Date startTime) (new_Date endTime)
         (bookingStart d) (bookingEnd d) = false)
  ∧ (checkAvailability db listingId startTime endTime = Ok false ↔
     ∃ id d, bookings db !! id = Some d ∧ active_for listingId d
       ∧ half_open_overlap (new_Date startTime) (new_Date endTime)
           (bookingStart d) (bookingEnd d) = true)
  ∧ ((∀ id d, bookings db !! id = Some d → active_for listingId d →
        date_le (bookingEnd d) (new_Date startTime) = true
        ∨ date_le (new_Date endTime) (bookingStart d) = true) →
     checkAvailability db listingId startTime endTime = Ok true)
  ∧ (∀ pre b post,
       activeBookings db listingId = pre ++ b :: post →
       half_open_overlap (new_Date startTime) (new_Date endTime)
         (bookingStart b) (bookingEnd b) = true →
       checkAvailability db listingId startTime endTime = Ok false).
Proof.
  intros Hlt Hwf.
  pose proof (date_lt_not_ge _ _ Hlt) as Hge.
  destruct (checkAvailability_spec db listingId startTime endTime Hge)
    as (r & Hr & Hspec).
  assert (Htrue : checkAvailability db listingId startTime endTime = Ok true ↔
     ∀ id d, bookings db !! id = Some d → active_for listingId d →
       half_open_overlap (new_Date startTime) (new_Date endTime)
         (bookingStart d) (bookingEnd d) = false).
  { rewrite Hr. split.
    - intros [= ->] id d Hd Ha.
      rewrite <- overlap_test_half_open by eauto.
      by apply (proj1 Hspec eq_refl id d).
    - intros H. f_equal. apply Hspec. intros id d Hd Ha.
      rewrite overlap_test_half_open by eauto. eauto. }
  split; [exact Htrue|]. split.
  - rewrite checkAvailability_false. split.
    + intros (_ & id & d & Hd & Ha & Hb). exists id, d.
      rewrite <- overlap_test_half_open by eauto. done.
    + intros (id & d & Hd & Ha & Hb). split; [done|]. exists id, d.
      rewrite overlap_test_half_open by eauto. done.
  - split.
    + intros Htouch. apply Htrue. intros id d Hd Ha.
      unfold half_open_overlap.
      destruct (Htouch id d Hd Ha) as [H|H]; revert H;
        unfold date_le, date_lt;
        destruct (new_Date startTime), (new_Date endTime),
          (bookingStart d), (bookingEnd d); simpl;
        rewrite ?andb_false_r; try done;
        intros H%Z.leb_le.
      * apply andb_false_iff. left. apply Z.ltb_ge. lia.
      * apply andb_false_iff. right. apply Z.ltb_ge. lia.
    + intros pre b post Hl Hb. unfold checkAvailability. rewrite Hge, Hl.
      f_equal. apply scan_false. exists b.
      split; [apply elem_of_app; right; apply list_elem_of_here|].
      by apply half_open_overlap_test.
Qed.

(** The slot 11:00-12:00 is free when the only booking is 10:00-11:00. *)
Lemma checkAvailability_half_open_witness :
  checkAvailability Examples.db1 "L"
    (Some (VTime (Examples.hour 11))) (Some (VTime (Examples.hour 12)))
  = Ok true.
Proof.
  apply (checkAvailability_half_open Examples.db1 "L"
           (Some (VTime (Examples.hour 11))) (Some (VTime (Examples.hour 12)))).
  - reflexivity.
  - intros id d Hd _. unfold Examples.db1 in Hd. cbn [bookings] in Hd.
    apply lookup_singleton_Some in Hd as [_ <-]. reflexivity.
  - intros id d Hd _. unfold Examples.db1 in Hd. cbn [bookings] in Hd.
    apply lookup_singleton_Some in Hd as [_ <-]. left. reflexivity.
Defined.

Lemma dbInverted_bookings :
  bookings Examples.dbInverted
  = {[ "b1" := <["updatedAt" := VTime 1]>
                 (<["startTime" := VTime (Examples.hour 12)]>
                    (<["endTime" := VTime (Examples.hour 9)]>
                       (Examples.booking "L" "alice" "pending"
                          (Examples.hour 10) (Examples.hour 11)))) ]}.
Proof. vm_cast_no_check (eq_refl (bookings Examples.dbInverted)). Qed.

(** C1 as stated fails on a stored booking whose interval is out of order.
    In [Examples.dbInverted] the pending booking runs 12:00-09:00: it shares
    no instant with the candidate 10:00-11:00 in the half-open sense
    (10:00 < 09:00 is false), yet the third case of the source's test
    (start <= bookingStart and end >= bookingEnd) reports a conflict. *)
Lemma checkAvailability_half_open_counterexample :
  date_lt (new_Date (Some (VTime (Examples.hour 10))))
          (new_Date (Some (VTime (Examples.hour 11)))) = true
  ∧ checkAvailability Examples.dbInverted "L"
      (Some (VTime (Examples.hour 10))) (Some (VTime (Examples.hour 11)))
    = Ok false
  ∧ ¬ (checkAvailability Examples.dbInverted "L"
         (Some (VTime (Examples.hour 10))) (Some (VTime (Examples.hour 11)))
       = Ok true ↔
       ∀ id d, bookings Examples.dbInverted !! id = Some d →
         active_for "L" d →
         half_open_overlap
           (new_Date (Some (VTime (Examples.hour 10))))
           (new_Date (Some (VTime (Examples.hour 11))))
           (bookingStart d) (bookingEnd d) = false).
Proof.
  split; [reflexivity|]. split; [by vm_compute|].
  intros [_ H].
  assert (Hno : ∀ id d, bookings Examples.dbInverted !! id = Some d →
         active_for "L" d →
         half_open_overlap
           (new_Date (Some (VTime (Examples.hour 10))))
           (new_Date (Some (VTime (Examples.hour 11))))
           (bookingStart d) (bookingEnd d) = false).
  { intros id d Hd _. rewrite dbInverted_bookings in Hd.
    apply lookup_singleton_Some in Hd as [_ <-]. by vm_compute. }
  specialize (H Hno). vm_compute in H. discriminate.
Qed.

End availability.

(** ** Booking lifecycle *)

Section lifecycle.
Import Js BookingService.

Lemma set_prop_lookup (k k' : string) (v : option jsval) (o : doc) :
  set_prop k v o !! k' = if decide (k = k') then v else o !! k'.
Proof.
  unfold set_prop. destruct v as [x|].
  - apply lookup_insert.
  - rewrite lookup_delete. by case_decide.
Qed.


(** `a || b` with a defined [b] is defined. *)
Lemma or_default_Some (a : option jsval) (b : jsval) :
  or a (Some b) = Some (default b (or a (Some b))).
Proof.
  unfold or. destruct a as [[s|q|t]|]; cbn; try done; by destruct (negb _).
Qed.

(** The object that the literal `newBooking` denotes. *)
Lemma newBooking_object (now : Z) (listing bookingData : doc) :
  object_of (newBooking now listing bookingData)
  = set_prop "createdAt" (Some (VTime now))
      (set_prop "paymentStatus" (Some (VStr "pending"))
        (set_prop "status"
           (or (bookingData !! "status") (Some (VStr "pending")))
          (set_prop "totalAmount"
             (or (bookingData !! "totalAmount") (listing !! "price"))
            (set_prop "vendorId" (listing !! "vendorId") bookingData)))).
Proof. reflexivity. Qed.

(** The literal `newBooking` holds `undefined` exactly when the listing
    has no `vendorId`, or has no `price` while the booking data has no
    truthy `totalAmount`. *)
Lemma newBooking_undefined (now : Z) (listing bookingData : doc) :
  holds_undefined (newBooking now listing bookingData) = true
  ↔ listing !! "vendorId" = None
    ∨ or (bookingData !! "totalAmount") (listing !! "price") = None.
Proof.
  unfold holds_undefined, newBooking. cbn [properties existsb snd].
  rewrite (or_default_Some (bookingData !! "status") (VStr "pending")).
  destruct (listing !! "vendorId") as [v|],
    (or (bookingData !! "totalAmount") (listing !! "price")) as [a|];
    cbn; split; try done; try (by left); try (by right).
  by intros [?|?].
Qed.

(** `createBooking`, one case per exit of the source. *)
Lemma createBooking_cases (db : Db) (now : Z) (listingId : string) (fields : doc) :
  createBooking db now listingId fields =
  match listings db !! listingId with
  | None => Err "Listing not found"
  | Some l =>
      if strict_eq (l !! "status") (Some (VStr "active")) then
        match checkAvailability db listingId
                (fields !! "startTime") (fields !! "endTime") with
        | Err e => Err e
        | Ok false => Err "The requested time slot is not available"
        | Ok true =>
            let id := fresh (dom (bookings db)) in
            let data :=
              newBooking now (FirebaseService.with_id listingId l)
                (<["listingId" := VStr listingId]> fields) in
            if holds_undefined data then Err Firestore.invalid_document
            else
              Ok (set_bookings (<[id := object_of data]> (bookings db)) db,
                  FirebaseService.with_id id (object_of data))
        end
      else Err "Listing is not active"
  end.
Proof.
  unfold createBooking, FirebaseService.getDocument.
  destruct (listings db !! listingId) as [l|]; simpl; [|done].
  rewrite with_id_lookup by done.
  destruct (strict_eq (l !! "status") (Some (VStr "active"))); simpl; [|done].
  rewrite !lookup_insert_ne by done.
  destruct (checkAvailability db listingId _ _) as [[|]|e]; try done.
  cbn [negb]. unfold FirebaseService.createDocument, Firestore.add.
  by destruct (holds_undefined _).
Qed.

Lemma createBooking_succeeds (db : Db) (now : Z) (listingId : string)
    (fields l : doc) :
  listings db !! listingId = Some l →
  l !! "status" = Some (VStr "active") →
  checkAvailability db listingId (fields !! "startTime") (fields !! "endTime")
    = Ok true →
  is_Some (l !! "vendorId") →
  is_Some (or (fields !! "totalAmount") (l !! "price")) →
  createBooking db now listingId fields
  = Ok (set_bookings
          (<[fresh (dom (bookings db)) :=
               object_of
                 (newBooking now (FirebaseService.with_id listingId l)
                    (<["listingId" := VStr listingId]> fields))]> (bookings db))
          db,
        FirebaseService.with_id (fresh (dom (bookings db)))
          (object_of
             (newBooking now (FirebaseService.with_id listingId l)
                (<["listingId" := VStr listingId]> fields)))).
Proof.
  intros Hl Hs Ha [v Hv] [a Hp]. rewrite createBooking_cases, Hl.
  rewrite (proj2 (strict_eq_VStr _ _) Hs), Ha. cbv zeta.
  destruct (holds_undefined _) eqn:Hu; [|done].
  apply newBooking_undefined in Hu.
  rewrite !with_id_lookup, lookup_insert_ne in Hu by done.
  destruct Hu; congruence.
Qed.

(** Creating a booking leaves the stored bookings as they are. *)
Lemma createBooking_keeps (db : Db) (now : Z) (listingId : string)
    (fields : doc) (db' : Db) (created : doc) (id : string) (d : doc) :
  createBooking db now listingId fields = Ok (db', created) →
  bookings db !! id = Some d → bookings db' !! id = Some d.
Proof.
  rewrite createBooking_cases.
  destruct (listings db !! listingId) as [l|]; [|done].
  destruct (strict_eq _ _); [|done].
  destruct (checkAvailability _ _ _ _) as [[|]|]; [|done..].
  cbv zeta. destruct (holds_undefined _); [done|].
  intros [= <- <-] Hd. cbn [bookings set_bookings].
  rewrite lookup_insert_ne; [done|]. intros <-.
  pose proof (is_fresh (dom (bookings db))) as Hf.
  apply not_elem_of_dom in Hf. congruence.
Qed.



Lemma newBooking_paymentStatus (now : Z) (listing bookingData : doc) :
  object_of (newBooking now listing bookingData) !! "paymentStatus"
  = Some (VStr "pending").
Proof.
  rewrite newBooking_object, !set_prop_lookup. by repeat case_decide.
Qed.

Lemma newBooking_status (now : Z) (listing bookingData : doc) :
  object_of (newBooking now listing bookingData) !! "status"
  = or (bookingData !! "status") (Some (VStr "pending")).
Proof.
  rewrite newBooking_object, !set_prop_lookup. by repeat case_decide.
Qed.

Lemma newBooking_totalAmount (now : Z) (listing bookingData : doc) :
  object_of (newBooking now listing bookingData) !! "totalAmount"
  = or (bookingData !! "totalAmount") (listing !! "price").
Proof.
  rewrite newBooking_object, !set_prop_lookup. by repeat case_decide.
Qed.

(** C7 (amended).  For every successful `BookingService.createBooking`,
    the persisted booking has paymentStatus 'pending'; its status is the
    status the caller supplied when that is truthy and 'pending'
    otherwise; its totalAmount is the totalAmount the caller supplied when
    that is truthy and the listing's price at creation time otherwise. *)
Theorem createBooking_persisted (db : Db) (now : Z) (listingId : string)
    (fields : doc) (db' : Db) (created : doc) :
  createBooking db now listingId fields = Ok (db', created) →
  ∃ id l stored,
    listings db !! listingId = Some l
    ∧ bookings db !! id = None
    ∧ bookings db' !! id = Some stored
    ∧ created = FirebaseService.with_id id stored
    ∧ stored !! "paymentStatus" = Some (VStr "pending")
    ∧ stored !! "status"
      = (if truthy (fields !! "status") then fields !! "status"
         else Some (VStr "pending"))
    ∧ stored !! "totalAmount"
      = (if truthy (fields !! "totalAmount") then fields !! "totalAmount"
         else l !! "price").
Proof.
  rewrite createBooking_cases.
  destruct (listings db !! listingId) as [l|]; [|done].
  destruct (strict_eq _ _); [|done].
  destruct (checkAvailability _ _ _ _) as [[|]|]; [|done..].
  cbv zeta. destruct (holds_undefined _); [done|].
  intros [= <- <-]. eexists _, l, _.
  split; [done|]. split; [apply not_elem_of_dom, is_fresh|].
  split; [apply lookup_insert_eq|]. split; [done|].
  rewrite newBooking_paymentStatus, newBooking_status, newBooking_totalAmount.
  rewrite !lookup_insert_ne, with_id_lookup by done. done.
Qed.

(** A request without `status` or `totalAmount` for the free slot
    11:00-12:00. *)
Lemma createBooking_persisted_witness :
  ∃ db' created,
    createBooking Examples.db1 0 "L"
      {[ "startTime" := VTime (Examples.hour 11);
         "endTime" := VTime (Examples.hour 12) ]} = Ok (db', created)
    ∧ ∃ id l stored,
        listings Examples.db1 !! "L" = Some l
        ∧ bookings Examples.db1 !! id = None
        ∧ bookings db' !! id = Some stored
        ∧ created = FirebaseService.with_id id stored
        ∧ stored !! "paymentStatus" = Some (VStr "pending")
        ∧ stored !! "status" = Some (VStr "pending")
        ∧ stored !! "totalAmount" = l !! "price".
Proof.
  assert (E := createBooking_succeeds Examples.db1 0 "L"
      {[ "startTime" := VTime (Examples.hour 11);
         "endTime" := VTime (Examples.hour 12) ]} Examples.listingL
      eq_refl eq_refl eq_refl (mk_is_Some _ _ eq_refl)
      (mk_is_Some _ _ eq_refl)).
  eexists _, _. split; [exact E|].
  exact (createBooking_persisted _ _ _ _ _ _ E).
Defined.

(** C7 as stated fails: a caller that supplies `status: 'confirmed'` and
    `totalAmount: 1` gets exactly these persisted, although the listing's
    price is 80. *)
Lemma createBooking_persisted_counterexample :
  ∃ db' created id stored,
    createBooking Examples.db1 0 "L" Examples.request_confirmed
      = Ok (db', created)
    ∧ bookings db' !! id = Some stored
    ∧ stored !! "status" = Some (VStr "confirmed")
    ∧ stored !! "totalAmount" = Some (VNum 1)
    ∧ Examples.listingL !! "price" = Some (VNum 80).
Proof.
  assert (E := createBooking_succeeds Examples.db1 0 "L"
      Examples.request_confirmed Examples.listingL eq_refl eq_refl eq_refl
      (mk_is_Some _ _ eq_refl) (mk_is_Some _ _ eq_refl)).
  eexists _, _, _, _. split; [exact E|].
  split; [apply lookup_insert_eq|].
  rewrite newBooking_status, newBooking_totalAmount.
  repeat split; by vm_compute.
Qed.

(** C8.  `BookingService.cancelBooking` fails with 'Booking not found'
    when the booking is absent, with 'Unauthorized to cancel this booking'
    unless the requester is the booking's vendorId or its userId, with
    'Booking is already cancelled' when the status is 'cancelled', with
    'Cannot cancel past bookings' when the start time is before the current
    time; otherwise it sets status to 'cancelled' and records cancelledBy,
    cancelledAt and cancelReason, leaving the other properties alone. *)
Theorem cancelBooking_spec (db : Db) (now : Z)
    (bookingId userId cancelReason : string) :
  match bookings db !! bookingId with
  | None =>
      cancelBooking db now bookingId userId cancelReason
      = Err "Booking not found"
  | Some d =>
      let authorized :=
        d !! "vendorId" = Some (VStr userId) ∨ d !! "userId" = Some (VStr userId) in
      (¬ authorized →
         cancelBooking db now bookingId userId cancelReason
         = Err "Unauthorized to cancel this booking")
      ∧ (authorized → d !! "status" = Some (VStr "cancelled") →
         cancelBooking db now bookingId userId cancelReason
         = Err "Booking is already cancelled")
      ∧ (authorized → d !! "status" ≠ Some (VStr "cancelled") →
         date_lt (bookingStart d) (Some now) = true →
         cancelBooking db now bookingId userId cancelReason
         = Err "Cannot cancel past bookings")
      ∧ (authorized → d !! "status" ≠ Some (VStr "cancelled") →
         date_lt (bookingStart d) (Some now) = false →
         ∃ d',
           cancelBooking db now bookingId userId cancelReason
           = Ok (set_bookings (<[bookingId := d']> (bookings db)) db,
                 Some (FirebaseService.with_id bookingId d'))
           ∧ d' !! "status" = Some (VStr "cancelled")
           ∧ d' !! "cancelledBy" = Some (VStr userId)
           ∧ d' !! "cancelledAt" = Some (VTime now)
           ∧ d' !! "cancelReason" = Some (VStr cancelReason)
           ∧ d' !! "updatedAt" = Some (VTime now)
           ∧ ∀ k, k ∉ ["status"; "cancelReason"; "cancelledBy";
                       "cancelledAt"; "updatedAt"] →
                  d' !! k = d !! k)
  end.
Proof.
  unfold cancelBooking, FirebaseService.getDocument,
    FirebaseService.updateDocument.
  destruct (bookings db !! bookingId) as [d|] eqn:Hd; simpl; [|done].
  rewrite !with_id_lookup by done. unfold bookingStart.
  rewrite !with_id_lookup by done.
  destruct (strict_eq (d !! "vendorId") (Some (VStr userId))) eqn:Hv;
    destruct (strict_eq (d !! "userId") (Some (VStr userId))) eqn:Hu;
    destruct (strict_eq (d !! "status") (Some (VStr "cancelled"))) eqn:Hs;
    destruct (date_lt (new_Date (d !! "startTime")) (Some now)) eqn:Hp;
    simpl;
    first [apply strict_eq_VStr in Hv | apply strict_eq_VStr_false in Hv];
    first [apply strict_eq_VStr in Hu | apply strict_eq_VStr_false in Hu];
    first [apply strict_eq_VStr in Hs | apply strict_eq_VStr_false in Hs].
  all: split; [try (intros; by intuition congruence)|].
  all: try (split; [try (intros; by intuition congruence)|]).
  all: try (split; [try (intros; by intuition congruence)|]).
  all: try (intros; by intuition congruence).
  all: intros _ _ _; rewrite (update_Some _ _ _ d Hd);
    eexists; (split; [by rewrite lookup_insert_eq|]).
  all: repeat (split; [by patch_lookup|]).
  all: intros k Hk; rewrite !not_elem_of_cons in Hk;
    destruct Hk as (? & ? & ? & ? & ? & _);
    rewrite lookup_union_r; [done|];
    by rewrite !lookup_insert_ne, lookup_singleton_ne by done.
Qed.

(** *** Updates and the booking status *)

Lemma pick_acc (fields : list string) (body acc : doc) (k : string) :
  fold_left
    (λ updateData field,
       match body !! field with
       | Some v => <[field := v]> updateData
       | None => updateData
       end) fields acc !! k
  = match (if decide (k ∈ fields) then body !! k else None) with
    | Some v => Some v
    | None => acc !! k
    end.
Proof.
  revert acc. induction fields as [|f fields IH]; intros acc; cbn [fold_left].
  - destruct (decide (k ∈ [])) as [H|]; [by apply elem_of_nil in H|done].
  - rewrite IH.
    assert (Hstep :
      match body !! f with Some v => <[f := v]> acc | None => acc end !! k
      = match (if decide (k = f) then body !! k else None) with
        | Some v => Some v
        | None => acc !! k
        end).
    { destruct (decide (k = f)) as [->|Hne].
      - destruct (body !! f); [by rewrite lookup_insert_eq|done].
      - destruct (body !! f); [by rewrite lookup_insert_ne|done]. }
    rewrite Hstep.
    destruct (decide (k ∈ fields)) as [Hin|Hin],
      (decide (k ∈ f :: fields)) as [Hin'|Hin'],
      (decide (k = f)) as [->|Hne];
      try (by destruct (body !! _)).
    + exfalso. apply Hin', list_elem_of_here.
    + exfalso. by apply Hin', list_elem_of_further.
    + exfalso. apply elem_of_cons in Hin' as [?|?]; done.
    + exfalso. apply Hin', list_elem_of_here.
Qed.

Lemma pick_lookup (fields : list string) (body : doc) (k : string) :
  bookingController.pick fields body !! k
  = if decide (k ∈ fields) then body !! k else None.
Proof.
  unfold bookingController.pick. rewrite pick_acc.
  case_decide; [|done]. by destruct (body !! k).
Qed.

(** A successful `BookingService.updateBooking` has merged the update
    data, stamped with `updatedAt`, into the stored booking. *)
Lemma updateBooking_Ok (db : Db) (now : Z) (bookingId : string)
    (updateData : doc) (db' : Db) (r : option doc) :
  updateBooking db now bookingId updateData = Ok (db', r) →
  ∃ d, bookings db !! bookingId = Some d
       ∧ bookings db'
         = <[bookingId := <["updatedAt" := VTime now]> updateData ∪ d]>
             (bookings db).
Proof.
  unfold updateBooking, FirebaseService.getDocument,
    FirebaseService.updateDocument.
  destruct (bookings db !! bookingId) as [d|] eqn:Hd; simpl; [|done].
  rewrite (update_Some _ _ _ d Hd).
  match goal with |- context [mbind _ ?m] => destruct m as [[]|e] end;
    simpl; [|done].
  intros [= <- <-]. eauto.
Qed.

(** Without new times there is nothing to check: the update goes through. *)
Lemma updateBooking_no_times (db : Db) (now : Z) (bookingId : string)
    (updateData d : doc) :
  bookings db !! bookingId = Some d →
  truthy (updateData !! "startTime") = false →
  truthy (updateData !! "endTime") = false →
  updateBooking db now bookingId updateData
  = Ok (set_bookings
          (<[bookingId := <["updatedAt" := VTime now]> updateData ∪ d]>
             (bookings db)) db,
        Some (FirebaseService.with_id bookingId
                (<["updatedAt" := VTime now]> updateData ∪ d))).
Proof.
  intros Hd Hs He.
  unfold updateBooking, FirebaseService.getDocument,
    FirebaseService.updateDocument.
  rewrite Hd. simpl. rewrite Hs, He. simpl.
  rewrite (update_Some _ _ _ d Hd). simpl.
  by rewrite lookup_insert_eq.
Qed.

(** Cancelling a booking whose status is 'cancelled' fails. *)
Lemma cancelBooking_cancelled (db : Db) (now : Z)
    (bookingId userId cancelReason : string) (d : doc) :
  bookings db !! bookingId = Some d →
  d !! "status" = Some (VStr "cancelled") →
  cancelBooking db now bookingId userId cancelReason
    = Err "Unauthorized to cancel this booking"
  ∨ cancelBooking db now bookingId userId cancelReason
    = Err "Booking is already cancelled".
Proof.
  intros Hd Hs. unfold cancelBooking, FirebaseService.getDocument.
  rewrite Hd. simpl. rewrite !with_id_lookup by done.
  destruct (negb _ && negb _); [by left|].
  rewrite (proj2 (strict_eq_VStr _ _) Hs). by right.
Qed.

Lemma merged_status (now : Z) (updateData d : doc) :
  (<["updatedAt" := VTime now]> updateData ∪ d) !! "status"
  = match updateData !! "status" with
    | Some v => Some v
    | None => d !! "status"
    end.
Proof.
  rewrite lookup_union, lookup_insert_ne by done.
  destruct (updateData !! "status"), (d !! "status"); done.
Qed.

(** C4 (amended).  For every stored booking, whatever its status (so also
    'cancelled' or 'completed'): creating a booking leaves it as it is;
    cancelling fails when its status is 'cancelled'; an update sets its
    status to the status carried by the update data, whatever the current
    status, and keeps the status only when the data carries none -- through
    `BookingService.updateBooking` and through the HTTP handler
    `updateBooking` for the owning vendor alike. *)
Theorem update_overwrites_status (db : Db) (now : Z) (id : string) (d : doc) :
  bookings db !! id = Some d →
  (∀ listingId fields db' created,
     createBooking db now listingId fields = Ok (db', created) →
     bookings db' !! id = Some d)
  ∧ (d !! "status" = Some (VStr "cancelled") →
     ∀ userId cancelReason,
       cancelBooking db now id userId cancelReason
         = Err "Unauthorized to cancel this booking"
       ∨ cancelBooking db now id userId cancelReason
         = Err "Booking is already cancelled")
  ∧ (∀ updateData db' r,
       updateBooking db now id updateData = Ok (db', r) →
       ∃ d', bookings db' !! id = Some d'
             ∧ d' !! "status" = match updateData !! "status" with
                                | Some v => Some v
                                | None => d !! "status"
                                end)
  ∧ (∀ updateData,
       truthy (updateData !! "startTime") = false →
       truthy (updateData !! "endTime") = false →
       ∃ db' r, updateBooking db now id updateData = Ok (db', r))
  ∧ (∀ user body,
       d !! "vendorId" = Some (VStr (uid user)) →
       ∃ db' resp d',
         bookingController.updateBooking db now user id body = (db', resp)
         ∧ code resp = 200%Z
         ∧ bookings db' !! id = Some d'
         ∧ d' !! "status" = match body !! "status" with
                            | Some v => Some v
                            | None => d !! "status"
                            end).
Proof.
  intros Hd. repeat split.
  - intros listingId fields db' created H.
    by apply (createBooking_keeps _ _ _ _ _ _ _ _ H).
  - intros Hs userId cancelReason. by apply (cancelBooking_cancelled _ _ _ _ _ d).
  - intros updateData db' r (d0 & Hd0 & ->)%updateBooking_Ok.
    assert (d0 = d) as -> by congruence.
    eexists. split; [apply lookup_insert_eq|apply merged_status].
  - intros updateData Hs He. eexists _, _.
    by apply (updateBooking_no_times db now id updateData d).
  - intros user body Hv. unfold bookingController.updateBooking.
    rewrite Hd, (proj2 (strict_eq_VStr _ _) Hv). simpl.
    rewrite (update_Some _ _ _ d Hd). eexists _, _, _.
    split; [done|]. split; [done|]. split; [apply lookup_insert_eq|].
    rewrite merged_status, pick_lookup.
    rewrite decide_True; [done|]. apply list_elem_of_here.
Qed.

(** The cancelled booking of [Examples.dbCancelled] becomes 'pending'
    again by an update that names a status. *)
Lemma update_overwrites_status_witness :
  ∃ db' r d',
    updateBooking Examples.dbCancelled 0 "bc" {[ "status" := VStr "pending" ]}
      = Ok (db', r)
    ∧ bookings db' !! "bc" = Some d'
    ∧ d' !! "status" = Some (VStr "pending").
Proof.
  destruct (update_overwrites_status Examples.dbCancelled 0 "bc"
              (Examples.booking "L" "alice" "cancelled"
                 (Examples.hour 10) (Examples.hour 11)) eq_refl)
    as (_ & _ & Hupd & Hex & _).
  destruct (Hex {[ "status" := VStr "pending" ]}) as (db' & r & E);
    [by vm_compute..|].
  destruct (Hupd _ _ _ E) as (d' & Hd' & Hs).
  exists db', r, d'. split; [exact E|]. split; [exact Hd'|exact Hs].
Defined.

(** C4 as stated fails: the vendor's update `{ status: 'pending' }` takes
    a 'cancelled' booking back to 'pending', in the service and in the
    HTTP handler. *)
Lemma terminal_status_counterexample :
  (bookings Examples.dbCancelled !! "bc") ≫= (λ d, d !! "status")
    = Some (VStr "cancelled")
  ∧ (∃ db' r,
       updateBooking Examples.dbCancelled 0 "bc" {[ "status" := VStr "pending" ]}
         = Ok (db', r)
       ∧ (bookings db' !! "bc") ≫= (λ d, d !! "status")
         = Some (VStr "pending"))
  ∧ (bookings
       (bookingController.updateBooking Examples.dbCancelled 0
          (mkUser "vendor1" None None) "bc"
          {[ "status" := VStr "pending" ]}).1 !! "bc")
      ≫= (λ d, d !! "status")
    = Some (VStr "pending").
Proof.
  split; [by vm_compute|]. split; [|by vm_compute].
  eexists _, _. split.
  - apply (updateBooking_no_times Examples.dbCancelled 0 "bc" _
             (Examples.booking "L" "alice" "cancelled"
                (Examples.hour 10) (Examples.hour 11)));
      [reflexivity | vm_compute; reflexivity..].
  - cbn [bookings set_bookings]. rewrite lookup_insert_eq. simpl.
    by rewrite merged_status.
Qed.

End lifecycle.

(** ** Payments *)

Section payments.
Import Js paymentController.

(** `Math.round` is round-half-up: the result is the integer [n] with
    [n - 1/2 <= x < n + 1/2]. *)
Lemma Math_round_half_up (x : Q) :
  (inject_Z (Math_round x) - (1 # 2) <= x)%Q
  ∧ (x < inject_Z (Math_round x) + (1 # 2))%Q.
Proof.
  unfold Math_round.
  pose proof (Qfloor_le (x + (1 # 2))) as Hle.
  pose proof (Qlt_floor (x + (1 # 2))) as Hlt.
  rewrite inject_Z_plus in Hlt. split.
  - apply Qplus_le_l with (z := 1 # 2). ring_simplify.
    ring_simplify in Hle. exact Hle.
  - apply Qplus_lt_l with (z := 1 # 2).
    eapply Qlt_le_trans; [exact Hlt|]. apply Qle_lteq. right. ring.
Qed.

(** The object that the literal of the transaction denotes. *)
Lemma transactionRecord_object (now : Z) (bookingId : jsval)
    (vendorId : option jsval) (paymentIntent : Stripe.PaymentIntent) :
  object_of (transactionRecord now bookingId vendorId paymentIntent)
  = set_prop "createdAt" (Some (VTime now))
      (set_prop "status" (Some (VStr "completed"))
      (set_prop "stripePaymentId" (Some (VStr (Stripe.pi_id paymentIntent)))
      (set_prop "net"
         (Some (VNum (inject_Z (Stripe.pi_amount paymentIntent) / 100
                      - inject_Z (Stripe.pi_amount paymentIntent) / 100
                        * (5 # 100))))
      (set_prop "fee"
         (Some (VNum (inject_Z (Stripe.pi_amount paymentIntent) / 100
                      * (5 # 100))))
      (set_prop "amount"
         (Some (VNum (inject_Z (Stripe.pi_amount paymentIntent) / 100)))
      (set_prop "vendorId" vendorId
      (set_prop "bookingId" (Some bookingId) ∅))))))).
Proof. reflexivity. Qed.

(** `handleSuccessfulPayment` on an existing booking, for an event whose
    metadata names a vendor: one update, one new transaction record. *)
Lemma handleSuccessfulPayment_existing (db : Db) (now : Z)
    (paymentIntent : Stripe.PaymentIntent) (bookingId : string) (d : doc)
    (vendorId : jsval) :
  Stripe.pi_metadata paymentIntent !! "bookingId" = Some (VStr bookingId) →
  bookings db !! bookingId = Some d →
  Stripe.pi_metadata paymentIntent !! "vendorId" = Some vendorId →
  handleSuccessfulPayment db now paymentIntent
  = mkDb (listings db)
      (<[bookingId :=
           {[ "paymentStatus" := VStr "paid";
              "stripePaymentId" := VStr (Stripe.pi_id paymentIntent) ]} ∪ d]>
         (bookings db))
      (<[fresh (dom (transactions db)) :=
           object_of
             (transactionRecord now (VStr bookingId) (Some vendorId)
                paymentIntent)]>
         (transactions db)).
Proof.
  intros Hm Hd Hv. unfold handleSuccessfulPayment.
  rewrite Hm, Hd, (update_Some _ _ _ d Hd), Hv. cbv zeta.
  by rewrite add_Ok.
Qed.

(** Without a `vendorId` in the metadata the booking is still updated,
    and no transaction is stored. *)
Lemma handleSuccessfulPayment_no_vendor (db : Db) (now : Z)
    (paymentIntent : Stripe.PaymentIntent) (bookingId : string) (d : doc) :
  Stripe.pi_metadata paymentIntent !! "bookingId" = Some (VStr bookingId) →
  bookings db !! bookingId = Some d →
  Stripe.pi_metadata paymentIntent !! "vendorId" = None →
  handleSuccessfulPayment db now paymentIntent
  = set_bookings
      (<[bookingId :=
           {[ "paymentStatus" := VStr "paid";
              "stripePaymentId" := VStr (Stripe.pi_id paymentIntent) ]} ∪ d]>
         (bookings db)) db.
Proof.
  intros Hm Hd Hv. unfold handleSuccessfulPayment.
  rewrite Hm, Hd, (update_Some _ _ _ d Hd), Hv. cbv zeta.
  by rewrite add_Err.
Qed.

(** C2 (amended).  Each delivery of a payment_succeeded event for an
    existing booking, with metadata that names the vendor, adds one
    Transaction record: the handler looks up no earlier transaction, so
    after two deliveries of the same event there are two more records than
    before, both carrying the same payment id.  Only the update of the
    booking is idempotent: the second delivery leaves the bookings as the
    first left them, with paymentStatus 'paid' and the payment id
    stored. *)
Theorem payment_succeeded_twice (db : Db) (now now' : Z)
    (paymentIntent : Stripe.PaymentIntent) (bookingId : string) :
  Stripe.pi_metadata paymentIntent !! "bookingId" = Some (VStr bookingId) →
  is_Some (Stripe.pi_metadata paymentIntent !! "vendorId") →
  is_Some (bookings db !! bookingId) →
  let event := Some (Stripe.payment_intent_succeeded paymentIntent) in
  let db1 := (handleWebhook db now event).1 in
  let db2 := (handleWebhook db1 now' event).1 in
  size (transactions db1) = S (size (transactions db))
  ∧ size (transactions db2) = S (S (size (transactions db)))
  ∧ (∃ k1 k2 t1 t2,
       k1 ≠ k2
       ∧ transactions db2 !! k1 = Some t1 ∧ transactions db2 !! k2 = Some t2
       ∧ t1 !! "stripePaymentId" = Some (VStr (Stripe.pi_id paymentIntent))
       ∧ t2 !! "stripePaymentId" = Some (VStr (Stripe.pi_id paymentIntent))
       ∧ t1 !! "status" = Some (VStr "completed")
       ∧ t2 !! "status" = Some (VStr "completed"))
  ∧ bookings db2 = bookings db1
  ∧ (∃ d', bookings db1 !! bookingId = Some d'
           ∧ d' !! "paymentStatus" = Some (VStr "paid")
           ∧ d' !! "stripePaymentId"
             = Some (VStr (Stripe.pi_id paymentIntent))).
Proof.
  intros Hm [v Hv] [d Hd]. simpl.
  rewrite (handleSuccessfulPayment_existing db now _ _ d v Hm Hd Hv).
  set (d1 := {[ "paymentStatus" := VStr "paid";
                "stripePaymentId" := VStr (Stripe.pi_id paymentIntent) ]} ∪ d).
  set (db1 := mkDb _ _ _).
  assert (Hd1 : bookings db1 !! bookingId = Some d1) by apply lookup_insert_eq.
  rewrite (handleSuccessfulPayment_existing db1 now' _ _ d1 v Hm Hd1 Hv).
  cbn [transactions bookings db1].
  set (k1 := fresh (dom (transactions db))).
  set (t1 := object_of (transactionRecord now _ _ _)).
  set (k2 := fresh (dom (<[k1 := t1]> (transactions db)))).
  set (t2 := object_of (transactionRecord now' _ _ _)).
  assert (Hk1 : transactions db !! k1 = None)
    by apply not_elem_of_dom, is_fresh.
  assert (Hk2 : <[k1 := t1]> (transactions db) !! k2 = None)
    by apply not_elem_of_dom, is_fresh.
  assert (Hne : k1 ≠ k2).
  { intros E. rewrite <- E, lookup_insert_eq in Hk2. discriminate. }
  assert (Hrec : ∀ t,
            object_of (transactionRecord t (VStr bookingId) (Some v) paymentIntent)
              !! "stripePaymentId" = Some (VStr (Stripe.pi_id paymentIntent))
            ∧ object_of
                (transactionRecord t (VStr bookingId) (Some v) paymentIntent)
                !! "status" = Some (VStr "completed")).
  { intros t. rewrite transactionRecord_object, !set_prop_lookup.
    split; by repeat case_decide. }
  split; [by apply map_size_insert_None|].
  split; [by rewrite !map_size_insert_None|].
  split.
  { exists k1, k2, t1, t2. split; [done|].
    split; [by rewrite lookup_insert_ne, lookup_insert_eq|].
    split; [by rewrite lookup_insert_eq|].
    destruct (Hrec now) as [? ?], (Hrec now') as [? ?]. done. }
  split.
  { rewrite insert_insert_eq. f_equal. subst d1.
    by rewrite (assoc_L (∪)), (idemp_L (∪)). }
  exists d1. split; [done|]. subst d1. split; by patch_lookup.
Qed.

(** Two deliveries of the event for booking b1. *)
Lemma payment_succeeded_twice_witness :
  size (transactions
          (handleWebhook
             (handleWebhook Examples.db1 1
                (Some (Stripe.payment_intent_succeeded Examples.intent1))).1
             2 (Some (Stripe.payment_intent_succeeded Examples.intent1))).1)
  = 2.
Proof.
  apply (payment_succeeded_twice Examples.db1 1 2 Examples.intent1 "b1").
  - reflexivity.
  - eexists. reflexivity.
  - eexists. reflexivity.
Defined.

(** C2 as stated fails: the second delivery of the same event adds a
    second Transaction record. *)
Lemma idempotent_apply_counterexample :
  size (transactions
          (handleWebhook Examples.db1 1
             (Some (Stripe.payment_intent_succeeded Examples.intent1))).1)
  = 1
  ∧ size (transactions
          (handleWebhook
             (handleWebhook Examples.db1 1
                (Some (Stripe.payment_intent_succeeded Examples.intent1))).1
             2 (Some (Stripe.payment_intent_succeeded Examples.intent1))).1)
    = 2
  ∧ transactions
      (handleWebhook
         (handleWebhook Examples.db1 1
            (Some (Stripe.payment_intent_succeeded Examples.intent1))).1
         2 (Some (Stripe.payment_intent_succeeded Examples.intent1))).1
    ≠ transactions
        (handleWebhook Examples.db1 1
           (Some (Stripe.payment_intent_succeeded Examples.intent1))).1.
Proof.
  split; [by vm_compute|]. split; [by vm_compute|].
  intros E. apply (f_equal size) in E. vm_compute in E. discriminate E.
Qed.

(** C3 (amended).  Processing a payment_failed event for an existing
    booking sets paymentStatus to 'failed' whatever it was before (the
    handler reads nothing of the booking), and changes nothing else: the
    other properties of the booking, the other bookings and the
    transactions stay as they are.  For a booking that does not exist the
    event changes nothing. *)
Theorem payment_failed_overwrites (db : Db) (now : Z)
    (paymentIntent : Stripe.PaymentIntent) (bookingId : string) :
  Stripe.pi_metadata paymentIntent !! "bookingId" = Some (VStr bookingId) →
  let db' :=
    (handleWebhook db now
       (Some (Stripe.payment_intent_payment_failed paymentIntent))).1 in
  match bookings db !! bookingId with
  | None => db' = db
  | Some d =>
      (∃ d', bookings db' !! bookingId = Some d'
             ∧ d' !! "paymentStatus" = Some (VStr "failed")
             ∧ ∀ k, k ≠ "paymentStatus" → d' !! k = d !! k)
      ∧ (∀ id, id ≠ bookingId → bookings db' !! id = bookings db !! id)
      ∧ transactions db' = transactions db
      ∧ listings db' = listings db
  end.
Proof.
  intros Hm. simpl. unfold handleFailedPayment. rewrite Hm.
  destruct (bookings db !! bookingId) as [d|] eqn:Hd.
  - rewrite (update_Some _ _ _ d Hd). cbn [bookings set_bookings].
    split; [|split; [|done]].
    + eexists. split; [apply lookup_insert_eq|]. split; [by patch_lookup|].
      intros k Hk. rewrite lookup_union_r; [done|].
      by apply lookup_singleton_ne.
    + intros id Hid. by apply lookup_insert_ne.
  - by rewrite (update_None _ _ _ Hd).
Qed.

(** The paid booking b1 of [Examples.dbPaid] is set to 'failed'. *)
Lemma payment_failed_overwrites_witness :
  ∃ d', bookings
          (handleWebhook Examples.dbPaid 0
             (Some (Stripe.payment_intent_payment_failed Examples.intent1))).1
        !! "b1" = Some d'
        ∧ d' !! "paymentStatus" = Some (VStr "failed").
Proof.
  pose proof (payment_failed_overwrites Examples.dbPaid 0 Examples.intent1
                "b1" eq_refl) as H.
  cbv zeta in H.
  change (bookings Examples.dbPaid !! "b1") with
    (Some (<["paymentStatus" := VStr "paid"]>
             (<["stripePaymentId" := VStr "pi_1"]>
                (Examples.booking "L" "alice" "confirmed"
                   (Examples.hour 10) (Examples.hour 11))))) in H.
  destruct H as ((d' & Hd' & Hf & _) & _).
  exists d'. split; [exact Hd'|exact Hf].
Defined.

(** C3 as stated fails: payment_succeeded followed by payment_failed for
    the same booking leaves paymentStatus 'failed', not 'paid'. *)
Lemma failed_after_paid_counterexample :
  (bookings
     (handleWebhook Examples.db1 1
        (Some (Stripe.payment_intent_succeeded Examples.intent1))).1 !! "b1")
    ≫= (λ d, d !! "paymentStatus")
  = Some (VStr "paid")
  ∧ (bookings
       (handleWebhook
          (handleWebhook Examples.db1 1
             (Some (Stripe.payment_intent_succeeded Examples.intent1))).1
          2 (Some (Stripe.payment_intent_payment_failed Examples.intent1))).1
       !! "b1")
      ≫= (λ d, d !! "paymentStatus")
    = Some (VStr "failed").
Proof. split; by vm_compute. Qed.

(** C5 at the amount 100.00: the intent is created for 10000 cents with an
    application fee of 5 cents, where five per cent of the charged amount
    is 500 cents. *)
Theorem application_fee_at_100 (bookingData : doc) :
  Stripe.amount (intentParams "b1" 100 None bookingData) = 10000%Z
  ∧ Stripe.application_fee_amount (intentParams "b1" 100 None bookingData)
    = 5%Z
  ∧ StripeService.applicationFeeAmount 100 = 5%Z
  ∧ Math_round (100 * 100 * (5 # 100)) = 500%Z.
Proof. repeat split; by vm_compute. Qed.

(** C10.  A successful `createPaymentIntent` -- existing booking,
    requester its vendor or its customer, processor answering with an
    intent -- stores the new intent's id as stripePaymentIntentId and sets
    paymentStatus to 'pending' without looking at the current
    paymentStatus; the other properties of the booking are kept.  The
    service function `StripeService.createPaymentIntent` does the same
    for any existing booking. *)
Theorem createPaymentIntent_resets (stripe : Stripe.create_fn) (db : Db) :
  (∀ uid body id amt d paymentIntent,
     bookingId body = Some id → id ≠ "" →
     amount body = Some amt → ¬ (amt == 0)%Q →
     bookings db !! id = Some d →
     d !! "vendorId" = Some (VStr uid) ∨ d !! "userId" = Some (VStr uid) →
     stripe (intentParams id amt (customerId body) d) = Ok paymentIntent →
     ∃ d',
       createPaymentIntent stripe db uid body
       = (set_bookings (<[id := d']> (bookings db)) db,
          mkResponse 200
            {[ "clientSecret" := VStr (Stripe.pi_client_secret paymentIntent) ]})
       ∧ d' !! "paymentStatus" = Some (VStr "pending")
       ∧ d' !! "stripePaymentIntentId"
         = Some (VStr (Stripe.pi_id paymentIntent))
       ∧ ∀ k, k ∉ ["stripePaymentIntentId"; "paymentStatus"] →
              d' !! k = d !! k)
  ∧ (∀ paymentData d paymentIntent,
       bookings db !! StripeService.bookingId paymentData = Some d →
       stripe (StripeService.intentParams paymentData) = Ok paymentIntent →
       ∃ d' details,
         StripeService.createPaymentIntent stripe db paymentData
         = Ok (set_bookings
                 (<[StripeService.bookingId paymentData := d']> (bookings db))
                 db, details)
         ∧ StripeService.id details = Stripe.pi_id paymentIntent
         ∧ d' !! "paymentStatus" = Some (VStr "pending")
         ∧ d' !! "stripePaymentIntentId"
           = Some (VStr (Stripe.pi_id paymentIntent))
         ∧ ∀ k, k ∉ ["stripePaymentIntentId"; "paymentStatus"] →
                d' !! k = d !! k).
Proof.
  assert (Hpatch : ∀ (pid : string) (d : doc),
    let d' := ({[ "stripePaymentIntentId" := VStr pid;
                  "paymentStatus" := VStr "pending" ]} : doc) ∪ d in
    d' !! "paymentStatus" = Some (VStr "pending")
    ∧ d' !! "stripePaymentIntentId" = Some (VStr pid)
    ∧ ∀ k, k ∉ ["stripePaymentIntentId"; "paymentStatus"] → d' !! k = d !! k).
  { intros pid d d'. subst d'. split; [by patch_lookup|].
    split; [by patch_lookup|].
    intros k Hk. rewrite !not_elem_of_cons in Hk. destruct Hk as (? & ? & _).
    rewrite lookup_union_r; [done|].
    by rewrite lookup_insert_ne, lookup_singleton_ne by done. }
  split.
  - intros uid body id amt d paymentIntent Hid Hne Ha Hnz Hd Hauth Hs.
    unfold createPaymentIntent. rewrite Hid, Ha. simpl.
    destruct (String.eqb_spec id "") as [->|_]; [done|].
    destruct (Qeq_bool amt 0) eqn:Hz; [by apply Qeq_bool_iff in Hz|].
    rewrite Hd.
    assert (negb (strict_eq (d !! "vendorId") (Some (VStr uid)))
            && negb (strict_eq (d !! "userId") (Some (VStr uid))) = false)
      as ->.
    { destruct Hauth as [H|H]; apply strict_eq_VStr in H; rewrite H;
        [done|apply andb_false_r]. }
    rewrite Hs, (update_Some _ _ _ d Hd).
    eexists. split; [reflexivity|]. apply Hpatch.
  - intros paymentData d paymentIntent Hd Hs.
    unfold StripeService.createPaymentIntent.
    rewrite Hs, (update_Some _ _ _ d Hd).
    eexists _, _. split; [reflexivity|]. split; [done|]. apply Hpatch.
Qed.

(** Creating an intent for the paid booking b1 takes it back to
    'pending'. *)
Lemma createPaymentIntent_resets_witness :
  (bookings Examples.dbPaid !! "b1") ≫= (λ d, d !! "paymentStatus")
    = Some (VStr "paid")
  ∧ ∃ d',
      bookings
        (createPaymentIntent Examples.stripe_ok Examples.dbPaid "alice"
           (mkBody (Some "b1") (Some 80%Q) None)).1 !! "b1" = Some d'
      ∧ d' !! "paymentStatus" = Some (VStr "pending")
      ∧ d' !! "stripePaymentIntentId" = Some (VStr "pi_2").
Proof.
  split; [by vm_compute|].
  destruct (proj1 (createPaymentIntent_resets Examples.stripe_ok Examples.dbPaid)
              "alice" (mkBody (Some "b1") (Some 80%Q) None) "b1" 80%Q
              (<["paymentStatus" := VStr "paid"]>
                 (<["stripePaymentId" := VStr "pi_1"]>
                    (Examples.booking "L" "alice" "confirmed"
                       (Examples.hour 10) (Examples.hour 11))))
              _ eq_refl ltac:(discriminate) eq_refl ltac:(discriminate)
              eq_refl ltac:(right; reflexivity) eq_refl)
    as (d' & E & Hp & Hi & _).
  exists d'. rewrite E. split; [apply lookup_insert_eq|].
  split; [exact Hp|exact Hi].
Defined.

End payments.

(** ** Metrics *)

Section metrics.
Import Js BookingService.

Lemma elem_of_vendorBookings (db : Db) (vendorId : string) (b : doc) :
  b ∈ vendorBookings db vendorId ↔
  ∃ id d, bookings db !! id = Some d
          ∧ d !! "vendorId" = Some (VStr vendorId)
          ∧ b = FirebaseService.with_id id d.
Proof.
  unfold vendorBookings. rewrite elem_of_queryDocuments.
  split; intros (id & d & Hd & Hm & ->); exists id, d;
    (split; [done|]); (split; [|done]).
  - simpl in Hm. destruct (d !! "vendorId") as [x|]; [|done].
    rewrite andb_true_r in Hm. apply val_eq_VStr in Hm. by subst.
  - simpl. rewrite Hm. simpl. by rewrite String.eqb_refl.
Qed.

(** The revenue accumulator of the `forEach` loop only meets
    [add_amount]. *)
Lemma totalRevenue_fold (now : Z) (l : list doc) (m : Metrics) :
  totalRevenue (fold_left (count_booking now) l m)
  = fold_left
      (λ acc booking,
         if strict_eq (booking !! "paymentStatus") (Some (VStr "paid"))
         then add_amount acc booking else acc)
      l (totalRevenue m).
Proof.
  revert m. induction l as [|b l IH]; intros m; simpl; [done|].
  by rewrite IH.
Qed.

Lemma add_amount_numeric (r : Q) (booking : doc) :
  (∀ v, booking !! "totalAmount" = Some v → ∃ q, v = VNum q) →
  ∃ r', add_amount (Some r) booking = Some r'
        ∧ (r' == r + amount_of booking)%Q.
Proof.
  intros Hnum. unfold add_amount, or, amount_of.
  destruct (booking !! "totalAmount") as [v|] eqn:Hv; simpl.
  - destruct (Hnum v eq_refl) as [q ->]. simpl.
    destruct (Qeq_bool q 0) eqn:Hz; simpl.
    + eexists. split; [reflexivity|].
      apply Qeq_bool_iff in Hz. by rewrite Hz.
    + eexists. split; reflexivity.
  - eexists. split; reflexivity.
Qed.

Lemma revenue_fold_numeric (l : list doc) (r : Q) :
  (∀ b, b ∈ l → b !! "paymentStatus" = Some (VStr "paid") →
     ∀ v, b !! "totalAmount" = Some v → ∃ q, v = VNum q) →
  ∃ r', fold_left
          (λ acc booking,
             if strict_eq (booking !! "paymentStatus") (Some (VStr "paid"))
             then add_amount acc booking else acc)
          l (Some r) = Some r'
        ∧ (r' == r + paidBookingRevenue l)%Q.
Proof.
  revert r. induction l as [|b l IH]; intros r Hnum;
    unfold paidBookingRevenue; cbn [fold_left fold_right].
  - exists r. split; [done|]. ring.
  - fold (paidBookingRevenue l).
    assert (Hl : ∀ b', b' ∈ l → b' !! "paymentStatus" = Some (VStr "paid") →
              ∀ v, b' !! "totalAmount" = Some v → ∃ q, v = VNum q).
    { intros b' Hb'. apply Hnum. by apply list_elem_of_further. }
    destruct (strict_eq (b !! "paymentStatus") (Some (VStr "paid"))) eqn:Hp.
    + apply strict_eq_VStr in Hp.
      destruct (add_amount_numeric r b) as (r1 & -> & Hr1).
      { apply Hnum; [apply list_elem_of_here|done]. }
      destruct (IH r1 Hl) as (r' & -> & Hr').
      exists r'. split; [done|]. rewrite Hr', Hr1. ring.
    + destruct (IH r Hl) as (r' & -> & Hr'). by exists r'.
Qed.

(** C9 (amended).  The revenue figure of `getBookingMetrics` is the sum of
    `totalAmount` over the vendor's bookings whose paymentStatus is 'paid'
    (amounts are numbers; a missing amount counts as 0).  It is computed
    from booking records alone: the transactions are not read. *)
Theorem revenue_from_paid_bookings (db : Db) (now : Z) (vendorId : string) :
  (∀ id d, bookings db !! id = Some d →
     d !! "vendorId" = Some (VStr vendorId) →
     d !! "paymentStatus" = Some (VStr "paid") →
     ∀ v, d !! "totalAmount" = Some v → ∃ q, v = VNum q) →
  (∃ r, totalRevenue (getBookingMetrics db now vendorId) = Some r
        ∧ (r == paidBookingRevenue (vendorBookings db vendorId))%Q)
  ∧ (∀ ts, getBookingMetrics (set_transactions ts db) now vendorId
           = getBookingMetrics db now vendorId).
Proof.
  intros Hnum. split; [|done].
  unfold getBookingMetrics. rewrite totalRevenue_fold. simpl.
  destruct (revenue_fold_numeric (vendorBookings db vendorId) 0) as (r & Hr & Hs).
  - intros b (id & d & Hd & Hv & ->)%elem_of_vendorBookings Hp v Ha.
    rewrite with_id_lookup in Hp, Ha by done. eauto.
  - exists r. split; [exact Hr|]. rewrite Hs. ring.
Qed.

(** The paid booking of [Examples.dbPaid] gives vendor1 a revenue of 80. *)
Lemma revenue_from_paid_bookings_witness :
  ∃ r, totalRevenue (getBookingMetrics Examples.dbPaid 0 "vendor1") = Some r
       ∧ (r == paidBookingRevenue (vendorBookings Examples.dbPaid "vendor1"))%Q.
Proof.
  apply (revenue_from_paid_bookings Examples.dbPaid 0 "vendor1").
  intros id d Hd _ _ v Hv. unfold Examples.dbPaid in Hd. cbn [bookings] in Hd.
  apply lookup_singleton_Some in Hd as [_ <-].
  vm_compute in Hv. injection Hv as <-. by eexists.
Defined.

(** C9 as stated fails: with the paid booking b1 and no transaction
    recorded, the revenue figure is 80 although the completed
    transactions sum to 0. *)
Lemma revenue_counterexample :
  totalRevenue (getBookingMetrics Examples.dbPaid 0 "vendor1") = Some 80%Q
  ∧ completedTransactionRevenue Examples.dbPaid "vendor1" = 0%Q
  ∧ ¬ (80 == 0)%Q.
Proof. split; [by vm_compute|]. split; [by vm_compute|]. discriminate. Qed.

End metrics.

(** ** Scenarios *)

Section scenarios.
Import Js BookingService.

(** After the booking 10:00-11:00, the slot 11:00-12:00 of the same listing
    is still bookable: touching intervals do not conflict. *)
Example back_to_back_bookings :
  ∃ db' created,
    createBooking Examples.db1 0 "L" Examples.request_11_12 = Ok (db', created)
    ∧ size (bookings db') = 2.
Proof.
  eexists _, _. split.
  - by apply (createBooking_succeeds Examples.db1 0 "L" Examples.request_11_12
                Examples.listingL).
  - cbn [bookings set_bookings]. rewrite map_size_insert_None; [done|].
    apply not_elem_of_dom, is_fresh.
Qed.

(** After the booking 10:00-11:00, the slot 10:30-10:45 is refused. *)
Example overlapping_booking_rejected :
  createBooking Examples.db1 0 "L" Examples.request_1030_1045
  = Err "The requested time slot is not available".
Proof. by vm_compute. Qed.

(** A cancelled booking no longer blocks its slot. *)
Example cancelled_booking_frees_slot :
  checkAvailability Examples.dbCancelled "L"
    (Some (VTime (Examples.hour 10))) (Some (VTime (Examples.hour 11)))
  = Ok true.
Proof. by vm_compute. Qed.

(** The HTTP handler `createBooking` runs no availability check: it stores
    the overlapping request 10:30-10:45 and answers 201. *)
Example handler_createBooking_accepts_overlap :
  let out :=
    bookingController.createBooking Examples.db1 0
      (mkUser "bob" None None) "L" Examples.request_1030_1045 in
  code out.2 = 201%Z ∧ size (bookings out.1) = 2.
Proof. split; by vm_compute. Qed.

(** The HTTP handler `cancelBooking` is the customer's action: the vendor of
    the booking is answered 403. *)
Example handler_cancelBooking_customer_only :
  code (bookingController.cancelBooking Examples.db1 0
          (mkUser "vendor1" None None) "b1").2 = 403%Z
  ∧ code (bookingController.cancelBooking Examples.db1 0
            (mkUser "alice" None None) "b1").2 = 200%Z.
Proof. split; by vm_compute. Qed.

End scenarios.

(** ** Reading what was stored *)

Section store_round_trips.
Import FirebaseService.

Lemma getDocument_insert_eq (c : gmap string doc) (id : string) (d : doc) :
  getDocument (<[id := d]> c) id = Some (with_id id d).
Proof. unfold getDocument. by rewrite lookup_insert_eq. Qed.

End store_round_trips.

(** ** No double booking *)

Section no_overlap.
Import Js BookingService.


Lemma overlap_test_false_half_open (s e bs be : Date) :
  overlap_test s e bs be = false → half_open_overlap s e bs be = false.
Proof.
  intros H. destruct (half_open_overlap s e bs be) eqn:E; [|done].
  apply half_open_overlap_test in E. congruence.
Qed.

(** The properties of `bookingData` that `newBooking` does not set. *)
Lemma newBooking_other (now : Z) (listing bookingData : doc) (k : string) :
  k ∉ ["createdAt"; "paymentStatus"; "status"; "totalAmount"; "vendorId"] →
  object_of (newBooking now listing bookingData) !! k = bookingData !! k.
Proof.
  intros Hk. rewrite !not_elem_of_cons in Hk.
  destruct Hk as (? & ? & ? & ? & ? & _).
  rewrite newBooking_object, !set_prop_lookup.
  repeat case_decide; congruence.
Qed.

(** What a successful `createBooking` has checked and written. *)
Lemma createBooking_Ok (db : Db) (now : Z) (listingId : string)
    (fields : doc) (db' : Db) (created : doc) :
  createBooking db now listingId fields = Ok (db', created) →
  ∃ l,
    listings db !! listingId = Some l
    ∧ l !! "status" = Some (VStr "active")
    ∧ checkAvailability db listingId
        (fields !! "startTime") (fields !! "endTime") = Ok true
    ∧ db' = set_bookings
              (<[fresh (dom (bookings db)) :=
                   object_of
                     (newBooking now (FirebaseService.with_id listingId l)
                        (<["listingId" := VStr listingId]> fields))]>
                 (bookings db))
              db
    ∧ created = FirebaseService.with_id (fresh (dom (bookings db)))
                  (object_of
                     (newBooking now (FirebaseService.with_id listingId l)
                        (<["listingId" := VStr listingId]> fields))).
Proof.
  rewrite createBooking_cases.
  destruct (listings db !! listingId) as [l|]; [|done].
  destruct (strict_eq _ _) eqn:Hs; [|done]. apply strict_eq_VStr in Hs.
  destruct (checkAvailability _ _ _ _) as [[|]|] eqn:Ha; [|done..].
  cbv zeta. destruct (holds_undefined _); [done|].
  intros [= <- <-]. by exists l.
Qed.

Lemma checkAvailability_true (db : Db) (listingId : string)
    (startTime endTime : option jsval) :
  checkAvailability db listingId startTime endTime = Ok true →
  date_ge (new_Date startTime) (new_Date endTime) = false
  ∧ ∀ id d, bookings db !! id = Some d → active_for listingId d →
      overlap_test (new_Date startTime) (new_Date endTime)
        (bookingStart d) (bookingEnd d) = false.
Proof.
  intros H. assert (Hge : date_ge (new_Date startTime) (new_Date endTime) = false).
  { unfold checkAvailability in H. by destruct (date_ge _ _). }
  split; [done|].
  destruct (checkAvailability_spec db listingId startTime endTime Hge)
    as (r & Hr & Hspec).
  rewrite H in Hr. injection Hr as <-. by apply Hspec.
Qed.

Lemma newBooking_times (now : Z) (listingId : string) (l fields : doc) :
  let stored :=
    object_of (newBooking now l (<["listingId" := VStr listingId]> fields)) in
  bookingStart stored = new_Date (fields !! "startTime")
  ∧ bookingEnd stored = new_Date (fields !! "endTime")
  ∧ stored !! "listingId" = Some (VStr listingId).
Proof.
  cbv zeta. unfold bookingStart, bookingEnd.
  rewrite !newBooking_other
    by (rewrite !not_elem_of_cons; repeat split; try done; apply not_elem_of_nil).
  by rewrite !lookup_insert_ne, lookup_insert_eq by done.
Qed.

(** A booking that `createBooking` stores never overlaps, as a half-open
    interval, a pending or confirmed booking that the listing already had;
    its own interval is the requested one and is not reversed or empty
    (not start >= end); and the listing it names exists and is active. *)
Theorem createBooking_no_overlap (db : Db) (now : Z) (listingId : string)
    (fields : doc) (db' : Db) (created : doc) :
  createBooking db now listingId fields = Ok (db', created) →
  bookingStart created = new_Date (fields !! "startTime")
  ∧ bookingEnd created = new_Date (fields !! "endTime")
  ∧ date_ge (bookingStart created) (bookingEnd created) = false
  ∧ (∃ l, listings db !! listingId = Some l
          ∧ l !! "status" = Some (VStr "active"))
  ∧ ∀ id d, bookings db !! id = Some d → active_for listingId d →
      half_open_overlap (bookingStart created) (bookingEnd created)
        (bookingStart d) (bookingEnd d) = false.
Proof.
  intros (l & Hl & Hs & Ha & _ & ->)%createBooking_Ok.
  apply checkAvailability_true in Ha as [Hge Hno].
  rewrite with_id_start, with_id_end.
  destruct (newBooking_times now listingId
              (FirebaseService.with_id listingId l) fields) as (-> & -> & _).
  split; [done|]. split; [done|]. split; [done|]. split; [eauto|].
  intros id d Hd Hact. by apply overlap_test_false_half_open, (Hno id).
Qed.

(** The booking 11:00-12:00 made after the booking 10:00-11:00. *)
Lemma createBooking_no_overlap_witness :
  ∃ db' created,
    createBooking Examples.db1 0 "L" Examples.request_11_12 = Ok (db', created)
    ∧ date_ge (bookingStart created) (bookingEnd created) = false
    ∧ ∀ id d, bookings Examples.db1 !! id = Some d → active_for "L" d →
        half_open_overlap (bookingStart created) (bookingEnd created)
          (bookingStart d) (bookingEnd d) = false.
Proof.
  assert (E := createBooking_succeeds Examples.db1 0 "L"
      Examples.request_11_12 Examples.listingL eq_refl eq_refl eq_refl
      (mk_is_Some _ _ eq_refl) (mk_is_Some _ _ eq_refl)).
  eexists _, _. split; [exact E|].
  destruct (createBooking_no_overlap _ _ _ _ _ _ E) as (_ & _ & H1 & _ & H2).
  split; [exact H1|exact H2].
Defined.

(** What a successful `cancelBooking` has checked and written. *)
Lemma cancelBooking_Ok (db : Db) (now : Z)
    (bookingId userId cancelReason : string) (db' : Db) (r : option doc) :
  cancelBooking db now bookingId userId cancelReason = Ok (db', r) →
  ∃ d d',
    bookings db !! bookingId = Some d
    ∧ (d !! "vendorId" = Some (VStr userId) ∨ d !! "userId" = Some (VStr userId))
    ∧ d !! "status" ≠ Some (VStr "cancelled")
    ∧ db' = set_bookings (<[bookingId := d']> (bookings db)) db
    ∧ d' !! "status" = Some (VStr "cancelled")
    ∧ ∀ k, k ∉ ["status"; "cancelReason"; "cancelledBy";
                "cancelledAt"; "updatedAt"] → d' !! k = d !! k.
Proof.
  unfold cancelBooking, FirebaseService.getDocument,
    FirebaseService.updateDocument.
  destruct (bookings db !! bookingId) as [d|] eqn:Hd; simpl; [|done].
  rewrite !with_id_lookup by done.
  destruct (strict_eq (d !! "vendorId") (Some (VStr userId))) eqn:Hv;
    destruct (strict_eq (d !! "userId") (Some (VStr userId))) eqn:Hu;
    simpl; try done.
  all: destruct (strict_eq (d !! "status") (Some (VStr "cancelled"))) eqn:Hs;
    [done|]; apply strict_eq_VStr_false in Hs.
  all: destruct (date_lt _ _); [done|].
  all: rewrite (update_Some _ _ _ d Hd); intros [= <- _].
  all: eexists d, _; split; [done|].
  all: split; [first [left; by apply strict_eq_VStr
                     | right; by apply strict_eq_VStr]|].
  all: split; [done|]; split; [done|]; split; [by patch_lookup|].
  all: intros k Hk; rewrite !not_elem_of_cons in Hk;
    destruct Hk as (? & ? & ? & ? & ? & _);
    rewrite lookup_union_r; [done|];
    by rewrite !lookup_insert_ne, lookup_singleton_ne by done.
Qed.

Lemma cancelled_not_active (listingId : string) (d : doc) :
  d !! "status" = Some (VStr "cancelled") → ¬ active_for listingId d.
Proof. intros Hs [_ [H|H]]; rewrite Hs in H; discriminate. Qed.

Lemma active_for_times_only (listingId : string) (d d' : doc) :
  d' !! "listingId" = d !! "listingId" → d' !! "status" = d !! "status" →
  active_for listingId d' → active_for listingId d.
Proof. unfold active_for. by intros -> ->. Qed.




End no_overlap.

(** ** Cancelling *)

Section cancelling.
Import Js BookingService.

(** `cancelBooking` goes through for the vendor or the customer of a
    booking that is not cancelled and has not started. *)
Lemma cancelBooking_succeeds (db : Db) (now : Z)
    (bookingId userId cancelReason : string) (d : doc) :
  bookings db !! bookingId = Some d →
  d !! "vendorId" = Some (VStr userId) ∨ d !! "userId" = Some (VStr userId) →
  d !! "status" ≠ Some (VStr "cancelled") →
  date_lt (bookingStart d) (Some now) = false →
  ∃ d',
    cancelBooking db now bookingId userId cancelReason
    = Ok (set_bookings (<[bookingId := d']> (bookings db)) db,
          Some (FirebaseService.with_id bookingId d')).
Proof.
  intros Hd Hauth Hs Hp.
  unfold cancelBooking, FirebaseService.getDocument,
    FirebaseService.updateDocument.
  rewrite Hd. simpl. rewrite !with_id_lookup by done.
  assert (negb (strict_eq (d !! "vendorId") (Some (VStr userId)))
          && negb (strict_eq (d !! "userId") (Some (VStr userId))) = false)
    as ->.
  { destruct Hauth as [H|H]; apply strict_eq_VStr in H; rewrite H;
      [done|apply andb_false_r]. }
  rewrite (proj2 (strict_eq_VStr_false _ _) Hs).
  unfold bookingStart in *. rewrite !with_id_lookup by done. rewrite Hp.
  rewrite (update_Some _ _ _ d Hd). eexists. simpl.
  by rewrite lookup_insert_eq.
Qed.

Lemma alice_cancels_b1 :
  cancelBooking Examples.db1 0 "b1" "alice" ""
  = Ok (set_bookings
          (<["b1" := {[ "status" := VStr "cancelled";
                        "cancelReason" := VStr "";
                        "cancelledBy" := VStr "alice";
                        "cancelledAt" := VTime 0;
                        "updatedAt" := VTime 0 ]}
                     ∪ Examples.booking "L" "alice" "pending"
                         (Examples.hour 10) (Examples.hour 11)]>
             (bookings Examples.db1)) Examples.db1,
        Some (FirebaseService.with_id "b1"
                ({[ "status" := VStr "cancelled";
                    "cancelReason" := VStr "";
                    "cancelledBy" := VStr "alice";
                    "cancelledAt" := VTime 0;
                    "updatedAt" := VTime 0 ]}
                 ∪ Examples.booking "L" "alice" "pending"
                     (Examples.hour 10) (Examples.hour 11)))).
Proof.
  unfold cancelBooking, FirebaseService.getDocument,
    FirebaseService.updateDocument.
  assert (Hd : bookings Examples.db1 !! "b1"
               = Some (Examples.booking "L" "alice" "pending"
                         (Examples.hour 10) (Examples.hour 11)))
    by reflexivity.
  rewrite Hd. simpl. rewrite !with_id_lookup by done.
  unfold bookingStart. rewrite !with_id_lookup by done.
  rewrite (update_Some _ _ _ _ Hd). simpl.
  by rewrite lookup_insert_eq.
Qed.

(** Once a booking is cancelled it no longer counts in the availability
    check: after a successful `cancelBooking`, a slot is available exactly
    when no other pending or confirmed booking of the listing fails the
    overlap test. *)
Theorem cancelBooking_frees_slot (db : Db) (now : Z)
    (bookingId userId cancelReason : string) (db' : Db) (r : option doc) :
  cancelBooking db now bookingId userId cancelReason = Ok (db', r) →
  ∀ listingId startTime endTime,
    date_ge (new_Date startTime) (new_Date endTime) = false →
    (checkAvailability db' listingId startTime endTime = Ok true ↔
     ∀ id d, id ≠ bookingId → bookings db !! id = Some d →
       active_for listingId d →
       overlap_test (new_Date startTime) (new_Date endTime)
         (bookingStart d) (bookingEnd d) = false).
Proof.
  intros (d0 & d' & Hd0 & _ & _ & -> & Hs & _)%cancelBooking_Ok
    listingId startTime endTime Hge.
  destruct (checkAvailability_spec
              (set_bookings (<[bookingId := d']> (bookings db)) db)
              listingId startTime endTime Hge) as (b & -> & Hspec).
  cbn [bookings set_bookings] in Hspec. split.
  - intros [= ->] id d Hne Hd Hact.
    apply (proj1 Hspec eq_refl id d); [by rewrite lookup_insert_ne|done].
  - intros H. f_equal. apply Hspec. intros id d Hd Hact.
    destruct (decide (bookingId = id)) as [<-|Hne].
    + rewrite lookup_insert_eq in Hd. injection Hd as <-.
      by apply cancelled_not_active in Hact.
    + rewrite lookup_insert_ne in Hd by done. by apply (H id).
Qed.

(** After alice cancels the only booking of listing L, its slot
    10:00-11:00 is available again. *)
Lemma cancelBooking_frees_slot_witness :
  ∃ db' r,
    cancelBooking Examples.db1 0 "b1" "alice" "" = Ok (db', r)
    ∧ checkAvailability Examples.db1 "L"
        (Some (VTime (Examples.hour 10))) (Some (VTime (Examples.hour 11)))
      = Ok false
    ∧ checkAvailability db' "L"
        (Some (VTime (Examples.hour 10))) (Some (VTime (Examples.hour 11)))
      = Ok true.
Proof.
  assert (E := alice_cancels_b1).
  eexists _, _. split; [exact E|]. split; [vm_compute; reflexivity|].
  apply (cancelBooking_frees_slot _ _ _ _ _ _ _ E "L"); [reflexivity|].
  intros id d Hne Hd _. unfold Examples.db1 in Hd. cbn [bookings] in Hd.
  apply lookup_singleton_Some in Hd as [<- _]. done.
Defined.

(** Cancelling is not repeatable: after a successful `cancelBooking`, the
    same requester's next `cancelBooking` of that booking fails with
    'Booking is already cancelled', at whatever time and with whatever
    reason. *)
Theorem cancelBooking_twice (db : Db) (now : Z)
    (bookingId userId cancelReason : string) (db' : Db) (r : option doc) :
  cancelBooking db now bookingId userId cancelReason = Ok (db', r) →
  ∀ now' cancelReason',
    cancelBooking db' now' bookingId userId cancelReason'
    = Err "Booking is already cancelled".
Proof.
  intros (d & d' & Hd & Hauth & _ & -> & Hs & Hk)%cancelBooking_Ok
    now' cancelReason'.
  unfold cancelBooking, FirebaseService.getDocument.
  cbn [bookings set_bookings]. rewrite lookup_insert_eq. simpl.
  rewrite !with_id_lookup by done.
  rewrite !Hk
    by (rewrite !not_elem_of_cons; repeat split; try done; apply not_elem_of_nil).
  assert (negb (strict_eq (d !! "vendorId") (Some (VStr userId)))
          && negb (strict_eq (d !! "userId") (Some (VStr userId))) = false)
    as ->.
  { destruct Hauth as [H|H]; apply strict_eq_VStr in H; rewrite H;
      [done|apply andb_false_r]. }
  by rewrite (proj2 (strict_eq_VStr _ _) Hs).
Qed.

(** alice cannot cancel booking b1 a second time. *)
Lemma cancelBooking_twice_witness :
  ∃ db' r,
    cancelBooking Examples.db1 0 "b1" "alice" "" = Ok (db', r)
    ∧ cancelBooking db' 5 "b1" "alice" "again"
      = Err "Booking is already cancelled".
Proof.
  assert (E := alice_cancels_b1).
  eexists _, _. split; [exact E|].
  exact (cancelBooking_twice _ _ _ _ _ _ _ E 5 "again").
Defined.

End cancelling.

(** ** Booking counts *)

Section counts.
Import Js BookingService.

Lemma status_exclusive (v : option jsval) (a b : string) :
  a ≠ b → strict_eq v (Some (VStr a)) = true →
  strict_eq v (Some (VStr b)) = false.
Proof.
  intros Hne Ha%strict_eq_VStr. apply strict_eq_VStr_false.
  rewrite Ha. congruence.
Qed.

(** The number of bookings of a list with a given status. *)
Lemma count_booking_fold (now : Z) (l : list doc) (m : Metrics) :
  let m' := fold_left (count_booking now) l m in
  let has s := λ b : doc, strict_eq (b !! "status") (Some (VStr s)) in
  totalBookings m' = totalBookings m
  ∧ pendingBookings m' = pendingBookings m + length (List.filter (has "pending") l)
  ∧ confirmedBookings m'
    = confirmedBookings m + length (List.filter (has "confirmed") l)
  ∧ cancelledBookings m'
    = cancelledBookings m + length (List.filter (has "cancelled") l)
  ∧ upcomingBookings m' + pastBookings m'
    = upcomingBookings m + pastBookings m + length l
  ∧ upcomingBookings m'
    = upcomingBookings m
      + length (List.filter
                  (λ b, date_gt (bookingStart b) (Some now)) l).
Proof.
  cbv zeta. revert m. induction l as [|b l IH]; intros m.
  - simpl. lia.
  - cbn [fold_left List.filter length].
    destruct (IH (count_booking now m b)) as (-> & -> & -> & -> & -> & ->).
    unfold count_booking. cbn [totalBookings pendingBookings confirmedBookings
      cancelledBookings upcomingBookings pastBookings new_Date].
    destruct (strict_eq (b !! "status") (Some (VStr "pending"))) eqn:Hp.
    { rewrite (status_exclusive _ "pending" "confirmed"),
        (status_exclusive _ "pending" "cancelled") by done.
      destruct (date_gt (bookingStart b) (Some now)); simpl; lia. }
    destruct (strict_eq (b !! "status") (Some (VStr "confirmed"))) eqn:Hc.
    { rewrite (status_exclusive _ "confirmed" "cancelled") by done.
      destruct (date_gt (bookingStart b) (Some now)); simpl; lia. }
    destruct (strict_eq (b !! "status") (Some (VStr "cancelled")));
      destruct (date_gt (bookingStart b) (Some now)); simpl; lia.
Qed.

Lemma filters_disjoint (l : list doc) :
  let has s := λ b : doc, strict_eq (b !! "status") (Some (VStr s)) in
  length (List.filter (has "pending") l)
  + length (List.filter (has "confirmed") l)
  + length (List.filter (has "cancelled") l) ≤ length l.
Proof.
  cbv zeta. induction l as [|b l IH]; [done|]. cbn [List.filter length].
  destruct (strict_eq (b !! "status") (Some (VStr "pending"))) eqn:Hp.
  { rewrite (status_exclusive _ "pending" "confirmed"),
      (status_exclusive _ "pending" "cancelled") by done. simpl. lia. }
  destruct (strict_eq (b !! "status") (Some (VStr "confirmed"))) eqn:Hc.
  { rewrite (status_exclusive _ "confirmed" "cancelled") by done. simpl. lia. }
  destruct (strict_eq (b !! "status") (Some (VStr "cancelled"))); simpl; lia.
Qed.

(** The counts of `getBookingMetrics`: the total is the number of the
    vendor's bookings; each of the pending, confirmed and cancelled counts
    is the number of those bookings with that status, so together they never
    exceed the total (bookings with another status, such as 'completed',
    are in no count); every booking is counted exactly once as upcoming or
    past, upcoming being the ones that start after the current time. *)
Theorem getBookingMetrics_counts (db : Db) (now : Z) (vendorId : string) :
  let m := getBookingMetrics db now vendorId in
  let vb := vendorBookings db vendorId in
  let has s := λ b : doc, strict_eq (b !! "status") (Some (VStr s)) in
  totalBookings m = length vb
  ∧ pendingBookings m = length (List.filter (has "pending") vb)
  ∧ confirmedBookings m = length (List.filter (has "confirmed") vb)
  ∧ cancelledBookings m = length (List.filter (has "cancelled") vb)
  ∧ pendingBookings m + confirmedBookings m + cancelledBookings m
    ≤ totalBookings m
  ∧ upcomingBookings m + pastBookings m = totalBookings m
  ∧ upcomingBookings m
    = length (List.filter (λ b, date_gt (bookingStart b) (Some now)) vb).
Proof.
  cbv zeta. unfold getBookingMetrics.
  destruct (count_booking_fold now (vendorBookings db vendorId)
    {| totalBookings := length (vendorBookings db vendorId);
       pendingBookings := 0; confirmedBookings := 0; cancelledBookings := 0;
       upcomingBookings := 0; pastBookings := 0;
       totalRevenue := Some 0%Q |}) as (Ht & Hp & Hc & Hx & Hup & Hu).
  cbn [totalBookings pendingBookings confirmedBookings cancelledBookings
       upcomingBookings pastBookings] in *.
  rewrite Ht, Hp, Hc, Hx, Hup, Hu.
  pose proof (filters_disjoint (vendorBookings db vendorId)) as Hd.
  cbv zeta in Hd. repeat split; lia.
Qed.

End counts.

(** ** The HTTP handlers for bookings *)

Section handlers.
Import Js.

Lemma pick_update_frame (fields : list string) (db : Db) (now : Z)
    (id : string) (body : doc) (d : doc) :
  bookings db !! id = Some d →
  changes_only fields id db
    (set_bookings
       (<[id := <["updatedAt" := VTime now]> (bookingController.pick fields body) ∪ d]>
          (bookings db)) db).
Proof.
  intros Hd. split; [done|]. split; [done|]. cbn [bookings set_bookings].
  split.
  - intros other Hne. by rewrite lookup_insert_ne.
  - rewrite Hd, lookup_insert_eq. eexists. split; [done|].
    intros k Hk Hu. rewrite lookup_union_r; [done|].
    rewrite lookup_insert_ne by done. rewrite pick_lookup.
    by rewrite decide_False.
Qed.

Lemma changes_only_refl (fields : list string) (id : string) (db : Db) :
  changes_only fields id db db.
Proof.
  split; [done|]. split; [done|]. split; [done|].
  destruct (bookings db !! id); eauto.
Qed.

(** The update handlers write nothing but allow-listed properties of the
    addressed booking: whatever the request, `updateBooking` (controller)
    and `router.put` (routes) leave the listings, the transactions and
    every other booking exactly as they are, create and delete no booking,
    and keep every property of the addressed booking that is outside their
    list of allowed fields and is not `updatedAt` -- so `paymentStatus`,
    `vendorId`, `userId` and `listingId`, which are in neither list,
    cannot be changed through them, nor `totalAmount` through the route. *)
Theorem update_handlers_frame (db : Db) (now : Z) (user : User) (id : string)
    (body : doc) :
  changes_only bookingController.allowedFields id db
    (bookingController.updateBooking db now user id body).1
  ∧ changes_only bookingRoutes.allowedFields id db
      (bookingRoutes.put db now user id body).1
  ∧ Forall (λ k, (k ∉ bookingController.allowedFields)
                 ∧ (k ∉ bookingRoutes.allowedFields)
                 ∧ (k ≠ "updatedAt"))
      ["paymentStatus"; "vendorId"; "userId"; "listingId"]
  ∧ "totalAmount" ∉ bookingRoutes.allowedFields.
Proof.
  split; [|split; [|split]].
  - unfold bookingController.updateBooking.
    destruct (bookings db !! id) as [d|] eqn:Hd; [|apply changes_only_refl].
    destruct (negb _); [apply changes_only_refl|].
    rewrite (update_Some _ _ _ d Hd). by apply pick_update_frame.
  - unfold bookingRoutes.put.
    destruct (bookings db !! id) as [d|] eqn:Hd; [|apply changes_only_refl].
    destruct (negb _); [apply changes_only_refl|].
    rewrite (update_Some _ _ _ d Hd). by apply pick_update_frame.
  - unfold bookingController.allowedFields, bookingRoutes.allowedFields.
    repeat apply Forall_cons_2; try apply Forall_nil_2;
      (split; [|split; [|done]]); rewrite !not_elem_of_cons;
      repeat split; try done; apply not_elem_of_nil.
  - unfold bookingRoutes.allowedFields. rewrite !not_elem_of_cons.
    repeat split; try done. apply not_elem_of_nil.
Qed.

(** Reading a property off an object literal. *)
Ltac literal_lookup :=
  unfold object_of, bookingController.newBooking;
  cbn [properties spread fold_left fst snd];
  rewrite !set_prop_lookup; repeat case_decide; try congruence;
  rewrite ?lookup_empty; try done.

(** `a || b` with a defined [b] never is `undefined`. *)
Lemma or_default_defined (a : option jsval) (b : jsval) :
  match or a (Some b) with None => true | Some _ => false end = false.
Proof. by rewrite or_default_Some. Qed.

(** The literal `newBooking` of the handlers holds `undefined` exactly
    when the listing has no `vendorId` or no `price`, or the body has no
    `startTime` or no `endTime`. *)
Lemma handler_newBooking_undefined (now : Z) (user : User) (listingId : string)
    (l body : doc) :
  holds_undefined (bookingController.newBooking now user listingId l body) = true
  ↔ l !! "vendorId" = None ∨ l !! "price" = None
    ∨ body !! "startTime" = None ∨ body !! "endTime" = None.
Proof.
  unfold holds_undefined, bookingController.newBooking.
  cbn [properties existsb snd]. rewrite !or_default_defined.
  destruct (l !! "vendorId"), (l !! "price"), (body !! "startTime"),
    (body !! "endTime"); cbn;
    (split; [intros H; try done; auto 6|by intros [?|[?|[?|?]]]]).
Qed.

(** The HTTP handler `createBooking` answers 404 for a missing listing and
    400 for a listing that is not active, writing nothing.  For an active
    listing it answers 500, again writing nothing, when the listing has no
    `vendorId` or no `price` or the body has no `startTime` or no
    `endTime` (the document store rejects the booking); otherwise it
    stores one new booking under a free identifier and answers 201.  The
    stored booking has status 'pending', paymentStatus 'pending', the
    listing's price as totalAmount, the listing's vendorId and the
    requester as userId, whatever the request body says about these
    properties; its times are the ones of the body, unchecked. *)
Theorem handler_createBooking_forced (db : Db) (now : Z) (user : User)
    (listingId : string) (body : doc) :
  match listings db !! listingId with
  | None =>
      bookingController.createBooking db now user listingId body
      = (db, error_response 404 "Listing not found")
  | Some l =>
      if strict_eq (l !! "status") (Some (VStr "active")) then
        (l !! "vendorId" = None ∨ l !! "price" = None
         ∨ body !! "startTime" = None ∨ body !! "endTime" = None →
         bookingController.createBooking db now user listingId body
         = (db, error_response 500 "Failed to create booking"))
        ∧ (¬ (l !! "vendorId" = None ∨ l !! "price" = None
              ∨ body !! "startTime" = None ∨ body !! "endTime" = None) →
           ∃ id stored,
             bookings db !! id = None
             ∧ bookingController.createBooking db now user listingId body
               = (set_bookings (<[id := stored]> (bookings db)) db,
                  mkResponse 201 (FirebaseService.with_id id stored))
             ∧ stored !! "status" = Some (VStr "pending")
             ∧ stored !! "paymentStatus" = Some (VStr "pending")
             ∧ stored !! "totalAmount" = l !! "price"
             ∧ stored !! "vendorId" = l !! "vendorId"
             ∧ stored !! "userId" = Some (VStr (uid user))
             ∧ stored !! "listingId" = Some (VStr listingId)
             ∧ stored !! "startTime" = body !! "startTime"
             ∧ stored !! "endTime" = body !! "endTime")
      else
        bookingController.createBooking db now user listingId body
        = (db, error_response 400 "This listing is not currently active")
  end.
Proof.
  unfold bookingController.createBooking.
  destruct (listings db !! listingId) as [l|]; [|done].
  destruct (strict_eq (l !! "status") (Some (VStr "active"))); [|done].
  cbn [negb].
  pose proof (handler_newBooking_undefined now user listingId l body) as Hu.
  split.
  - intros H. apply Hu in H. by rewrite (add_Err _ _ H).
  - intros H.
    assert (holds_undefined
              (bookingController.newBooking now user listingId l body) = false)
      as Hdef by (destruct (holds_undefined _); [by destruct H; apply Hu|done]).
    rewrite (add_Ok _ _ Hdef). eexists _, _.
    split; [apply fresh_free|]. split; [done|].
    repeat split; by literal_lookup.
Qed.

(** `validateBookingData` lets a request through exactly when `listingId`,
    `startTime` and `endTime` are truthy and not start >= end as dates; a
    time that is no date at all compares false and so passes. *)
Lemma validateBookingData_passes (body : doc) :
  validation.validateBookingData body = None ↔
  truthy (body !! "listingId") = true
  ∧ truthy (body !! "startTime") = true
  ∧ truthy (body !! "endTime") = true
  ∧ date_ge (new_Date (body !! "startTime")) (new_Date (body !! "endTime"))
    = false.
Proof.
  unfold validation.validateBookingData.
  destruct (truthy (body !! "listingId")), (truthy (body !! "startTime")),
    (truthy (body !! "endTime")); simpl; try (split; [done|naive_solver]).
  destruct (date_ge _ _); split; naive_solver.
Qed.

(** The route `POST /bookings`: a request the validator rejects is
    answered with the validator's response and writes nothing.  A request
    that passes and names a listing by a string is answered 404 when the
    listing is missing, 500 when the listing has no `vendorId` or no
    `price` (the document store rejects the booking), writing nothing in
    both cases, and otherwise 201, whatever the listing's status and
    whatever is already booked; the booking it stores has status and
    paymentStatus 'pending', the listing's price and vendor, the requester
    as userId, and times that are not start >= end. *)
Theorem route_post_booking (db : Db) (now : Z) (user : User) (body : doc) :
  match validation.validateBookingData body with
  | Some response => bookingRoutes.post db now user body = (db, response)
  | None =>
      ∀ listingId,
        body !! "listingId" = Some (VStr listingId) →
        match listings db !! listingId with
        | None =>
            bookingRoutes.post db now user body
            = (db, error_response 404 "Listing not found")
        | Some l =>
            (l !! "vendorId" = None ∨ l !! "price" = None →
             bookingRoutes.post db now user body
             = (db, error_response 500 "Failed to create booking"))
            ∧ (¬ (l !! "vendorId" = None ∨ l !! "price" = None) →
               ∃ id stored,
                 bookings db !! id = None
                 ∧ bookingRoutes.post db now user body
                   = (set_bookings (<[id := stored]> (bookings db)) db,
                      mkResponse 201 (FirebaseService.with_id id stored))
                 ∧ stored !! "status" = Some (VStr "pending")
                 ∧ stored !! "paymentStatus" = Some (VStr "pending")
                 ∧ stored !! "totalAmount" = l !! "price"
                 ∧ stored !! "vendorId" = l !! "vendorId"
                 ∧ stored !! "userId" = Some (VStr (uid user))
                 ∧ stored !! "listingId" = Some (VStr listingId)
                 ∧ date_ge (BookingService.bookingStart stored)
                     (BookingService.bookingEnd stored) = false)
        end
  end.
Proof.
  unfold bookingRoutes.post.
  destruct (validation.validateBookingData body) as [response|] eqn:Hv; [done|].
  apply validateBookingData_passes in Hv as (_ & Hs & He & Hge).
  intros listingId ->.
  destruct (listings db !! listingId) as [l|]; [|done].
  cbv zeta.
  pose proof (handler_newBooking_undefined now user listingId l body) as Hu.
  split.
  - intros H.
    assert (holds_undefined
              (bookingController.newBooking now user listingId l body) = true)
      as Hundef by (apply Hu; destruct H; auto).
    by rewrite (add_Err _ _ Hundef).
  - intros H.
    assert (holds_undefined
              (bookingController.newBooking now user listingId l body) = false)
      as Hdef.
    { destruct (holds_undefined _); [|done]. exfalso.
      destruct (proj1 Hu eq_refl) as [?|[?|[Hn|Hn]]]; [by apply H; left
        |by apply H; right|by rewrite Hn in Hs|by rewrite Hn in He]. }
    rewrite (add_Ok _ _ Hdef). eexists _, _.
    split; [apply fresh_free|]. split; [done|].
    unfold BookingService.bookingStart, BookingService.bookingEnd.
    repeat split; by literal_lookup.
Qed.

End handlers.

(** ** Deleting a listing *)

Section deleting.
Import Js listingController.

Lemma query_nil (c : gmap string doc) (conds : list Firestore.condition) :
  Firestore.query c conds = [] ↔
  ∀ id d, c !! id = Some d → forallb (Firestore.matches d) conds = false.
Proof.
  unfold Firestore.query. split.
  - intros H id d Hd.
    destruct (forallb (Firestore.matches d) conds) eqn:E; [|done].
    assert (Hin : In (id, d)
              (List.filter (λ p, forallb (Firestore.matches p.2) conds)
                 (map_to_list c))).
    { apply filter_In. split; [|done].
      by apply list_elem_of_In, elem_of_map_to_list. }
    rewrite H in Hin. destruct Hin.
  - intros H.
    destruct (List.filter _ (map_to_list c)) as [|[id d] l] eqn:E; [done|].
    assert (Hin : In (id, d)
              (List.filter (λ p, forallb (Firestore.matches p.2) conds)
                 (map_to_list c))) by (rewrite E; by left).
    apply filter_In in Hin as [Hin Hm].
    apply list_elem_of_In, elem_of_map_to_list in Hin.
    simpl in Hm. rewrite (H id d Hin) in Hm. discriminate.
Qed.

Lemma val_eq_VStr_false (x : jsval) (s : string) :
  val_eq x (VStr s) = false ↔ x ≠ VStr s.
Proof.
  rewrite <- val_eq_VStr. destruct (val_eq x (VStr s)); split; congruence.
Qed.

Lemma matches_blocks (id : string) (d : doc) :
  forallb (Firestore.matches d)
    [ Firestore.WhereEq "listingId" (VStr id);
      Firestore.WhereNe "status" (VStr "cancelled") ] = true
  ↔ blocks_deletion id d.
Proof.
  unfold blocks_deletion. simpl. rewrite andb_true_r, andb_true_iff. split.
  - intros [Hl Hs]. split.
    + destruct (d !! "listingId") as [x|]; [|done].
      apply val_eq_VStr in Hl. by subst.
    + destruct (d !! "status") as [x|]; [|done]. exists x. split; [done|].
      apply val_eq_VStr_false. by destruct (val_eq x (VStr "cancelled")).
  - intros [Hl (x & Hs & Hne)]. rewrite Hl, Hs. split.
    + by apply val_eq_VStr.
    + apply val_eq_VStr_false in Hne. by rewrite Hne.
Qed.

(** The owner's deletion goes through when no booking blocks it. *)
Lemma deleteListing_succeeds (db : Db) (user : User) (id : string) (l : doc) :
  listings db !! id = Some l →
  l !! "vendorId" = Some (VStr (uid user)) →
  (∀ bid b, bookings db !! bid = Some b → ¬ blocks_deletion id b) →
  deleteListing db user id
  = (set_listings (delete id (listings db)) db,
     mkResponse 200 {[ "message" := VStr "Listing deleted successfully" ]}).
Proof.
  intros Hl Hv Hno. unfold deleteListing.
  rewrite Hl, (proj2 (strict_eq_VStr _ _) Hv). simpl.
  assert (Firestore.query (bookings db)
            [ Firestore.WhereEq "listingId" (VStr id);
              Firestore.WhereNe "status" (VStr "cancelled") ] = []) as ->; [|done].
  apply query_nil. intros bid b Hb.
  destruct (forallb _ _) eqn:E; [|done].
  apply matches_blocks in E. by destruct (Hno bid b Hb).
Qed.

(** The owner's deletion is refused while a booking blocks it. *)
Lemma deleteListing_blocked (db : Db) (user : User) (id : string) (l : doc)
    (bid : string) (b : doc) :
  listings db !! id = Some l →
  l !! "vendorId" = Some (VStr (uid user)) →
  bookings db !! bid = Some b → blocks_deletion id b →
  deleteListing db user id
  = (db, error_response 400 "Cannot delete listing with active bookings").
Proof.
  intros Hl Hv Hb Hblk. unfold deleteListing.
  rewrite Hl, (proj2 (strict_eq_VStr _ _) Hv). simpl.
  destruct (Firestore.query _ _) as [|p q] eqn:E; [|done].
  apply matches_blocks in Hblk.
  rewrite (proj1 (query_nil _ _) E bid b Hb) in Hblk. discriminate.
Qed.

(** `deleteListing` answers 404 for a missing listing and 403 to anyone but
    its vendor.  For the vendor it is refused with 400 as long as some
    booking names the listing with a status other than 'cancelled', and it
    removes the listing as soon as there is none; the bookings and the
    transactions are never touched, so the cancelled bookings of a deleted
    listing stay in the store. *)
Theorem deleteListing_spec (db : Db) (user : User) (id : string) :
  bookings (deleteListing db user id).1 = bookings db
  ∧ transactions (deleteListing db user id).1 = transactions db
  ∧ match listings db !! id with
    | None =>
        deleteListing db user id = (db, error_response 404 "Listing not found")
    | Some l =>
        if strict_eq (l !! "vendorId") (Some (VStr (uid user))) then
          ((∃ bid b, bookings db !! bid = Some b ∧ blocks_deletion id b) →
           deleteListing db user id
           = (db, error_response 400
                    "Cannot delete listing with active bookings"))
          ∧ ((∀ bid b, bookings db !! bid = Some b → ¬ blocks_deletion id b) →
             code (deleteListing db user id).2 = 200%Z
             ∧ listings (deleteListing db user id).1 = delete id (listings db))
        else
          deleteListing db user id = (db, error_response 403 "Unauthorized")
    end.
Proof.
  split; [|split].
  - unfold deleteListing. destruct (listings db !! id); [|done].
    destruct (negb _); [done|]. by destruct (Firestore.query _ _).
  - unfold deleteListing. destruct (listings db !! id); [|done].
    destruct (negb _); [done|]. by destruct (Firestore.query _ _).
  - destruct (listings db !! id) as [l|] eqn:Hl.
    2:{ unfold deleteListing. by rewrite Hl. }
    destruct (strict_eq (l !! "vendorId") (Some (VStr (uid user)))) eqn:Hv.
    2:{ unfold deleteListing. by rewrite Hl, Hv. }
    apply strict_eq_VStr in Hv. split.
    + intros (bid & b & Hb & Hblk). by apply (deleteListing_blocked _ _ _ l bid b).
    + intros Hno. by rewrite (deleteListing_succeeds _ _ _ l).
Qed.

(** Cancelling unblocks deletion: once `cancelBooking` has succeeded for
    the only booking that still blocked a listing, the listing's vendor can
    delete it. *)
Theorem cancel_then_delete (db : Db) (now : Z)
    (bookingId userId cancelReason : string) (db' : Db) (r : option doc) :
  BookingService.cancelBooking db now bookingId userId cancelReason
    = Ok (db', r) →
  ∀ user listingId l,
    listings db !! listingId = Some l →
    l !! "vendorId" = Some (VStr (uid user)) →
    (∀ bid b, bid ≠ bookingId → bookings db !! bid = Some b →
       ¬ blocks_deletion listingId b) →
    deleteListing db' user listingId
    = (set_listings (delete listingId (listings db')) db',
       mkResponse 200 {[ "message" := VStr "Listing deleted successfully" ]}).
Proof.
  intros (d & d' & Hd & _ & _ & -> & Hs & _)%cancelBooking_Ok
    user listingId l Hl Hv Hothers.
  apply (deleteListing_succeeds _ _ _ l); [done..|].
  intros bid b Hb Hblk. cbn [bookings set_bookings] in Hb.
  destruct (decide (bookingId = bid)) as [<-|Hneq].
  - rewrite lookup_insert_eq in Hb. injection Hb as <-.
    destruct Hblk as [_ (x & Hx & Hne)]. congruence.
  - rewrite lookup_insert_ne in Hb by done. by apply (Hothers bid b).
Qed.

(** Listing L cannot be deleted while booking b1 is pending; after alice
    has cancelled b1, its vendor deletes it. *)
Lemma cancel_then_delete_witness :
  code (deleteListing Examples.db1 (mkUser "vendor1" None None) "L").2 = 400%Z
  ∧ ∃ db' r,
      BookingService.cancelBooking Examples.db1 0 "b1" "alice" "" = Ok (db', r)
      ∧ deleteListing db' (mkUser "vendor1" None None) "L"
        = (set_listings (delete "L" (listings db')) db',
           mkResponse 200
             {[ "message" := VStr "Listing deleted successfully" ]}).
Proof.
  split; [vm_compute; reflexivity|].
  assert (E := alice_cancels_b1).
  eexists _, _. split; [exact E|].
  apply (cancel_then_delete _ _ _ _ _ _ _ E (mkUser "vendor1" None None) "L"
           Examples.listingL); [reflexivity|reflexivity|].
  intros bid b Hne Hb _. unfold Examples.db1 in Hb. cbn [bookings] in Hb.
  apply lookup_singleton_Some in Hb as [<- _]. done.
Defined.

End deleting.

(** ** Refunds and the payment service *)

Section payment_service.
Import Js StripeService.

Lemma Math_round_inject_Z (n : Z) : Math_round (inject_Z n) = n.
Proof.
  unfold Math_round, Qfloor, Qplus, inject_Z. simpl.
  change (Z.pos (1 * 2)) with 2%Z.
  symmetry. apply Z.div_unique with (r := 1%Z); lia.
Qed.

Lemma Math_round_whole (x : Q) (n : Z) : (x == inject_Z n)%Q → Math_round x = n.
Proof.
  intros H. unfold Math_round. rewrite H. apply Math_round_inject_Z.
Qed.

(** `processRefund` when the processor accepts the request.  An amount in
    whole cents is sent as that number of cents and reported back in
    dollars unchanged; no amount, or the amount 0, sends a request without
    an amount (a full refund) and reports `null`. *)
Theorem processRefund_amounts (refunds : Stripe.refund_fn)
    (refundData : RefundData) (refund : Stripe.Refund) :
  refunds (refundParams refundData) = Ok refund →
  ∃ details,
    processRefund refunds refundData = Ok details
    ∧ refundId details = Stripe.re_id refund
    ∧ (∀ a cents,
         refundDollars refundData = Some a →
         (a * 100 == inject_Z cents)%Q → cents ≠ 0%Z →
         Stripe.refund_amount (refundParams refundData) = Some cents
         ∧ ∃ q, refunded details = Some q ∧ (q == a)%Q)
    ∧ (refundDollars refundData = None
       ∨ (∃ a, refundDollars refundData = Some a ∧ (a == 0)%Q) →
       Stripe.refund_amount (refundParams refundData) = None
       ∧ refunded details = None).
Proof.
  intros Hr. unfold processRefund. rewrite Hr. eexists. split; [done|].
  split; [done|]. cbn [refunded refundParams Stripe.refund_amount]. split.
  - intros a cents -> Hc Hnz. unfold refundAmount.
    assert (Qeq_bool a 0 = false) as ->.
    { destruct (Qeq_bool a 0) eqn:E; [|done]. apply Qeq_bool_iff in E.
      rewrite E in Hc. exfalso. apply Hnz.
      unfold Qeq in Hc. simpl in Hc. lia. }
    rewrite (Math_round_whole _ _ Hc).
    split; [done|]. destruct (Z.eqb_spec cents 0) as [|_]; [done|].
    eexists. split; [done|]. rewrite <- Hc. field.
  - intros [->|(a & -> & Ha)]; [done|]. unfold refundAmount.
    by rewrite (proj2 (Qeq_bool_iff _ _) Ha).
Qed.

Lemma processRefund_amounts_witness :
  Examples.refunds_ok (refundParams Examples.refund_12_34)
  = Ok {| Stripe.re_id := "re_1"; Stripe.re_status := "succeeded" |}
  ∧ ∃ details,
      processRefund Examples.refunds_ok Examples.refund_12_34 = Ok details
      ∧ Stripe.refund_amount (refundParams Examples.refund_12_34) = Some 1234%Z
      ∧ ∃ q, refunded details = Some q ∧ (q == 1234 # 100)%Q.
Proof.
  split; [reflexivity|].
  destruct (processRefund_amounts Examples.refunds_ok Examples.refund_12_34
              {| Stripe.re_id := "re_1"; Stripe.re_status := "succeeded" |}
              eq_refl) as (details & Hd & _ & Hwhole & _).
  exists details. split; [exact Hd|].
  apply (Hwhole (1234 # 100) 1234%Z); [reflexivity|reflexivity|lia].
Defined.

Lemma transactionRecord_vendorId (now : Z) (bookingId v : jsval)
    (paymentIntent : Stripe.PaymentIntent) :
  object_of
    (paymentController.transactionRecord now bookingId (Some v) paymentIntent)
    !! "vendorId" = Some v.
Proof.
  rewrite transactionRecord_object, !set_prop_lookup. by repeat case_decide.
Qed.

Lemma transactionRecord_amount (now : Z) (bookingId : jsval)
    (vendorId : option jsval) (paymentIntent : Stripe.PaymentIntent) :
  object_of
    (paymentController.transactionRecord now bookingId vendorId paymentIntent)
    !! "amount"
  = Some (VNum (inject_Z (Stripe.pi_amount paymentIntent) / 100)).
Proof.
  rewrite transactionRecord_object, !set_prop_lookup. by repeat case_decide.
Qed.

Lemma transactionRecord_id (now : Z) (bookingId : jsval)
    (vendorId : option jsval) (paymentIntent : Stripe.PaymentIntent) :
  object_of
    (paymentController.transactionRecord now bookingId vendorId paymentIntent)
    !! "id" = None.
Proof.
  rewrite transactionRecord_object, !set_prop_lookup.
  by repeat case_decide.
Qed.

(** The service functions `processSuccessfulPayment` and
    `processFailedPayment` and the webhook helpers `handleSuccessfulPayment`
    and `handleFailedPayment` write the same thing.  For a payment intent
    whose metadata names a vendor: when the service function returns, the
    helper leaves the database the service function leaves, and the
    transaction the service returns is the one stored under its `id`, an
    identifier that was free; when the service function throws, the
    helper leaves the database as it was. *)
Theorem service_and_webhook_agree (db : Db) (now : Z)
    (paymentIntent : Stripe.PaymentIntent) :
  is_Some (Stripe.pi_metadata paymentIntent !! "vendorId") →
  match processSuccessfulPayment db now paymentIntent with
  | Ok (db', transaction) =>
      paymentController.handleSuccessfulPayment db now paymentIntent = db'
      ∧ ∃ id,
          transaction !! "id" = Some (VStr id)
          ∧ transactions db !! id = None
          ∧ FirebaseService.getDocument (transactions db') id = Some transaction
  | Err _ =>
      paymentController.handleSuccessfulPayment db now paymentIntent = db
  end
  ∧ match processFailedPayment db paymentIntent with
    | Ok (db', _) => paymentController.handleFailedPayment db paymentIntent = db'
    | Err _ => paymentController.handleFailedPayment db paymentIntent = db
    end.
Proof.
  intros [v Hv]. split.
  - unfold processSuccessfulPayment, paymentController.handleSuccessfulPayment.
    destruct (Stripe.pi_metadata paymentIntent !! "bookingId")
      as [[bookingId| |]|]; try done.
    destruct (bookings db !! bookingId) as [d|] eqn:Hd; [|done].
    rewrite (update_Some _ _ _ d Hd), Hv. cbn zeta.
    rewrite !add_Ok by done.
    cbn [mbind result_bind fst snd transactions set_bookings set_transactions].
    split; [done|]. exists (fresh (dom (transactions db))).
    split; [|split].
    + unfold FirebaseService.with_id. rewrite lookup_union.
      change (transactionData now (VStr bookingId) (Some v) paymentIntent)
        with (paymentController.transactionRecord now (VStr bookingId)
                (Some v) paymentIntent).
      by rewrite transactionRecord_id, lookup_singleton_eq.
    + apply not_elem_of_dom, is_fresh.
    + apply getDocument_insert_eq.
  - unfold processFailedPayment, paymentController.handleFailedPayment.
    destruct (Stripe.pi_metadata paymentIntent !! "bookingId")
      as [[bookingId| |]|]; try done.
    by destruct (Firestore.update _ _ _).
Qed.

Lemma service_and_webhook_agree_witness :
  ∃ db' transaction,
    processSuccessfulPayment Examples.db1 5 Examples.intent1
    = Ok (db', transaction)
    ∧ paymentController.handleSuccessfulPayment Examples.db1 5 Examples.intent1
      = db'.
Proof.
  assert (H := service_and_webhook_agree Examples.db1 5 Examples.intent1
                 (ex_intro _ (VStr "vendor1") eq_refl)).
  destruct H as [H _].
  destruct (processSuccessfulPayment Examples.db1 5 Examples.intent1)
    as [[db' transaction]|e] eqn:E.
  - exists db', transaction. split; [reflexivity|]. apply H.
  - exfalso. unfold processSuccessfulPayment in E.
    assert (Stripe.pi_metadata Examples.intent1 !! "bookingId"
            = Some (VStr "b1")) as Hb by (vm_compute; reflexivity).
    rewrite Hb in E.
    assert (bookings Examples.db1 !! "b1"
            = Some (Examples.booking "L" "alice" "pending"
                      (Examples.hour 10) (Examples.hour 11))) as Hd
      by apply lookup_singleton_eq.
    assert (Stripe.pi_metadata Examples.intent1 !! "vendorId"
            = Some (VStr "vendor1")) as Hv by (vm_compute; reflexivity).
    rewrite Hd, (update_Some _ _ _ _ Hd), Hv in E. cbv zeta in E.
    rewrite add_Ok in E by done. discriminate E.
Defined.

End payment_service.

(** ** The webhook and the payment request *)

Section webhook.
Import Js paymentController.

Lemma update_dom (c c' : gmap string doc) (id : string) (patch : doc) :
  Firestore.update c id patch = Some c' → dom c' = dom c.
Proof.
  unfold Firestore.update. destruct (c !! id) as [d|] eqn:Hd; [|done].
  intros [= <-]. rewrite dom_insert_L. apply elem_of_dom_2 in Hd. set_solver.
Qed.

Lemma handleSuccessfulPayment_frame (db : Db) (now : Z)
    (paymentIntent : Stripe.PaymentIntent) :
  let db' := handleSuccessfulPayment db now paymentIntent in
  listings db' = listings db
  ∧ dom (bookings db') = dom (bookings db)
  ∧ transactions db ⊆ transactions db'.
Proof.
  cbv zeta. unfold handleSuccessfulPayment.
  destruct (Stripe.pi_metadata paymentIntent !! "bookingId")
    as [[bookingId| |]|]; try done.
  destruct (bookings db !! bookingId) as [d|] eqn:Hd; [|done].
  destruct (Firestore.update _ _ _) as [bookings'|] eqn:Hu; [|done].
  cbv zeta. unfold Firestore.add.
  destruct (holds_undefined _); cbn [listings bookings transactions
    set_bookings set_transactions].
  - split; [done|]. split; [by eapply update_dom|done].
  - split; [done|]. split; [by eapply update_dom|].
    apply insert_subseteq, not_elem_of_dom, is_fresh.
Qed.

Lemma handleFailedPayment_frame (db : Db)
    (paymentIntent : Stripe.PaymentIntent) :
  let db' := handleFailedPayment db paymentIntent in
  listings db' = listings db
  ∧ dom (bookings db') = dom (bookings db)
  ∧ transactions db' = transactions db.
Proof.
  cbv zeta. unfold handleFailedPayment.
  destruct (Stripe.pi_metadata paymentIntent !! "bookingId")
    as [[bookingId| |]|]; try done.
  destruct (Firestore.update _ _ _) as [bookings'|] eqn:Hu; [|done].
  cbn. split; [done|]. split; [by eapply update_dom|done].
Qed.

(** `handleWebhook` answers 400 exactly when the event cannot be
    constructed and 200 for every constructed event, whatever happens while
    it is handled.  No event creates or deletes a booking or touches a
    listing, stored transactions are never changed or removed, and an
    event of another type than the two handled ones, like a rejected one,
    leaves the database as it was. *)
Theorem handleWebhook_acknowledges (db : Db) (now : Z)
    (event : option Stripe.Event) :
  let out := handleWebhook db now event in
  (out.2 = 400%Z ↔ event = None)
  ∧ (out.2 = 200%Z ↔ event ≠ None)
  ∧ listings out.1 = listings db
  ∧ dom (bookings out.1) = dom (bookings db)
  ∧ transactions db ⊆ transactions out.1
  ∧ match event with
    | Some (Stripe.payment_intent_succeeded _) => True
    | Some (Stripe.payment_intent_payment_failed _) =>
        transactions out.1 = transactions db
    | Some (Stripe.other_event _) | None => out.1 = db
    end.
Proof.
  cbv zeta. destruct event as [[paymentIntent|failedPayment|type]|]; cbn.
  - destruct (handleSuccessfulPayment_frame db now paymentIntent)
      as (Hl & Hb & Ht).
    repeat split; try done.
  - destruct (handleFailedPayment_frame db failedPayment) as (Hl & Hb & Ht).
    repeat split; try done; by rewrite Ht.
  - repeat split; done.
  - repeat split; done.
Qed.

(** The guards of the HTTP handler `createPaymentIntent`.  Unless it
    answers 200 it writes nothing, and it never touches listings,
    transactions or the set of bookings.  The answers 400, 403 and 404 are
    given before the processor is called: they are the same whatever the
    processor would do.  An answer 200 means that the body named a stored
    booking whose vendor or customer is the requester. *)
Theorem createPaymentIntent_guards (stripe : Stripe.create_fn) (db : Db)
    (uid : string) (body : Body) :
  let out := createPaymentIntent stripe db uid body in
  (code out.2 = 200%Z ∨ out.1 = db)
  ∧ listings out.1 = listings db
  ∧ transactions out.1 = transactions db
  ∧ dom (bookings out.1) = dom (bookings db)
  ∧ (code out.2 ∈ [400%Z; 403%Z; 404%Z] →
     ∀ stripe' : Stripe.create_fn,
       createPaymentIntent stripe' db uid body = out)
  ∧ (code out.2 = 200%Z →
     ∃ id d,
       bookingId body = Some id
       ∧ bookings db !! id = Some d
       ∧ (d !! "vendorId" = Some (VStr uid) ∨ d !! "userId" = Some (VStr uid))).
Proof.
  cbv zeta. unfold createPaymentIntent.
  destruct (bookingId body) as [id|] eqn:Hid; cbn [or_undefined];
    [|split_and!; try done; by right].
  destruct (String.eqb id ""); [split_and!; try done; by right|].
  destruct (amount body) as [a|]; [|split_and!; try done; by right].
  destruct (Qeq_bool a 0); [split_and!; try done; by right|].
  destruct (bookings db !! id) as [d|] eqn:Hd;
    [|split_and!; try done; by right].
  assert (negb (strict_eq (d !! "vendorId") (Some (VStr uid)))
          && negb (strict_eq (d !! "userId") (Some (VStr uid))) = false →
          d !! "vendorId" = Some (VStr uid) ∨ d !! "userId" = Some (VStr uid))
    as Hwho.
  { intros H. apply andb_false_iff in H as [H|H];
      apply negb_false_iff, strict_eq_VStr in H; auto. }
  destruct (negb _ && negb _); [split_and!; try done; by right|].
  specialize (Hwho eq_refl).
  destruct (stripe _) as [paymentIntent|e].
  - rewrite (update_Some _ _ _ d Hd). cbn. split_and!; try done.
    + by left.
    + rewrite dom_insert_L. apply elem_of_dom_2 in Hd. set_solver.
    + intros H. exfalso. set_solver.
    + intros _. by exists id, d.
  - cbn. split_and!; try done.
    + by right.
    + intros H. exfalso. set_solver.
Qed.

End webhook.

(** ** Removing properties *)

Section sanitizing.
Import validators.

Lemma sanitizeObject_cons {V : Type} (obj : gmap string V) (field : string)
    (fields : list string) :
  sanitizeObject obj (field :: fields) = sanitizeObject (delete field obj) fields.
Proof. reflexivity. Qed.

Lemma sanitizeObject_lookup {V : Type} (obj : gmap string V)
    (fields : list string) (k : string) :
  sanitizeObject obj fields !! k
  = if decide (k ∈ fields) then None else obj !! k.
Proof.
  revert obj. induction fields as [|f fields IH]; intros obj.
  - case_decide; [by apply elem_of_nil in H|done].
  - rewrite sanitizeObject_cons, IH, lookup_delete.
    repeat case_decide; try done; exfalso; set_solver.
Qed.

(** `sanitizeObject(obj, fieldsToRemove)` on an object: the result has none
    of the listed properties and every other property as in `obj`; it
    never has more properties than `obj`, and sanitizing twice, or listing
    a field twice, changes nothing further. *)
Theorem sanitizeObject_spec (obj : doc) (fieldsToRemove : list string) :
  (∀ k, sanitizeObject obj fieldsToRemove !! k
        = if decide (k ∈ fieldsToRemove) then None else obj !! k)
  ∧ sanitizeObject obj fieldsToRemove ⊆ obj
  ∧ sanitizeObject (sanitizeObject obj fieldsToRemove) fieldsToRemove
    = sanitizeObject obj fieldsToRemove
  ∧ sanitizeObject obj (fieldsToRemove ++ fieldsToRemove)
    = sanitizeObject obj fieldsToRemove.
Proof.
  pose proof (@sanitizeObject_lookup jsval) as Hlookup.
  split; [apply Hlookup|]. split; [|split].
  - apply map_subseteq_spec. intros k v. rewrite Hlookup. by case_decide.
  - apply map_eq. intros k. rewrite !Hlookup. by case_decide.
  - apply map_eq. intros k. rewrite !Hlookup.
    repeat case_decide; try done; exfalso; set_solver.
Qed.




End sanitizing.

(** ** A payment on the vendor's dashboard *)

Section dashboard.
Import Js userController.

Lemma Qopt_refl (a : option Q) : option_Forall2 Qeq a a.
Proof. destruct a; constructor. reflexivity. Qed.

Lemma Qopt_trans (a b c : option Q) :
  option_Forall2 Qeq a b → option_Forall2 Qeq b c → option_Forall2 Qeq a c.
Proof.
  intros [x y Hxy|]; inversion 1; subst; constructor.
  by etransitivity.
Qed.

Lemma add_amount_None (data : doc) : add_amount None data = None.
Proof. reflexivity. Qed.

Lemma add_amount_proper (a a' : option Q) (data : doc) :
  option_Forall2 Qeq a a' →
  option_Forall2 Qeq (add_amount a data) (add_amount a' data).
Proof.
  intros [x y Hxy|]; [|constructor]. unfold add_amount.
  destruct (or _ _) as [[s|q|t]|]; constructor. by rewrite Hxy.
Qed.

Lemma add_amount_swap (a : option Q) (x y : doc) :
  option_Forall2 Qeq (add_amount (add_amount a x) y)
                     (add_amount (add_amount a y) x).
Proof.
  destruct a as [r|]; [|constructor]. unfold add_amount.
  destruct (or (x !! "amount") _) as [[s|q|t]|],
           (or (y !! "amount") _) as [[s'|q'|t']|]; constructor.
  ring.
Qed.

(** The two revenue loops: [p] selects the transactions that count. *)
Lemma revenue_proper (p : doc → bool) (l : list doc) (a a' : option Q) :
  option_Forall2 Qeq a a' →
  option_Forall2 Qeq
    (fold_left (λ revenue data, if p data then add_amount revenue data else revenue) l a)
    (fold_left (λ revenue data, if p data then add_amount revenue data else revenue) l a').
Proof.
  revert a a'. induction l as [|d l IH]; intros a a' Ha; [done|].
  cbn [fold_left]. apply IH. destruct (p d); [by apply add_amount_proper|done].
Qed.

(** In exact arithmetic the revenue does not depend on the order in which
    the snapshot hands out the documents. *)
Lemma revenue_Permutation (p : doc → bool) (l l' : list doc) :
  l ≡ₚ l' → ∀ a a' : option Q,
  option_Forall2 Qeq a a' →
  option_Forall2 Qeq
    (fold_left (λ revenue data, if p data then add_amount revenue data else revenue) l a)
    (fold_left (λ revenue data, if p data then add_amount revenue data else revenue) l' a').
Proof.
  induction 1 as [|d l l' _ IH|x y l|l l' l'' _ IH1 _ IH2]; intros a a' Ha.
  - done.
  - cbn [fold_left]. apply IH.
    destruct (p d); [by apply add_amount_proper|done].
  - cbn [fold_left]. apply revenue_proper.
    destruct (p x), (p y); try by (try apply add_amount_proper).
    eapply Qopt_trans; [apply add_amount_swap|].
    by do 2 apply add_amount_proper.
  - eapply Qopt_trans; [apply IH1, Ha|]. apply IH2, Qopt_refl.
Qed.

Lemma revenue_None (p : doc → bool) (l : list doc) :
  fold_left (λ revenue data, if p data then add_amount revenue data else revenue)
    l None = None.
Proof. induction l as [|d l IH]; [done|]. cbn [fold_left]. by destruct (p d). Qed.

Lemma revenue_shift (p : doc → bool) (l : list doc) (c : Q) :
  ∀ a r a' : Q,
  fold_left (λ revenue data, if p data then add_amount revenue data else revenue)
    l (Some a) = Some r →
  (a' == a + c)%Q →
  ∃ r',
    fold_left (λ revenue data, if p data then add_amount revenue data else revenue)
      l (Some a') = Some r'
    ∧ (r' == r + c)%Q.
Proof.
  induction l as [|d l IH]; intros a r a' Hr Ha.
  - injection Hr as <-. by exists a'.
  - cbn [fold_left] in Hr |- *. destruct (p d); [|by eapply IH].
    unfold add_amount in Hr |- *.
    destruct (or (d !! "amount") _) as [[s|q|t]|];
      try (rewrite revenue_None in Hr; discriminate Hr).
    eapply IH; [exact Hr|]. rewrite Ha. ring.
Qed.

Lemma filter_Permutation {A : Type} (f : A → bool) (l l' : list A) :
  l ≡ₚ l' → List.filter f l ≡ₚ List.filter f l'.
Proof.
  induction 1 as [|x l l' _ IH|x y l|l l' l'' _ IH1 _ IH2]; cbn [List.filter].
  - done.
  - destruct (f x); [by constructor|done].
  - destruct (f x), (f y); try done. apply perm_swap.
  - by etransitivity.
Qed.

Lemma vendorDocs_insert (c : gmap string doc) (id : string) (data : doc)
    (data_vendor vendorId : string) :
  c !! id = None →
  data !! "vendorId" = Some (VStr data_vendor) →
  vendorDocs (<[id := data]> c) vendorId
  ≡ₚ (if String.eqb data_vendor vendorId then [data] else []) ++ vendorDocs c vendorId.
Proof.
  intros Hid Hv. unfold vendorDocs, Firestore.query.
  etransitivity.
  { apply fmap_Permutation, filter_Permutation, map_to_list_insert, Hid. }
  cbn [List.filter forallb Firestore.matches snd]. rewrite Hv.
  cbn [val_eq]. rewrite andb_true_r. by destruct (String.eqb _ _).
Qed.

(** What a transaction written by `handleSuccessfulPayment` adds to a
    revenue loop of the dashboard. *)
Lemma revenue_insert (p : doc → bool) (c : gmap string doc) (id : string)
    (data : doc) (data_vendor vendorId : string) (q m : Q) :
  c !! id = None →
  data !! "vendorId" = Some (VStr data_vendor) →
  data !! "amount" = Some (VNum q) →
  fold_left (λ revenue data, if p data then add_amount revenue data else revenue)
    (vendorDocs c vendorId) (Some 0%Q) = Some m →
  ∃ m',
    fold_left (λ revenue data, if p data then add_amount revenue data else revenue)
      (vendorDocs (<[id := data]> c) vendorId) (Some 0%Q) = Some m'
    ∧ (m' == m + (if String.eqb data_vendor vendorId && p data then q else 0))%Q.
Proof.
  intros Hid Hv Hq Hm.
  pose proof (revenue_Permutation p _ _
                (vendorDocs_insert c id data data_vendor vendorId Hid Hv)
                (Some 0%Q) (Some 0%Q) (Qopt_refl _)) as Hperm.
  assert (∃ r',
            fold_left
              (λ revenue data, if p data then add_amount revenue data else revenue)
              ((if String.eqb data_vendor vendorId then [data] else [])
               ++ vendorDocs c vendorId) (Some 0%Q) = Some r'
            ∧ (r' == m + (if String.eqb data_vendor vendorId && p data
                          then q else 0))%Q) as (r' & Hr' & Hr'm).
  { destruct (String.eqb data_vendor vendorId); cbn [andb app fold_left].
    - destruct (p data).
      + unfold add_amount, or, truthy. rewrite Hq.
        destruct (Qeq_bool q 0) eqn:Hz; cbn [negb].
        * apply Qeq_bool_iff in Hz.
          eapply revenue_shift; [exact Hm|]. rewrite Hz. ring.
        * eapply revenue_shift; [exact Hm|]. ring.
      + exists m. split; [done|]. ring.
    - exists m. split; [done|]. ring. }
  rewrite Hr' in Hperm. inversion Hperm as [x y Hxy Hx Hy|]; subst.
  exists x. split; [done|]. by rewrite Hxy.
Qed.

(** A successful payment on the dashboard, in exact arithmetic.  After
    `handleSuccessfulPayment` has handled an event for a stored booking
    whose metadata names the vendor, the vendor's `totalRevenue` is the old
    one plus the paid amount in dollars; `currentMonthRevenue` grows by the
    same amount when the event is handled in the current month and keeps
    its value otherwise; the revenues of every other vendor keep their
    values. *)
Theorem payment_raises_dashboard_revenue (db : Db) (now startOfMonth : Z)
    (paymentIntent : Stripe.PaymentIntent) (bookingId vendorId : string)
    (user : User) (total month : Q) :
  Stripe.pi_metadata paymentIntent !! "bookingId" = Some (VStr bookingId) →
  is_Some (bookings db !! bookingId) →
  Stripe.pi_metadata paymentIntent !! "vendorId" = Some (VStr vendorId) →
  totalRevenue (getDashboardMetrics db startOfMonth user) = Some total →
  currentMonthRevenue (getDashboardMetrics db startOfMonth user) = Some month →
  let db' := paymentController.handleSuccessfulPayment db now paymentIntent in
  let paid := (inject_Z (Stripe.pi_amount paymentIntent) / 100)%Q in
  ∃ total' month',
    totalRevenue (getDashboardMetrics db' startOfMonth user) = Some total'
    ∧ currentMonthRevenue (getDashboardMetrics db' startOfMonth user) = Some month'
    ∧ (total' == total + (if String.eqb vendorId (uid user) then paid else 0))%Q
    ∧ (month' == month + (if String.eqb vendorId (uid user)
                             && Z.geb now startOfMonth then paid else 0))%Q.
Proof.
  intros Hb [d Hd] Hv Htotal Hmonth. cbv zeta.
  rewrite (handleSuccessfulPayment_existing db now paymentIntent bookingId d
             (VStr vendorId) Hb Hd Hv).
  unfold getDashboardMetrics in *.
  cbn [totalRevenue currentMonthRevenue transactions uid] in *.
  pose proof (is_fresh (dom (transactions db))) as Hfresh.
  apply not_elem_of_dom in Hfresh.
  destruct (revenue_insert (λ _, true) (transactions db)
              (fresh (dom (transactions db)))
              (object_of
                 (paymentController.transactionRecord now (VStr bookingId)
                    (Some (VStr vendorId)) paymentIntent))
              vendorId (uid user) _ total Hfresh
              (transactionRecord_vendorId _ _ _ _)
              (transactionRecord_amount _ _ _ _) Htotal)
    as (total' & Ht' & Htq).
  destruct (revenue_insert
              (λ data, date_ge (new_Date (data !! "createdAt")) (Some startOfMonth))
              (transactions db)
              (fresh (dom (transactions db)))
              (object_of
                 (paymentController.transactionRecord now (VStr bookingId)
                    (Some (VStr vendorId)) paymentIntent))
              vendorId (uid user) _ month Hfresh
              (transactionRecord_vendorId _ _ _ _)
              (transactionRecord_amount _ _ _ _) Hmonth)
    as (month' & Hm' & Hmq).
  exists total', month'. split; [exact Ht'|]. split; [exact Hm'|].
  split.
  - rewrite Htq. by rewrite andb_true_r.
  - rewrite Hmq.
    assert (object_of
              (paymentController.transactionRecord now (VStr bookingId)
                 (Some (VStr vendorId)) paymentIntent) !! "createdAt"
            = Some (VTime now)) as ->.
    { rewrite transactionRecord_object, !set_prop_lookup.
      by repeat case_decide. }
    reflexivity.
Qed.

Lemma payment_raises_dashboard_revenue_witness :
  ∃ total' month',
    totalRevenue
      (getDashboardMetrics
         (paymentController.handleSuccessfulPayment Examples.db1 5 Examples.intent1)
         0 (mkUser "vendor1" None None)) = Some total'
    ∧ currentMonthRevenue
        (getDashboardMetrics
           (paymentController.handleSuccessfulPayment Examples.db1 5 Examples.intent1)
           0 (mkUser "vendor1" None None)) = Some month'
    ∧ (total' == 80)%Q ∧ (month' == 80)%Q.
Proof.
  destruct (payment_raises_dashboard_revenue Examples.db1 5 0 Examples.intent1
              "b1" "vendor1" (mkUser "vendor1" None None) 0 0)
    as (total' & month' & Ht & Hm & Htq & Hmq).
  - vm_compute; reflexivity.
  - eexists. apply lookup_singleton_eq.
  - vm_compute; reflexivity.
  - vm_compute; reflexivity.
  - vm_compute; reflexivity.
  - exists total', month'. split; [exact Ht|]. split; [exact Hm|].
    split; [rewrite Htq|rewrite Hmq]; vm_compute; reflexivity.
Defined.

End dashboard.

(** ** The dashboard and the booking metrics *)

Section dashboard_counts.
Import Js.

Lemma count_fold (g : nat → doc → nat) (f : doc → bool) (l : list doc) (n : nat) :
  (∀ n d, g n d = if f d then S n else n) →
  fold_left g l n = n + length (List.filter f l).
Proof.
  intros Hg. revert n. induction l as [|d l IH]; intros n; cbn; [lia|].
  rewrite IH, Hg. destruct (f d); cbn; lia.
Qed.

(** The status counts over one snapshot, read with and without the
    document identifiers. *)
(** Names the filtered lengths of the goal, for [lia]. *)
Ltac name_counts :=
  repeat match goal with
         | |- context [length (List.filter ?f ?l)] =>
             let n := fresh "n" in
             set (n := length (List.filter f l)) in *; clearbody n
         end.

Lemma snapshot_counts (L : list (string * doc)) :
  let has s := λ b : doc, strict_eq (b !! "status") (Some (VStr s)) in
  let withIds := (λ p, FirebaseService.with_id p.1 p.2) <$> L in
  let plain := snd <$> L in
  length (List.filter (has "pending") withIds)
  = length (List.filter (has "pending") plain)
  ∧ length (List.filter (has "pending") withIds)
    + length (List.filter (has "confirmed") withIds)
    + length (List.filter (has "cancelled") withIds)
    + length (List.filter
                (λ b, negb (has "pending" b) && has "completed" b) plain)
    ≤ length L.
Proof.
  cbv zeta. induction L as [|[id d] L [IH1 IH2]]; [done|].
  rewrite !fmap_cons. cbn [List.filter length fst snd].
  rewrite !with_id_lookup by done.
  destruct (strict_eq (d !! "status") (Some (VStr "pending"))) eqn:Hp.
  { rewrite (status_exclusive _ "pending" "confirmed"),
      (status_exclusive _ "pending" "cancelled") by done.
    cbn [negb andb length]. name_counts. lia. }
  destruct (strict_eq (d !! "status") (Some (VStr "confirmed"))) eqn:Hc.
  { rewrite (status_exclusive _ "confirmed" "cancelled"),
      (status_exclusive _ "confirmed" "completed") by done.
    cbn [negb andb length]. name_counts. lia. }
  destruct (strict_eq (d !! "status") (Some (VStr "cancelled"))) eqn:Hx.
  { rewrite (status_exclusive _ "cancelled" "completed") by done.
    cbn [negb andb length]. name_counts. lia. }
  destruct (strict_eq (d !! "status") (Some (VStr "completed")));
    cbn [negb andb length]; name_counts; lia.
Qed.

(** `getDashboardMetrics` and `getBookingMetrics` count the same bookings
    of a vendor: they report the same total and the same number of pending
    bookings, and the completed bookings of the dashboard are bookings
    that `getBookingMetrics` puts in none of its three status counts, so
    the four counts together never exceed the total.  The dashboard never
    reports more active listings than listings. *)
Theorem dashboard_agrees_with_metrics (db : Db) (now startOfMonth : Z)
    (user : User) :
  let dash := userController.getDashboardMetrics db startOfMonth user in
  let m := BookingService.getBookingMetrics db now (uid user) in
  userController.totalBookings dash = BookingService.totalBookings m
  ∧ userController.pendingBookings dash = BookingService.pendingBookings m
  ∧ BookingService.pendingBookings m + BookingService.confirmedBookings m
    + BookingService.cancelledBookings m + userController.completedBookings dash
    ≤ userController.totalBookings dash
  ∧ userController.activeListings dash ≤ userController.totalListings dash.
Proof.
  cbv zeta. unfold userController.getDashboardMetrics,
    BookingService.getBookingMetrics.
  cbn [userController.totalBookings userController.pendingBookings
       userController.completedBookings userController.activeListings
       userController.totalListings].
  destruct (count_booking_fold now (BookingService.vendorBookings db (uid user))
    {| BookingService.totalBookings :=
         length (BookingService.vendorBookings db (uid user));
       BookingService.pendingBookings := 0;
       BookingService.confirmedBookings := 0;
       BookingService.cancelledBookings := 0;
       BookingService.upcomingBookings := 0;
       BookingService.pastBookings := 0;
       BookingService.totalRevenue := Some 0%Q |}) as (Ht & Hp & Hc & Hx & _ & _).
  cbn [BookingService.totalBookings BookingService.pendingBookings
       BookingService.confirmedBookings BookingService.cancelledBookings] in *.
  rewrite Ht, Hp, Hc, Hx. clear Ht Hp Hc Hx.
  rewrite (count_fold _
             (λ d, strict_eq (d !! "status") (Some (VStr "pending")))) by done.
  rewrite (count_fold _
             (λ d, negb (strict_eq (d !! "status") (Some (VStr "pending")))
                   && strict_eq (d !! "status") (Some (VStr "completed")))).
  2: { intros n d. by destruct (strict_eq _ _), (strict_eq _ _). }
  rewrite (count_fold _
             (λ d, strict_eq (d !! "status") (Some (VStr "active")))) by done.
  unfold BookingService.vendorBookings, FirebaseService.queryDocuments,
    userController.vendorDocs, Firestore.query.
  destruct (snapshot_counts
              (List.filter
                 (λ p, forallb (Firestore.matches p.2)
                         [Firestore.WhereEq "vendorId" (VStr (uid user))])
                 (map_to_list (bookings db)))) as [H1 H2].
  pose proof (filter_length_le
    (λ d : doc, strict_eq (d !! "status") (Some (VStr "active")))
    (snd <$> List.filter
       (λ p : string * doc,
          forallb (Firestore.matches p.2)
            [Firestore.WhereEq "vendorId" (VStr (uid user))])
       (map_to_list (listings db)))) as Hle.
  cbv zeta in H1, H2. rewrite ?length_fmap in *.
  name_counts. lia.
Qed.

End dashboard_counts.

(** ** Cancelling through the handler and through the service *)

Section cancel_paths.
Import Js.

(** The HTTP handler `cancelBooking` and the service function
    `cancelBooking`.  The handler writes only when it answers 200.  When
    it answers 200, the service function called for the same booking and
    user at the same time succeeds too, and the two stored bookings differ
    at most in `cancelReason`, `cancelledBy` and `cancelledAt`, which only
    the service writes; all other bookings are as before.  When the
    service function succeeds, the handler answers 200 or, for a user who
    is not the customer of the booking (the vendor), 403. *)
Theorem cancel_handler_and_service (db : Db) (now : Z) (user : User)
    (id cancelReason : string) :
  let out := bookingController.cancelBooking db now user id in
  let service := BookingService.cancelBooking db now id (uid user) cancelReason in
  (code out.2 = 200%Z ∨ out.1 = db)
  ∧ (code out.2 = 200%Z →
     ∃ db' r d d',
       service = Ok (db', r)
       ∧ bookings out.1 !! id = Some d
       ∧ bookings db' !! id = Some d'
       ∧ d !! "status" = Some (VStr "cancelled")
       ∧ (∀ k, k ∉ ["cancelReason"; "cancelledBy"; "cancelledAt"] →
               d' !! k = d !! k)
       ∧ ∀ other, other ≠ id →
           bookings db' !! other = bookings out.1 !! other)
  ∧ (is_Some (match service with Ok a => Some a | Err _ => None end) →
     code out.2 = 200%Z
     ∨ (code out.2 = 403%Z
        ∧ ∃ d, bookings db !! id = Some d
               ∧ d !! "userId" ≠ Some (VStr (uid user))
               ∧ d !! "vendorId" = Some (VStr (uid user)))).
Proof.
  cbv zeta.
  unfold bookingController.cancelBooking, BookingService.cancelBooking,
    FirebaseService.getDocument, FirebaseService.updateDocument,
    BookingService.bookingStart.
  destruct (bookings db !! id) as [d0|] eqn:Hd; cbn [fmap option_fmap option_map].
  2: { split_and!; [by right|done|]. by intros [? [=]]. }
  rewrite !with_id_lookup by done.
  destruct (strict_eq (d0 !! "userId") (Some (VStr (uid user)))) eqn:Hu;
    cbn [negb andb].
  - rewrite andb_false_r.
    destruct (strict_eq (d0 !! "status") (Some (VStr "cancelled"))) eqn:Hs.
    { split_and!; [by right|done|]. by intros [? [=]]. }
    destruct (date_lt (new_Date (d0 !! "startTime")) (Some now)) eqn:Hp.
    { split_and!; [by right|done|]. by intros [? [=]]. }
    rewrite !(update_Some _ _ _ d0 Hd). cbn [fst snd code bookings set_bookings].
    split_and!; [by left| |by left].
    intros _. eexists _, _, _, _. split; [reflexivity|].
    cbn [bookings set_bookings].
    split; [apply lookup_insert_eq|]. split; [apply lookup_insert_eq|].
    split; [by patch_lookup|]. split.
    + intros k Hk. rewrite !not_elem_of_cons in Hk.
      destruct Hk as (? & ? & ? & _).
      rewrite !lookup_union, !lookup_insert, !lookup_singleton.
      repeat case_decide; try congruence; done.
    + intros other Hne. by rewrite !lookup_insert_ne.
  - split_and!; [by right|done|].
    destruct (strict_eq (d0 !! "vendorId") (Some (VStr (uid user)))) eqn:Hv;
      cbn [negb andb]; [|by intros [? [=]]].
    intros _. right. split; [done|]. exists d0. split; [done|].
    split; [by apply strict_eq_VStr_false|by apply strict_eq_VStr].
Qed.

End cancel_paths.

(** ** Moving a booking *)

Section moving.
Import Js BookingService.

Lemma queryDocuments_no_id (c : gmap string doc)
    (conds : list Firestore.condition) (v : jsval) :
  (∀ id b, c !! id = Some b → b !! "id" = None) →
  FirebaseService.queryDocuments c (conds ++ [Firestore.WhereNe "id" v]) = [].
Proof.
  intros Hno.
  change (FirebaseService.queryDocuments c (conds ++ [Firestore.WhereNe "id" v]))
    with ((λ p : string * doc, FirebaseService.with_id p.1 p.2) <$>
            Firestore.query c (conds ++ [Firestore.WhereNe "id" v])).
  rewrite (proj2 (query_nil _ _)); [done|].
  intros id b Hb. rewrite forallb_app. cbn [forallb Firestore.matches].
  rewrite (Hno id b Hb). apply andb_false_r.
Qed.

(** `updateBooking` with new times on documents as this program stores
    them, that is without a property `id`.  The query for the other
    bookings filters on the property `id`, which no stored document has, so
    it finds nothing: whenever the new start is before the new end the
    update goes through and the new times are stored, whatever else is
    booked.  If another pending or confirmed booking of the listing
    overlaps the stored times, the store then holds a double booking. *)
Theorem updateBooking_times_unchecked (db : Db) (now : Z) (bookingId : string)
    (updateData d : doc) :
  bookings db !! bookingId = Some d →
  is_Some (d !! "listingId") →
  (∀ id b, bookings db !! id = Some b → b !! "id" = None) →
  date_lt (new_Date (or (updateData !! "startTime") (d !! "startTime")))
          (new_Date (or (updateData !! "endTime") (d !! "endTime"))) = true →
  let d' := <["updatedAt" := VTime now]> updateData ∪ d in
  let db' := set_bookings (<[bookingId := d']> (bookings db)) db in
  updateBooking db now bookingId updateData
  = Ok (db', Some (FirebaseService.with_id bookingId d'))
  ∧ ∀ listingId other o,
      other ≠ bookingId → bookings db !! other = Some o →
      active_for listingId o → active_for listingId d' →
      half_open_overlap (bookingStart d') (bookingEnd d')
        (bookingStart o) (bookingEnd o) = true →
      ¬ no_double_booking db'.
Proof.
  intros Hd [l Hl] Hno Hlt. cbv zeta. split.
  - unfold updateBooking, FirebaseService.getDocument,
      FirebaseService.updateDocument.
    rewrite Hd. cbn [fmap option_fmap option_map].
    rewrite !with_id_lookup by done. rewrite Hl.
    pose proof (queryDocuments_no_id (bookings db)
                  [ Firestore.WhereEq "listingId" l;
                    Firestore.WhereIn "status" [VStr "pending"; VStr "confirmed"] ]
                  (VStr bookingId) Hno) as Hq.
    cbn [app] in Hq. rewrite Hq.
    rewrite (date_lt_not_ge _ _ Hlt). cbn [scan].
    rewrite (update_Some _ _ _ d Hd).
    destruct (truthy (updateData !! "startTime") || truthy (updateData !! "endTime"));
      cbn; by rewrite lookup_insert_eq.
  - intros listingId other o Hne Ho Hao Had Hov Hinv.
    specialize (Hinv listingId bookingId other
                  (<["updatedAt" := VTime now]> updateData ∪ d) o
                  (not_eq_sym Hne)).
    cbn [bookings set_bookings] in Hinv.
    rewrite lookup_insert_eq, lookup_insert_ne in Hinv by done.
    specialize (Hinv eq_refl Ho Had Hao). congruence.
Qed.

Lemma db2_no_id (id : string) (b : doc) :
  bookings Examples.db2 !! id = Some b → b !! "id" = None.
Proof.
  unfold Examples.db2. cbn [bookings]. intros H.
  apply lookup_insert_Some in H as [[_ <-]|[_ H]]; [vm_compute; reflexivity|].
  apply lookup_singleton_Some in H as [_ <-]. vm_compute; reflexivity.
Qed.

(** Booking b2 (11:00-12:00) is moved to 10:30-10:45, inside booking b1. *)
Lemma updateBooking_times_unchecked_witness :
  ∃ db' r,
    updateBooking Examples.db2 7 "b2" Examples.request_1030_1045 = Ok (db', r)
    ∧ ¬ no_double_booking db'.
Proof.
  assert (bookings Examples.db2 !! "b2"
          = Some (Examples.booking "L" "bob" "confirmed"
                    (Examples.hour 11) (Examples.hour 12))) as Hd.
  { unfold Examples.db2. cbn [bookings].
    rewrite lookup_insert_ne by done. apply lookup_singleton_eq. }
  assert (bookings Examples.db2 !! "b1"
          = Some (Examples.booking "L" "alice" "pending"
                    (Examples.hour 10) (Examples.hour 11))) as Ho.
  { unfold Examples.db2. cbn [bookings]. apply lookup_insert_eq. }
  destruct (updateBooking_times_unchecked Examples.db2 7 "b2"
              Examples.request_1030_1045 _ Hd
              ltac:(eexists; vm_compute; reflexivity)
              db2_no_id ltac:(vm_compute; reflexivity)) as [E Hdouble].
  eexists _, _. split; [exact E|].
  apply (Hdouble "L" "b1" _ ltac:(done) Ho).
  - split; [vm_compute; reflexivity|left; vm_compute; reflexivity].
  - split; [vm_compute; reflexivity|right; vm_compute; reflexivity].
  - vm_compute; reflexivity.
Defined.

End moving.
